(** * Attendance tracker: a shallow embedding of [AttendanceTracker] (new.py)

    The tracker is a Python object whose methods mutate its dictionaries in
    place and may raise.  It is embedded as a record [tracker] and a small
    state-and-exception monad [M] in which the state survives a raised
    exception, as it does in Python.

    Conventions of the embedding.
    - Python [int] is [Z].  The arithmetic of the statistics is embedded
      twice.  [get_attendance_stats] and [calculate_bunkable_classes]
      compute on exact rationals [Q], the arithmetic in which the formulas
      of the specification are written.  [Binary64.get_attendance_stats]
      and [Binary64.calculate_bunkable_classes] compute what CPython
      computes: IEEE 754 binary64 with round-to-nearest-even, the
      conversions of [int] operands, and [OverflowError] and [ValueError]
      where CPython raises them.  The two agree on every count, and
      [classes_needed] lies between the same bounds in both; they can
      differ in the value of [classes_needed], in the bunkable count and
      in the last digit of the percentage, where a rounding crosses an
      integer or a hundredth.
    - [str] is [string] (bytes; comparison by code point agrees with
      comparison of the UTF-8 bytes).
    - [dict] is [gmap], [set] is [gset]; a [defaultdict(list)] read is
      [defaultdict_get], which inserts the missing key.
    - A calendar date is its proleptic Gregorian ordinal ([date.toordinal]);
      [datetime.now().date()] is an explicit argument [today].
    - [save_data] writes the snapshot file and does not touch the object;
      it is the identity on [tracker]. *)

From Stdlib Require Import ZArith QArith Qround Lia List Bool Sorted.
From Stdlib Require Import Floats.SpecFloat.
From Stdlib Require Import String Ascii DecimalString.
From stdpp Require Import gmap strings list sorting.

Local Open Scope string_scope.
Local Open Scope list_scope.
Local Open Scope Z_scope.

(** ** Python primitives used by the tracker *)

Module Py.

(** [sub in s] for strings. *)
Fixpoint contains (sub s : string) : bool :=
  String.prefix sub s ||
  match s with
  | EmptyString => false
  | String _ s' => contains sub s'
  end.

(** [s.split(sep)] for a non-empty [sep]: [skip] counts the characters of
    a matched separator still to be dropped, [cur] is the piece being
    read, reversed. *)
Fixpoint split_go (sep : string) (skip : nat) (cur : string) (s : string)
  : list string :=
  match s with
  | EmptyString => [String.rev cur]
  | String c s' =>
      match skip with
      | S k => split_go sep k cur s'
      | O =>
          if String.prefix sep s
          then String.rev cur :: split_go sep (Nat.pred (String.length sep)) EmptyString s'
          else split_go sep O (String c cur) s'
      end
  end.

Definition split (sep s : string) : list string := split_go sep O EmptyString s.

(** [str(n)] and the [{n}] of an f-string, for an [int]. *)
Definition str (n : Z) : string := NilZero.string_of_int (Z.to_int n).

(** The white space that [int] skips around an ASCII literal: tab, line
    feed, vertical tab, form feed, carriage return and space. *)
Definition is_space (c : ascii) : bool :=
  let n := nat_of_ascii c in
  ((9 <=? n)%nat && (n <=? 13)%nat) || (n =? 32)%nat.

Fixpoint lstrip (s : string) : string :=
  match s with
  | String c s' => if is_space c then lstrip s' else s
  | EmptyString => EmptyString
  end.

Definition strip (s : string) : string :=
  String.rev (lstrip (String.rev (lstrip s))).

Definition digit (c : ascii) : option Z :=
  let n := nat_of_ascii c in
  if ((48 <=? n)%nat && (n <=? 57)%nat) then Some (Z.of_nat n - 48) else None.

(** Digits of an integer literal: a digit, then digits each optionally
    preceded by one underscore.  [acc] is the value read so far and
    [after_digit] tells whether the previous character was a digit. *)
Fixpoint digits_go (acc : Z) (after_digit : bool) (s : string) : option Z :=
  match s with
  | EmptyString => if after_digit then Some acc else None
  | String c s' =>
      match digit c with
      | Some d => digits_go (10 * acc + d) true s'
      | None =>
          if (Ascii.eqb c "_" && after_digit)%bool
          then digits_go acc false s'
          else None
      end
  end.

Fixpoint digit_count (s : string) : nat :=
  match s with
  | EmptyString => O
  | String c s' =>
      match digit c with
      | Some _ => S (digit_count s')
      | None => digit_count s'
      end
  end.

(** A literal of more than 4300 digits is refused (the default of
    [sys.set_int_max_str_digits]). *)
Definition within_digit_limit (s : string) : bool :=
  (digit_count s <=? 4300)%nat.

(** [int(s)] for a text of ASCII characters, in base ten: surrounding
    white space, an optional sign, digits with single underscores between
    them.  [None] stands for the [ValueError] of a malformed literal.  A
    text with a character outside ASCII is read as malformed here, whereas
    [int] accepts the decimal digits and the white space of other scripts:
    the tracker's own texts, the labels of the timetable form, are ASCII. *)
Definition int_of_str (s : string) : option Z :=
  let literal := strip s in
  if within_digit_limit literal then
    match literal with
    | String "-" r => Z.opp <$> digits_go 0 false r
    | String "+" r => digits_go 0 false r
    | r => digits_go 0 false r
    end
  else None.

(** Order on [(str, str)] tuples: by first component, then by second. *)
Definition tuple_leb (a b : string * string) : bool :=
  match String.compare a.1 b.1 with
  | Lt => true
  | Gt => false
  | Eq => String.leb a.2 b.2
  end.

(** [list.sort()] is a stable sort; on a total order its result does not
    depend on the algorithm, here a stable insertion sort. *)
Fixpoint insert_sorted (x : string * string) (l : list (string * string))
  : list (string * string) :=
  match l with
  | [] => [x]
  | y :: l' => if tuple_leb x y then x :: l else y :: insert_sorted x l'
  end.

Definition sort (l : list (string * string)) : list (string * string) :=
  foldr insert_sorted [] l.

(** [math.ceil] and [int] on an exact rational. *)
Definition ceil (x : Q) : Z := Qceiling x.

Definition trunc (x : Q) : Z :=
  if Qle_bool 0 x then Qfloor x else Qceiling x.

(** [round(x, 2)] on an exact rational: the nearest multiple of 1/100,
    ties to the even one. *)
Definition round_half_even (x : Q) : Z :=
  let f := Qfloor x in
  let r := (x - inject_Z f)%Q in
  match Qcompare r (1 # 2) with
  | Lt => f
  | Gt => f + 1
  | Eq => if Z.even f then f else f + 1
  end.

Definition round2 (x : Q) : Q := Qmake (round_half_even (x * 100)) 100.

End Py.

(** ** Calendar: [datetime.date] by ordinal *)

Module Calendar.

(** Year, month and day of a proleptic Gregorian ordinal (day 1 is
    0001-01-01), by the usual era / day-of-era decomposition counted from
    March 1st of year 0. *)
Definition civil (ordinal : Z) : Z * Z * Z :=
  let z := ordinal + 305 in
  let era := z / 146097 in
  let doe := z - era * 146097 in
  let yoe := (doe - doe / 1460 + doe / 36524 - doe / 146096) / 365 in
  let doy := doe - (365 * yoe + yoe / 4 - yoe / 100) in
  let mp := (5 * doy + 2) / 153 in
  let d := doy - (153 * mp + 2) / 5 + 1 in
  let m := if mp <? 10 then mp + 3 else mp - 9 in
  let y := yoe + era * 400 + (if m <=? 2 then 1 else 0) in
  (y, m, d).

(** [date.weekday()]: Monday is 0. *)
Definition weekday (ordinal : Z) : Z := (ordinal + 6) mod 7.

(** [strftime('%A')]. *)
Definition day_name (ordinal : Z) : string :=
  match weekday ordinal with
  | 0 => "Monday"
  | 1 => "Tuesday"
  | 2 => "Wednesday"
  | 3 => "Thursday"
  | 4 => "Friday"
  | 5 => "Saturday"
  | _ => "Sunday"
  end.

Definition pad (width : nat) (n : Z) : string :=
  let s := Py.str n in
  String.concat "" (replicate (width - String.length s) "0") +:+ s.

(** [strftime('%Y-%m-%d')], years of four digits. *)
Definition date_str (ordinal : Z) : string :=
  let '(y, m, d) := civil ordinal in
  pad 4 y +:+ "-" +:+ pad 2 m +:+ "-" +:+ pad 2 d.

End Calendar.

(** ** Data model *)

(** A value of [self.subjects]. *)
Record subject_info := {
  name : string;
  credits : Z;
  is_lab : bool
}.

(** An element of [self.attendance_records[subject]]. *)
Record att_record := {
  date : string;
  status : string
}.

(** A value of [self.initial_attendance]. *)
Record seed := {
  present : Z;
  absent : Z;
  yet_to_go : Z
}.

(** An element of [self.timetable[day]]: [(time, subject)]. *)
Abbreviation entry := (string * string)%type (only parsing).

(** The attributes of [AttendanceTracker].  [semester_end_date] is kept as
    the date that [strptime] reads from the stored text. *)
Record tracker := {
  subjects : gmap string subject_info;
  timetable : gmap string (list entry);
  holidays : gset string;
  attendance_records : gmap string (list att_record);
  minimum_attendance : Q;
  absence_reasons : gmap string (string * string);
  semester_end_date : Z;
  initial_attendance : gmap string seed
}.

Definition with_subjects (v : gmap string subject_info) (st : tracker) : tracker :=
  {| subjects := v; timetable := timetable st; holidays := holidays st;
     attendance_records := attendance_records st;
     minimum_attendance := minimum_attendance st;
     absence_reasons := absence_reasons st;
     semester_end_date := semester_end_date st;
     initial_attendance := initial_attendance st |}.

Definition with_timetable (v : gmap string (list entry)) (st : tracker) : tracker :=
  {| subjects := subjects st; timetable := v; holidays := holidays st;
     attendance_records := attendance_records st;
     minimum_attendance := minimum_attendance st;
     absence_reasons := absence_reasons st;
     semester_end_date := semester_end_date st;
     initial_attendance := initial_attendance st |}.

Definition with_holidays (v : gset string) (st : tracker) : tracker :=
  {| subjects := subjects st; timetable := timetable st; holidays := v;
     attendance_records := attendance_records st;
     minimum_attendance := minimum_attendance st;
     absence_reasons := absence_reasons st;
     semester_end_date := semester_end_date st;
     initial_attendance := initial_attendance st |}.

Definition with_attendance_records (v : gmap string (list att_record)) (st : tracker)
  : tracker :=
  {| subjects := subjects st; timetable := timetable st; holidays := holidays st;
     attendance_records := v;
     minimum_attendance := minimum_attendance st;
     absence_reasons := absence_reasons st;
     semester_end_date := semester_end_date st;
     initial_attendance := initial_attendance st |}.

Definition with_initial_attendance (v : gmap string seed) (st : tracker) : tracker :=
  {| subjects := subjects st; timetable := timetable st; holidays := holidays st;
     attendance_records := attendance_records st;
     minimum_attendance := minimum_attendance st;
     absence_reasons := absence_reasons st;
     semester_end_date := semester_end_date st;
     initial_attendance := v |}.

(** ** Exceptions and the method monad *)

Inductive exn :=
| ValueError (msg : string)
| IndexError
| ZeroDivisionError
| OverflowError.

(** A method body: it returns or raises, and in both cases leaves a
    tracker behind. *)
Definition M (A : Type) : Type := tracker -> (exn + A) * tracker.

Definition ret {A} (a : A) : M A := fun st => (inr a, st).

Definition raise {A} (e : exn) : M A := fun st => (inl e, st).

Definition bind {A B} (m : M A) (k : A -> M B) : M B :=
  fun st =>
    match m st with
    | (inl e, st') => (inl e, st')
    | (inr a, st') => k a st'
    end.

Definition get : M tracker := fun st => (inr st, st).

Definition modify (f : tracker -> tracker) : M unit := fun st => (inr tt, f st).

Declare Scope py_scope.
Delimit Scope py_scope with py.
Notation "'let!' x ':=' c1 'in' c2" := (bind c1 (fun x => c2))
  (at level 10, x name, c1 at level 100, c2 at level 200) : py_scope.
Notation "'do!' c1 'in' c2" := (bind c1 (fun _ => c2))
  (at level 10, c1 at level 100, c2 at level 200) : py_scope.
Local Open Scope py_scope.

(** What a call returned or raised, and the tracker after it. *)
Definition outcome {A} (m : M A) (st : tracker) : exn + A := (m st).1.
Definition after {A} (m : M A) (st : tracker) : tracker := (m st).2.

(** [a / b] on exact rationals. *)
Definition truediv (a b : Q) : M Q :=
  if Qeq_bool b 0 then raise ZeroDivisionError else ret (a / b)%Q.

(** [save_data]: the snapshot goes to the file, the object is untouched. *)
Definition save_data : M unit := ret tt.

(** [self.attendance_records[subject_code]] on the [defaultdict(list)]:
    a missing key is created with an empty list. *)
Definition defaultdict_get (subject_code : string) : M (list att_record) :=
  let! st := get in
  match attendance_records st !! subject_code with
  | Some l => ret l
  | None =>
      do! modify (with_attendance_records
                    (<[subject_code := []]> (attendance_records st))) in
      ret []
  end.

(** ** Subjects and seeds *)

Definition add_subject (subject_code subject_name : string) (credits : Z)
  (is_lab : bool) : M unit :=
  do! modify (fun st =>
        with_subjects
          (<[subject_code := {| name := subject_name; credits := credits;
                                is_lab := is_lab |}]> (subjects st)) st) in
  save_data.

(** Keep the entries of a day that do not belong to [subject_code]. *)
Definition without_subject (subject_code : string) (classes : list entry)
  : list entry :=
  List.filter (fun e => negb (String.eqb e.2 subject_code)) classes.

Definition delete_subject (subject_code : string) : M unit :=
  let! st := get in
  if decide (is_Some (subjects st !! subject_code)) then
    do! modify (fun st => with_subjects (delete subject_code (subjects st)) st) in
    do! modify (fun st =>
          if decide (is_Some (attendance_records st !! subject_code))
          then with_attendance_records
                 (delete subject_code (attendance_records st)) st
          else st) in
    do! modify (fun st =>
          if decide (is_Some (initial_attendance st !! subject_code))
          then with_initial_attendance
                 (delete subject_code (initial_attendance st)) st
          else st) in
    do! modify (fun st =>
          with_timetable (without_subject subject_code <$> timetable st) st) in
    save_data
  else ret tt.

Definition set_initial_attendance (subject_code : string)
  (present absent yet_to_go : Z) : M unit :=
  do! modify (fun st =>
        with_initial_attendance
          (<[subject_code := {| present := present; absent := absent;
                                yet_to_go := yet_to_go |}]>
             (initial_attendance st)) st) in
  save_data.

Definition add_holiday (date_str : string) : M unit :=
  do! modify (fun st => with_holidays ({[date_str]} ∪ holidays st) st) in
  save_data.

(** ** Timetable *)

(** The table of [get_period_time]; a period outside it gives [""]. *)
Definition get_period_time (period_num : Z) : string :=
  match period_num with
  | 1 => "8:30-9:25"
  | 2 => "9:25-10:20"
  | 3 => "10:40-11:35"
  | 4 => "11:35-12:30"
  | 5 => "1:25-2:20"
  | 6 => "2:20-3:15"
  | 7 => "3:15-4:10"
  | _ => ""
  end.

(** [int(period_slot.split(" (")[0].split(" ")[1])]: the first piece of a
    split always exists, the second may not ([IndexError]), and [int] may
    reject it ([ValueError]). *)
Definition period_num_of (period_slot : string) : exn + Z :=
  let period_info := List.nth 0 (Py.split " (" period_slot) "" in
  match Py.split " " period_info !! 1%nat with
  | None => inl IndexError
  | Some tok =>
      match Py.int_of_str tok with
      | None => inl (ValueError "invalid literal for int() with base 10")
      | Some n => inr n
      end
  end.

Definition parse_period_num (period_slot : string) : M Z :=
  match period_num_of period_slot with
  | inl e => raise e
  | inr n => ret n
  end.

(** [time.startswith(f"Period {n}")]. *)
Definition in_period (n : Z) (time : string) : bool :=
  String.prefix ("Period " +:+ Py.str n) time.

Definition set_day (day : string) (classes : list entry) : M unit :=
  modify (fun st => with_timetable (<[day := classes]> (timetable st)) st).

(** [self.timetable[day]] once the key is known to be there. *)
Definition day_classes (day : string) : M (list entry) :=
  let! st := get in
  ret (default [] (timetable st !! day)).

Definition add_timetable_entry (day period_slot subject_code : string) : M unit :=
  let! st := get in
  do! (if decide (is_Some (timetable st !! day)) then ret tt else set_day day []) in
  let is_lab :=
    match subjects st !! subject_code with
    | Some info => is_lab info
    | None => false
    end in
  let! period_num := parse_period_num period_slot in
  let! classes := day_classes day in
  do! (if is_lab then
         let next_period_taken :=
           existsb (fun e => in_period (period_num + 1) e.1) classes in
         if (7 <=? period_num) || next_period_taken
         then raise (ValueError
                "Cannot add lab subject here - requires two consecutive periods")
         else ret tt
       else ret tt) in
  do! set_day day
        (List.filter (fun e => negb (in_period period_num e.1)) classes) in
  do! (if is_lab then
         let! classes := day_classes day in
         set_day day
           (List.filter (fun e => negb (in_period (period_num + 1) e.1)) classes)
       else ret tt) in
  let! classes := day_classes day in
  do! set_day day (classes ++ [(period_slot, subject_code)]) in
  do! (if is_lab then
         let next_slot :=
           "Period " +:+ Py.str (period_num + 1) +:+ " (" +:+
           get_period_time (period_num + 1) +:+ ")" in
         let! classes := day_classes day in
         set_day day (classes ++ [(next_slot, subject_code)])
       else ret tt) in
  let! classes := day_classes day in
  do! set_day day (Py.sort classes) in
  save_data.

(** The [time_map] of [delete_timetable_entry]; [None] is what
    [dict.get] gives for a period outside it. *)
Definition time_map (period_num : Z) : option string :=
  match period_num with
  | 1 => Some "08:30"
  | 2 => Some "09:25"
  | 3 => Some "10:40"
  | 4 => Some "11:35"
  | 5 => Some "01:25"
  | 6 => Some "02:20"
  | 7 => Some "03:15"
  | _ => None
  end.

(** The loop over [enumerate(self.timetable[day])]: [classes] is the part
    of the day's list from index [i] on, so that its second element is
    [self.timetable[day][i + 1]]. *)
Fixpoint delete_loop (time_to_find : option string)
  (period_slot subject_code : string) (skip_next : bool) (classes : list entry)
  : list entry :=
  match classes with
  | [] => []
  | (time, subj) :: rest =>
      if skip_next then
        delete_loop time_to_find period_slot subject_code false rest
      else if (bool_decide (Some time = time_to_find) || String.eqb time period_slot)
              && String.eqb subj subject_code
      then
        let skip :=
          match rest with
          | (_, subj') :: _ => String.eqb subj' subject_code
          | [] => false
          end in
        delete_loop time_to_find period_slot subject_code skip rest
      else
        (time, subj) :: delete_loop time_to_find period_slot subject_code false rest
  end.

Definition delete_timetable_entry (day period_slot subject_code : string) : M unit :=
  let! st := get in
  match timetable st !! day with
  | None => ret tt
  | Some classes =>
      let! time_to_find :=
        (if Py.contains " (" period_slot then
           let! period_num := parse_period_num period_slot in
           ret (time_map period_num)
         else ret (Some period_slot)) in
      let new_entries :=
        delete_loop time_to_find period_slot subject_code false classes in
      do! (match new_entries with
           | _ :: _ => set_day day new_entries
           | [] => modify (fun st => with_timetable (delete day (timetable st)) st)
           end) in
      save_data
  end.

(** ** Attendance ledger *)

Definition set_records (subject_code : string) (records : list att_record) : M unit :=
  modify (fun st =>
    with_attendance_records (<[subject_code := records]> (attendance_records st)) st).

Definition mark_attendance (subject_code date_str status : string) : M unit :=
  let record := {| date := date_str; status := status |} in
  let! records := defaultdict_get subject_code in
  let existing_records :=
    List.filter (fun r => String.eqb (date r) date_str) records in
  do! (match existing_records with
       | _ :: _ =>
           set_records subject_code
             (List.map (fun r => if String.eqb (date r) date_str
                                 then {| date := date r; status := status |}
                                 else r) records)
       | [] => set_records subject_code (records ++ [record])
       end) in
  save_data.

(** ** Projection *)

(** One turn of the [while current_date <= end_date] loop of
    [get_remaining_classes]. *)
Definition remaining_step (st : tracker) (subject_code : string)
  (remaining_classes : Z) (current_date : Z) : Z :=
  let day_name := Calendar.day_name current_date in
  let date_str := Calendar.date_str current_date in
  match timetable st !! day_name with
  | Some classes =>
      if decide (date_str ∈ holidays st) then remaining_classes
      else
        let subject_classes :=
          Z.of_nat (length (List.filter (fun e => String.eqb e.2 subject_code) classes)) in
        remaining_classes + subject_classes
  | None => remaining_classes
  end.

(** The loop visits every date from [today] to the semester end, both
    included, and none when [today] is later. *)
Definition remaining_loop (st : tracker) (today : Z) (subject_code : string) : Z :=
  let end_date := semester_end_date st in
  foldl (remaining_step st subject_code) 0 (seqZ today (end_date - today + 1)).

Definition get_remaining_classes (today : Z) (subject_code : string) : M Z :=
  let! st := get in
  ret (remaining_loop st today subject_code).

(** The dictionary returned by [get_attendance_stats]. *)
Record stats := {
  current_present : Z;
  current_absent : Z;
  current_total : Z;
  percentage : Q;
  remaining_classes : Z;
  stats_yet_to_go : Z;
  classes_needed : Z;
  total_possible : Z
}.

Definition count_status (s : string) (records : list att_record) : Z :=
  Z.of_nat (length (List.filter (fun r => String.eqb (status r) s) records)).

(** [get_attendance_stats] in exact arithmetic. *)
Definition get_attendance_stats (today : Z) (subject_code : string) : M stats :=
  let! records := defaultdict_get subject_code in
  let! st := get in
  let initial :=
    default {| present := 0; absent := 0; yet_to_go := 0 |}
            (initial_attendance st !! subject_code) in
  let current_present := count_status "present" records + present initial in
  let current_absent := count_status "absent" records + absent initial in
  let! remaining := get_remaining_classes today subject_code in
  let yet_to_go := yet_to_go initial in
  let total_possible := current_present + current_absent + yet_to_go in
  let current_total := current_present + current_absent in
  let! current_percentage :=
    (if 0 <? current_total then
       let! q := truediv (inject_Z current_present) (inject_Z current_total) in
       ret (q * 100)%Q
     else ret 0%Q) in
  let! classes_needed :=
    (if 0 <? total_possible then
       let! min_required_present :=
         truediv (minimum_attendance st * inject_Z total_possible)%Q 100%Q in
       let classes_needed :=
         Py.ceil (min_required_present - inject_Z current_present)%Q in
       let available_future := remaining + yet_to_go in
       ret (Z.min (Z.max 0 classes_needed) available_future)
     else ret 0) in
  ret {| current_present := current_present;
         current_absent := current_absent;
         current_total := current_total;
         percentage := Py.round2 current_percentage;
         remaining_classes := remaining;
         stats_yet_to_go := yet_to_go;
         classes_needed := classes_needed;
         total_possible := total_possible |}.

(** [calculate_bunkable_classes] in exact arithmetic. *)
Definition calculate_bunkable_classes (today : Z) (subject_code : string) : M Z :=
  let! stats := get_attendance_stats today subject_code in
  if current_total stats =? 0 then ret 0
  else
    let! st := get in
    let total_possible := total_possible stats in
    let! fraction := truediv (minimum_attendance st) 100%Q in
    let min_required_present := (fraction * inject_Z total_possible)%Q in
    let max_bunkable := (inject_Z total_possible - min_required_present)%Q in
    let already_absent := current_absent stats in
    let can_bunk := Z.max 0 (Py.trunc (max_bunkable - inject_Z already_absent)%Q) in
    ret can_bunk.

(** ** Startup, weekly view, stored seeds and the validated forms *)

(** One turn of the loop of [mark_weekends_as_holidays]: weekday 5 is
    Saturday, 6 is Sunday. *)
Definition weekends_step (holidays : gset string) (current_date : Z) : gset string :=
  if 5 <=? Calendar.weekday current_date
  then {[Calendar.date_str current_date]} ∪ holidays
  else holidays.

Definition mark_weekends_as_holidays (today : Z) : M unit :=
  let! st := get in
  let end_date := semester_end_date st in
  do! modify (with_holidays
                (foldl weekends_step (holidays st)
                   (seqZ today (end_date - today + 1)))) in
  save_data.

(** One turn of the [for i in range(7)] loop of [get_weekly_schedule]; a
    value of the schedule is the pair of its ['day'] and ['classes']. *)
Definition schedule_step (st : tracker) (start_date : Z)
  (schedule : gmap string (string * list entry)) (i : Z)
  : gmap string (string * list entry) :=
  let current_date := start_date + i in
  let day_name := Calendar.day_name current_date in
  match timetable st !! day_name with
  | Some classes =>
      if decide (Calendar.date_str current_date ∈ holidays st) then schedule
      else <[Calendar.date_str current_date := (day_name, classes)]> schedule
  | None => schedule
  end.

Definition get_weekly_schedule (today : Z) (start_date : option Z)
  : M (gmap string (string * list entry)) :=
  let start_date := default today start_date in
  let! st := get in
  ret (foldl (schedule_step st start_date) ∅ (seqZ 0 7)).

(** The conversion loop of [load_data] on the stored seeds, each a JSON
    object of integers: an object with both ['total_classes'] and
    ['attended'] is replaced by one in the present format. *)
Definition convert_seed (data : gmap string Z) : gmap string Z :=
  match data !! "total_classes", data !! "attended" with
  | Some total, Some attended =>
      let absent := total - attended in
      <["present" := attended]> (<["absent" := absent]> (<["yet_to_go" := 0]> ∅))
  | _, _ => data
  end.

Definition convert_initial_attendance (initial : gmap string (gmap string Z))
  : gmap string (gmap string Z) :=
  convert_seed <$> initial.

Definition with_minimum_attendance (v : Q) (st : tracker) : tracker :=
  {| subjects := subjects st; timetable := timetable st; holidays := holidays st;
     attendance_records := attendance_records st;
     minimum_attendance := v;
     absence_reasons := absence_reasons st;
     semester_end_date := semester_end_date st;
     initial_attendance := initial_attendance st |}.

(** What a form shows when it is done: the "Success" box, or the "Error"
    box with its message. *)
Inductive dialog_result :=
| Success
| Error (msg : string).

(** [try: body except ValueError: handler]; what [body] did to the
    tracker before it raised stays done. *)
Definition try_except_ValueError {A} (body handler : M A) : M A :=
  fun st =>
    match body st with
    | (inl (ValueError _), st') => handler st'
    | result => result
    end.

(** [int(entry.get() or 0)]: an empty entry counts as 0.  [int] is
    Python's reading of a text that is not empty, [None] standing for its
    [ValueError]. *)
Definition int_or_zero (int : string -> option Z) (text : string) : M Z :=
  match text with
  | EmptyString => ret 0
  | _ =>
      match int text with
      | Some n => ret n
      | None => raise (ValueError "invalid literal for int() with base 10")
      end
  end.

(** [save_attendance] of the initial-attendance dialog, for the texts of
    its three entries.  [refresh_analytics] is the redrawing of the
    analytics tab, which the handler calls inside its [try]; the value
    returned tells which message box is shown. *)
Definition save_attendance (int : string -> option Z) (refresh_analytics : M unit)
  (subject_code present_text absent_text yet_to_go_text : string)
  : M dialog_result :=
  try_except_ValueError
    (let! present := int_or_zero int present_text in
     let! absent := int_or_zero int absent_text in
     let! yet_to_go := int_or_zero int yet_to_go_text in
     if (present <? 0) || (absent <? 0) || (yet_to_go <? 0)
     then ret (Error "Values cannot be negative")
     else
       do! set_initial_attendance subject_code present absent yet_to_go in
       do! refresh_analytics in
       ret Success)
    (ret (Error "Please enter valid numbers")).

(** [update_min_attendance] of the analytics tab; [value] is what
    [float] makes of the entry, [None] when it raises [ValueError]. *)
Definition update_min_attendance (value : option Q) : M dialog_result :=
  match value with
  | None => ret (Error "Please enter a valid number")
  | Some min_att =>
      if Qle_bool 0 min_att && Qle_bool min_att 100 then
        do! modify (with_minimum_attendance min_att) in
        do! save_data in
        ret Success
      else ret (Error "Percentage must be between 0 and 100")
  end.

(** ** The statistics in binary floating point *)

(** CPython's [float] is the IEEE 754 binary64 format, every operation
    rounding to the nearest representable value, ties to the even one.
    The operations are those of the Standard Library's [SpecFloat] at
    precision 53 and exponent bound 1024.  This module embeds the two
    statistics methods once more, with the numbers and the roundings that
    CPython uses; the embedding above computes the same expressions on
    exact rationals. *)

Module Binary64.

Definition prec : Z := 53.
Definition emax : Z := 1024.

(** A Python number as the arithmetic of the tracker meets it. *)
Inductive number :=
| Int (n : Z)
| Float (x : spec_float).

(** The value of a number, when it has one ([inf] and [nan] have none). *)
Definition value (v : number) : option Q :=
  match v with
  | Int n => Some (inject_Z n)
  | Float (S754_zero _) => Some 0%Q
  | Float (S754_finite s m e) =>
      let n := if s then Zneg m else Zpos m in
      Some (if 0 <=? e then inject_Z (n * 2 ^ e) else Qmake n (Z.to_pos (2 ^ (- e))))
  | Float _ => None
  end.

(** An [int] as a significand that has not been rounded yet. *)
Definition raw (n : Z) : spec_float :=
  match n with
  | Z0 => S754_zero false
  | Zpos p => S754_finite false p 0
  | Zneg p => S754_finite true p 0
  end.

(** Conversions of an [int] and [int / int] raise [OverflowError] where
    the rounded result would be infinite. *)
Definition finite_or_overflow (x : spec_float) : exn + spec_float :=
  match x with
  | S754_infinity _ => inl OverflowError
  | _ => inr x
  end.

(** The conversion of an [int] operand of a float operation. *)
Definition of_int (n : Z) : exn + spec_float :=
  finite_or_overflow (binary_normalize prec emax n 0 false).

(** [a / b] on two [int]s: the quotient of the exact integers, rounded
    once. *)
Definition int_truediv (a b : Z) : exn + spec_float :=
  if b =? 0 then inl ZeroDivisionError
  else if a =? 0 then inr (S754_zero (b <? 0))
  else finite_or_overflow (SFdiv prec emax (raw a) (raw b)).

Definition as_float (v : number) : exn + spec_float :=
  match v with
  | Int n => of_int n
  | Float x => inr x
  end.

Definition is_zero (x : spec_float) : bool :=
  match x with
  | S754_zero _ => true
  | _ => false
  end.

(** A binary operation with at least one [float] operand: both operands
    are converted, then the float operation is applied. *)
Definition float_op (op : spec_float -> spec_float -> exn + spec_float)
  (a b : number) : exn + number :=
  match as_float a with
  | inl e => inl e
  | inr x =>
      match as_float b with
      | inl e => inl e
      | inr y =>
          match op x y with
          | inl e => inl e
          | inr z => inr (Float z)
          end
      end
  end.

(** [a * b]. *)
Definition mul (a b : number) : exn + number :=
  match a, b with
  | Int m, Int n => inr (Int (m * n))
  | _, _ => float_op (fun x y => inr (SFmul prec emax x y)) a b
  end.

(** [a - b]. *)
Definition sub (a b : number) : exn + number :=
  match a, b with
  | Int m, Int n => inr (Int (m - n))
  | _, _ => float_op (fun x y => inr (SFsub prec emax x y)) a b
  end.

(** [a / b]. *)
Definition truediv (a b : number) : exn + number :=
  match a, b with
  | Int m, Int n =>
      match int_truediv m n with
      | inl e => inl e
      | inr z => inr (Float z)
      end
  | _, _ =>
      float_op (fun x y => if is_zero y then inl ZeroDivisionError
                           else inr (SFdiv prec emax x y)) a b
  end.

(** The integer part of a finite float of significand [m], exponent [e]
    and sign [s], rounded up ([math.ceil]) and towards zero ([int]). *)
Definition ceil_finite (s : bool) (m : positive) (e : Z) : Z :=
  let n := if s then Zneg m else Zpos m in
  if 0 <=? e then n * 2 ^ e else - ((- n) / 2 ^ (- e)).

Definition trunc_finite (s : bool) (m : positive) (e : Z) : Z :=
  let n := if s then Zneg m else Zpos m in
  if 0 <=? e then n * 2 ^ e else Z.quot n (2 ^ (- e)).

Definition to_integer (finite : bool -> positive -> Z -> Z) (v : number) : exn + Z :=
  match v with
  | Int n => inr n
  | Float (S754_zero _) => inr 0
  | Float (S754_finite s m e) => inr (finite s m e)
  | Float (S754_infinity _) => inl OverflowError
  | Float S754_nan => inl (ValueError "cannot convert float NaN to integer")
  end.

(** [math.ceil(v)] and [int(v)]. *)
Definition ceil (v : number) : exn + Z := to_integer ceil_finite v.
Definition trunc (v : number) : exn + Z := to_integer trunc_finite v.

(** [n / d] for positive integers, rounded to the nearest integer, ties
    to the even one. *)
Definition div_half_even (n d : Z) : Z :=
  let q := n / d in
  match Z.compare (2 * (n mod d)) d with
  | Lt => q
  | Gt => q + 1
  | Eq => if Z.even q then q else q + 1
  end.

(** [round(v, 2)]: an [int] is left as it is; a finite float is rounded,
    from its exact value, to the nearest multiple of 1/100 (ties to even),
    and the result is the float nearest to that decimal. *)
Definition round2 (v : number) : number :=
  match v with
  | Int n => Int n
  | Float (S754_finite s m e) =>
      let hundredths :=
        if 0 <=? e then 100 * Zpos m * 2 ^ e
        else div_half_even (100 * Zpos m) (2 ^ (- e)) in
      match hundredths with
      | Zpos k =>
          Float (SFdiv prec emax (S754_finite s k 0) (S754_finite false 100 0))
      | _ => Float (S754_zero s)
      end
  | Float x => Float x
  end.

(** The dictionary returned by [get_attendance_stats]. *)
Record stats := {
  current_present : Z;
  current_absent : Z;
  current_total : Z;
  percentage : number;
  remaining_classes : Z;
  stats_yet_to_go : Z;
  classes_needed : Z;
  total_possible : Z
}.

Definition lift {A} (r : exn + A) : M A :=
  match r with
  | inl e => raise e
  | inr a => ret a
  end.

(** [minimum_attendance] is the number the attribute of that name holds,
    an [int] (the 75 of [__init__], or an integer read from the file) or a
    [float] (what [update_min_attendance] stores); the record [tracker]
    keeps its value. *)
Definition get_attendance_stats (minimum_attendance : number) (today : Z)
  (subject_code : string) : M stats :=
  let! records := defaultdict_get subject_code in
  let! st := get in
  let initial :=
    default {| present := 0; absent := 0; yet_to_go := 0 |}
            (initial_attendance st !! subject_code) in
  let current_present := count_status "present" records + present initial in
  let current_absent := count_status "absent" records + absent initial in
  let! remaining := get_remaining_classes today subject_code in
  let yet_to_go := yet_to_go initial in
  let total_possible := current_present + current_absent + yet_to_go in
  let current_total := current_present + current_absent in
  let! current_percentage :=
    (if 0 <? current_total then
       let! ratio := lift (truediv (Int current_present) (Int current_total)) in
       lift (mul ratio (Int 100))
     else ret (Int 0)) in
  let! classes_needed :=
    (if 0 <? total_possible then
       let! product := lift (mul minimum_attendance (Int total_possible)) in
       let! min_required_present := lift (truediv product (Int 100)) in
       let! difference := lift (sub min_required_present (Int current_present)) in
       let! classes_needed := lift (ceil difference) in
       let available_future := remaining + yet_to_go in
       ret (Z.min (Z.max 0 classes_needed) available_future)
     else ret 0) in
  ret {| current_present := current_present;
         current_absent := current_absent;
         current_total := current_total;
         percentage := round2 current_percentage;
         remaining_classes := remaining;
         stats_yet_to_go := yet_to_go;
         classes_needed := classes_needed;
         total_possible := total_possible |}.

Definition calculate_bunkable_classes (minimum_attendance : number) (today : Z)
  (subject_code : string) : M Z :=
  let! stats := get_attendance_stats minimum_attendance today subject_code in
  if current_total stats =? 0 then ret 0
  else
    let total_possible := total_possible stats in
    let! fraction := lift (truediv minimum_attendance (Int 100)) in
    let! min_required_present := lift (mul fraction (Int total_possible)) in
    let! max_bunkable := lift (sub (Int total_possible) min_required_present) in
    let already_absent := current_absent stats in
    let! difference := lift (sub max_bunkable (Int already_absent)) in
    let! can_bunk := lift (trunc difference) in
    ret (Z.max 0 can_bunk).

(** [float(text)] for a decimal numeral [n / 10 ^ digits]: the float
    nearest to it. *)
Definition of_decimal (n : Z) (digits : Z) : spec_float :=
  SFdiv prec emax (raw n) (raw (10 ^ digits)).

End Binary64.

(** ** Sample states *)

Definition empty_tracker : tracker :=
  {| subjects := ∅; timetable := ∅; holidays := ∅; attendance_records := ∅;
     minimum_attendance := 75; absence_reasons := ∅;
     semester_end_date := 739598; initial_attendance := ∅ |}.

(** The label the timetable form offers for period [n]. *)
Definition period_label (n : Z) : string :=
  "Period " +:+ Py.str n +:+ " (" +:+ get_period_time n +:+ ")".

(** The subject of the worked example: threshold 75, seed 30 / 5 / 10. *)
Definition cs101 : tracker :=
  after (do! add_subject "CS101" "Programming" 4 false in
         set_initial_attendance "CS101" 30 5 10) empty_tracker.

(** ** Vocabulary of the specification *)

(** [clamp x lo hi]: [x] brought into the interval from [lo] to [hi]. *)
Definition clamp (x lo hi : Z) : Z := Z.max lo (Z.min x hi).

(** The seed the statistics use for a subject: the stored one, or zeros. *)
Definition seed_of (st : tracker) (subject_code : string) : seed :=
  default {| present := 0; absent := 0; yet_to_go := 0 |}
          (initial_attendance st !! subject_code).

(** The ledger of a subject, empty when it has none. *)
Definition records_of (st : tracker) (subject_code : string) : list att_record :=
  default [] (attendance_records st !! subject_code).

Definition present_of (st : tracker) (subject_code : string) : Z :=
  count_status "present" (records_of st subject_code)
  + present (seed_of st subject_code).

Definition absent_of (st : tracker) (subject_code : string) : Z :=
  count_status "absent" (records_of st subject_code)
  + absent (seed_of st subject_code).

Definition total_possible_of (st : tracker) (subject_code : string) : Z :=
  present_of st subject_code + absent_of st subject_code
  + yet_to_go (seed_of st subject_code).

Definition seed_nonneg (sd : seed) : Prop :=
  0 <= present sd /\ 0 <= absent sd /\ 0 <= yet_to_go sd.

(** The ledger invariant: at most one record per (subject, date). *)
Definition ledger_unique (st : tracker) : Prop :=
  forall S l, attendance_records st !! S = Some l -> NoDup (date <$> l).

(** The list [mark_attendance] leaves for the subject, given the list it
    finds: every record of that date gets the new status, or, when there is
    none, a record is appended. *)
Definition set_status (date_str status : string) (r : att_record) : att_record :=
  if String.eqb (date r) date_str then {| date := date r; status := status |} else r.

Definition marked (date_str status : string) (l : list att_record) : list att_record :=
  match List.filter (fun r => String.eqb (date r) date_str) l with
  | _ :: _ => List.map (set_status date_str status) l
  | [] => l ++ [{| date := date_str; status := status |}]
  end.

(** The subject's lab flag as [add_timetable_entry] reads it: an unknown
    subject is no lab. *)
Definition lab_flag (st : tracker) (subject_code : string) : bool :=
  match subjects st !! subject_code with
  | Some info => is_lab info
  | None => false
  end.

(** The tracker [add_timetable_entry] leaves when it raises: the day has
    been given a list if it had none. *)
Definition day_created (day : string) (st : tracker) : tracker :=
  if decide (is_Some (timetable st !! day)) then st
  else with_timetable (<[day := []]> (timetable st)) st.

(** The list [add_timetable_entry] leaves for the day when it returns. *)
Definition added (lab : bool) (n : Z) (period_slot subject_code : string)
  (classes : list entry) : list entry :=
  let kept := List.filter (fun e => negb (in_period n e.1)) classes in
  if lab then
    Py.sort
      ((List.filter (fun e => negb (in_period (n + 1) e.1)) kept
        ++ [(period_slot, subject_code)])
       ++ [(period_label (n + 1), subject_code)])
  else Py.sort (kept ++ [(period_slot, subject_code)]).

(** A time is a slot of the timetable when it is one of the seven labels. *)
Definition is_period_label (time : string) : Prop :=
  exists n, 1 <= n <= 7 /\ time = period_label n.

(** At most one entry per slot on a day. *)
Definition slots_distinct (classes : list entry) : Prop :=
  Forall is_period_label classes.*1 /\ NoDup classes.*1.

(** Every lab subject of a day holds exactly two adjacent slots. *)
Definition labs_paired (subjects : gmap string subject_info)
  (classes : list entry) : Prop :=
  forall S info,
    subjects !! S = Some info -> is_lab info = true -> S ∈ classes.*2 ->
    exists n, 1 <= n <= 6 /\
      forall t, (t, S) ∈ classes <-> t = period_label n \/ t = period_label (n + 1).

Definition slots_ok (st : tracker) : Prop :=
  forall day classes, timetable st !! day = Some classes -> slots_distinct classes.

Definition timetable_invariant (st : tracker) : Prop :=
  forall day classes,
    timetable st !! day = Some classes ->
    slots_distinct classes /\ labs_paired (subjects st) classes.

(** A lab on Monday, periods 1 and 2, and a lecture subject. *)
Definition lab_monday : tracker :=
  after (do! add_subject "PHYLAB" "Physics lab" 2 true in
         do! add_subject "MATH" "Mathematics" 4 false in
         add_timetable_entry "Monday" (period_label 1) "PHYLAB") empty_tracker.

(** A lab subject and no timetable yet. *)
Definition lab_only : tracker :=
  after (add_subject "PHYLAB" "Physics lab" 2 true) empty_tracker.

(** A lecture subject taught twice on Monday, periods 1 and 3. *)
Definition math_twice : tracker :=
  after (do! add_subject "MATH" "Mathematics" 4 false in
         do! add_timetable_entry "Monday" (period_label 1) "MATH" in
         add_timetable_entry "Monday" (period_label 3) "MATH") empty_tracker.

(** Every stored seed has non-negative counts. *)
Definition seeds_nonneg (st : tracker) : Prop :=
  forall S sd, initial_attendance st !! S = Some sd -> seed_nonneg sd.

(** The threshold is a percentage. *)
Definition threshold_ok (st : tracker) : Prop :=
  (0 <= minimum_attendance st <= 100)%Q.

(** A stored seed object read the way [get_attendance_stats] reads it. *)
Definition read_seed (data : gmap string Z) : option seed :=
  match data !! "present", data !! "absent", data !! "yet_to_go" with
  | Some p, Some a, Some y => Some {| present := p; absent := a; yet_to_go := y |}
  | _, _, _ => None
  end.

(** A lecture on Saturday only. *)
Definition saturday_class : tracker :=
  after (do! add_subject "ART" "Drawing" 1 false in
         add_timetable_entry "Saturday" (period_label 1) "ART") empty_tracker.

(** Two entries at labelled slots, the first at the earlier period. *)
Definition period_lt (e1 e2 : entry) : Prop :=
  exists a b, 1 <= a <= 7 /\ 1 <= b <= 7 /\
              e1.1 = period_label a /\ e2.1 = period_label b /\ a < b.

(** A day's list in increasing order of period. *)
Definition day_sorted (classes : list entry) : Prop :=
  StronglySorted period_lt classes.

(** The list [delete_timetable_entry] leaves for a day whose list splits
    around the entry to delete: the entry goes, and so does the one after
    it when it carries the same subject. *)
Definition deleted_at (subject_code : string) (before rest : list entry)
  : list entry :=
  before ++ match rest with
            | (_, subj') :: rest' =>
                if String.eqb subj' subject_code then rest' else rest
            | [] => []
            end.

(** How many entries of a day's list belong to a subject. *)
Definition count_subject (subject_code : string) (classes : list entry) : Z :=
  Z.of_nat (length (List.filter (fun e => String.eqb e.2 subject_code) classes)).

(** The list of a weekday, empty when the weekday is no key. *)
Definition classes_on (st : tracker) (day : string) : list entry :=
  default [] (timetable st !! day).

(** The number [v] has the value [q]. *)
Definition has_value (v : Binary64.number) (q : Q) : Prop :=
  match Binary64.value v with
  | Some q' => (q' == q)%Q
  | None => False
  end.

(** A tracker whose threshold attribute holds the number [v]. *)
Definition with_threshold (v : Binary64.number) (st : tracker) : tracker :=
  with_minimum_attendance (default 0%Q (Binary64.value v)) st.

(** What the specification gives for [classes_needed] at threshold
    [min_pct]: [ceil(minPct * totalPossible / 100) - present], clamped
    between 0 and yet-to-go plus the forecast; 0 when nothing is possible. *)
Definition classes_needed_spec (min_pct : Q) (st : tracker) (today : Z)
  (subject_code : string) : Z :=
  let total_possible := total_possible_of st subject_code in
  if 0 <? total_possible then
    clamp (Py.ceil (min_pct * inject_Z total_possible / 100)%Q
           - present_of st subject_code)
          0 (yet_to_go (seed_of st subject_code)
             + remaining_loop st today subject_code)
  else 0.

(** What the specification gives for the bunkable classes at threshold
    [min_pct]: [max(0, floor(maxBunkable - absent))], and 0 when no class
    was held. *)
Definition bunkable_spec (min_pct : Q) (st : tracker) (subject_code : string) : Z :=
  let total := inject_Z (total_possible_of st subject_code) in
  let max_bunkable := (total - min_pct / 100 * total)%Q in
  if 0 <? present_of st subject_code + absent_of st subject_code then
    Z.max 0 (Qfloor (max_bunkable - inject_Z (absent_of st subject_code))%Q)
  else 0.

(** One subject with a seed and no ledger, at a given threshold. *)
Definition seeded (threshold : Binary64.number) (present absent yet_to_go : Z)
  : tracker :=
  after (do! add_subject "CS101" "Programming" 4 false in
         set_initial_attendance "CS101" present absent yet_to_go)
        (with_threshold threshold empty_tracker).

(** Sequencing of results that may be exceptions. *)
Definition and_then {A B} (r : exn + A) (k : A -> exn + B) : exn + B :=
  match r with
  | inl e => inl e
  | inr a => k a
  end.

(** The three float expressions of the statistics methods, in the order
    in which their operations run. *)
Definition percentage_expr (current_present current_total : Z)
  : exn + Binary64.number :=
  if 0 <? current_total then
    and_then (Binary64.truediv (Binary64.Int current_present)
                               (Binary64.Int current_total))
      (fun ratio => Binary64.mul ratio (Binary64.Int 100))
  else inr (Binary64.Int 0).

Definition classes_needed_expr (minimum_attendance : Binary64.number)
  (total_possible current_present available_future : Z) : exn + Z :=
  if 0 <? total_possible then
    and_then (Binary64.mul minimum_attendance (Binary64.Int total_possible))
      (fun product =>
    and_then (Binary64.truediv product (Binary64.Int 100))
      (fun min_required_present =>
    and_then (Binary64.sub min_required_present (Binary64.Int current_present))
      (fun difference =>
    and_then (Binary64.ceil difference)
      (fun classes_needed =>
         inr (Z.min (Z.max 0 classes_needed) available_future)))))
  else inr 0.

Definition bunkable_expr (minimum_attendance : Binary64.number)
  (total_possible already_absent : Z) : exn + Z :=
  and_then (Binary64.truediv minimum_attendance (Binary64.Int 100))
    (fun fraction =>
  and_then (Binary64.mul fraction (Binary64.Int total_possible))
    (fun min_required_present =>
  and_then (Binary64.sub (Binary64.Int total_possible) min_required_present)
    (fun max_bunkable =>
  and_then (Binary64.sub max_bunkable (Binary64.Int already_absent))
    (fun difference =>
  and_then (Binary64.trunc difference)
    (fun can_bunk => inr (Z.max 0 can_bunk)))))).

(** The exceptions float arithmetic can raise in the statistics. *)
Definition float_error (e : exn) : Prop :=
  e = OverflowError \/ e = ValueError "cannot convert float NaN to integer".





(** What [int(text or 0)] gives for the text of an entry, [None] when it
    raises. *)
Definition entry_value (int : string -> option Z) (text : string) : option Z :=
  match text with
  | EmptyString => Some 0
  | _ => int text
  end.

(** The redrawing of the analytics tab as far as the tracker with the one
    subject CS101 is concerned: the statistics of CS101 are computed. *)
Definition redraw_cs101 : M unit :=
  let! _ := Binary64.get_attendance_stats (Binary64.Int 75) 739500 "CS101" in
  let! _ := Binary64.calculate_bunkable_classes (Binary64.Int 75) 739500 "CS101" in
  ret tt.

(** * Properties *)

(** ** The primitives on sample values *)

Example split_period_slot :
  Py.split " (" "Period 3 (10:40-11:35)" = ["Period 3"; "10:40-11:35)"] /\
  Py.split " " "Period 3" = ["Period"; "3"] /\
  Py.split "ab" "xabababy" = ["x"; ""; ""; "y"].
Proof. repeat split; reflexivity. Qed.

Example int_of_str_samples :
  Py.int_of_str "3" = Some 3 /\ Py.int_of_str " 1_0 " = Some 10 /\
  Py.int_of_str "-7" = Some (-7) /\ Py.int_of_str "1__0" = None /\
  Py.int_of_str "" = None /\ Py.int_of_str "Three" = None.
Proof. repeat split; reflexivity. Qed.

Example semester_end_is_a_saturday :
  Calendar.date_str 739598 = "2025-12-13" /\ Calendar.day_name 739598 = "Saturday".
Proof. split; reflexivity. Qed.

Example leap_days :
  Calendar.date_str 738945 = "2024-02-29" /\ Calendar.date_str 738946 = "2024-03-01" /\
  Calendar.date_str 730179 = "2000-02-29" /\ Calendar.date_str 1 = "0001-01-01" /\
  Calendar.day_name 1 = "Monday".
Proof. repeat split; reflexivity. Qed.

Example sort_by_time_then_subject :
  Py.sort [("Period 3 (10:40-11:35)", "A"); ("Period 1 (8:30-9:25)", "B");
           ("Period 1 (8:30-9:25)", "A")]
  = [("Period 1 (8:30-9:25)", "A"); ("Period 1 (8:30-9:25)", "B");
     ("Period 3 (10:40-11:35)", "A")].
Proof. reflexivity. Qed.

Example period_label_3 : period_label 3 = "Period 3 (10:40-11:35)".
Proof. reflexivity. Qed.

(** ** The method monad *)

Lemma defaultdict_get_run (S : string) (st : tracker) :
  defaultdict_get S st = (inr (records_of st S), after (defaultdict_get S) st).
Proof.
  unfold after, defaultdict_get, records_of, bind, get.
  destruct (attendance_records st !! S); reflexivity.
Qed.

Lemma touch_initial (S : string) (st : tracker) :
  initial_attendance (after (defaultdict_get S) st) = initial_attendance st.
Proof.
  unfold after, defaultdict_get, bind, get.
  destruct (attendance_records st !! S); reflexivity.
Qed.

Lemma touch_minimum (S : string) (st : tracker) :
  minimum_attendance (after (defaultdict_get S) st) = minimum_attendance st.
Proof.
  unfold after, defaultdict_get, bind, get.
  destruct (attendance_records st !! S); reflexivity.
Qed.

Lemma touch_remaining (S S' : string) (today : Z) (st : tracker) :
  remaining_loop (after (defaultdict_get S) st) today S' = remaining_loop st today S'.
Proof.
  unfold after, defaultdict_get, bind, get.
  destruct (attendance_records st !! S); reflexivity.
Qed.

(** ** Arithmetic of the projection *)

Lemma Qeq_bool_inject_Z_pos (z : Z) : 0 < z -> Qeq_bool (inject_Z z) 0 = false.
Proof.
  intros Hz. destruct (Qeq_bool (inject_Z z) 0) eqn:E; [|reflexivity].
  apply Qeq_bool_iff in E. unfold Qeq in E. simpl in E. lia.
Qed.

Lemma Qfloor_add_Z (x : Q) (n : Z) : Qfloor (x + inject_Z n) = Qfloor x + n.
Proof.
  destruct x as [a b]. unfold Qfloor, Qplus, inject_Z. simpl.
  rewrite Z.mul_1_r, Pos.mul_1_r.
  apply Z.div_add. lia.
Qed.

Lemma Qceiling_sub_Z (x : Q) (n : Z) : Qceiling (x - inject_Z n) = Qceiling x - n.
Proof.
  unfold Qceiling, Qminus.
  assert (E : (- (x + - inject_Z n) == - x + inject_Z n)%Q) by (rewrite Qopp_plus, Qopp_opp; reflexivity).
  rewrite E, Qfloor_add_Z. lia.
Qed.


Lemma remaining_step_mono (st : tracker) (S : string) (acc d : Z) :
  acc <= remaining_step st S acc d.
Proof.
  unfold remaining_step.
  destruct (timetable st !! Calendar.day_name d); [|lia].
  destruct (decide _); lia.
Qed.

Lemma foldl_remaining_nonneg (st : tracker) (S : string) (ds : list Z) (acc : Z) :
  acc <= foldl (remaining_step st S) acc ds.
Proof.
  revert acc. induction ds as [|d ds IH]; intros acc; simpl; [lia|].
  etransitivity; [apply (remaining_step_mono st S acc d)|apply IH].
Qed.

Lemma remaining_loop_nonneg (st : tracker) (today : Z) (S : string) :
  0 <= remaining_loop st today S.
Proof. apply foldl_remaining_nonneg. Qed.

(** What [get_attendance_stats] computes, field by field. *)
Lemma get_attendance_stats_run (st : tracker) (today : Z) (S : string) :
  exists s,
    get_attendance_stats today S st = (inr s, after (defaultdict_get S) st) /\
    current_present s = present_of st S /\
    current_absent s = absent_of st S /\
    current_total s = present_of st S + absent_of st S /\
    total_possible s = total_possible_of st S /\
    remaining_classes s = remaining_loop st today S /\
    stats_yet_to_go s = yet_to_go (seed_of st S) /\
    (present_of st S + absent_of st S <= 0 -> percentage s = Py.round2 0) /\
    classes_needed s =
      (if 0 <? total_possible_of st S then
         Z.min (Z.max 0 (Py.ceil (minimum_attendance st
                                   * inject_Z (total_possible_of st S) / 100
                                   - inject_Z (present_of st S))%Q))
               (remaining_loop st today S + yet_to_go (seed_of st S))
       else 0).
Proof.
  unfold get_attendance_stats.
  unfold bind at 1. rewrite defaultdict_get_run.
  unfold bind at 1. unfold get at 1.
  unfold bind at 1. unfold get_remaining_classes, bind at 1, get at 1, ret at 1.
  rewrite touch_remaining, touch_initial, touch_minimum.
  fold (seed_of st S). fold (present_of st S). fold (absent_of st S).
  fold (total_possible_of st S).
  set (p := present_of st S). set (a := absent_of st S).
  set (T := total_possible_of st S).
  unfold bind.
  destruct (0 <? p + a) eqn:Hheld.
  - unfold truediv at 1.
    rewrite Qeq_bool_inject_Z_pos by lia. unfold ret at 1 2.
    destruct (0 <? T) eqn:HT.
    + unfold truediv. change (Qeq_bool 100 0) with false. unfold ret.
      eexists. split; [reflexivity|]. simpl. repeat split; try reflexivity. lia.
    + unfold ret. eexists. split; [reflexivity|]. simpl.
      repeat split; try reflexivity. lia.
  - unfold ret at 1.
    destruct (0 <? T) eqn:HT.
    + unfold truediv. change (Qeq_bool 100 0) with false. unfold ret.
      eexists. split; [reflexivity|]. simpl. repeat split; reflexivity.
    + unfold ret. eexists. split; [reflexivity|]. simpl.
      repeat split; reflexivity.
Qed.

Lemma get_remaining_classes_run (st : tracker) (today : Z) (S : string) :
  outcome (get_remaining_classes today S) st = inr (remaining_loop st today S).
Proof. reflexivity. Qed.

Lemma clamp_min_max (x hi : Z) : 0 <= hi -> Z.min (Z.max 0 x) hi = clamp x 0 hi.
Proof. unfold clamp. lia. Qed.

Lemma max_trunc_floor (x : Q) : Z.max 0 (Py.trunc x) = Z.max 0 (Qfloor x).
Proof.
  unfold Py.trunc. destruct (Qle_bool 0 x) eqn:E; [reflexivity|].
  assert (Hx : (x <= 0)%Q).
  { destruct (Qlt_le_dec x 0) as [H|H]; [apply Qlt_le_weak, H|].
    apply Qle_bool_iff in H. congruence. }
  pose proof (Qceiling_resp_le _ _ Hx) as Hc.
  pose proof (Qfloor_resp_le _ _ Hx) as Hf.
  change (Qceiling 0) with 0 in Hc. change (Qfloor 0) with 0 in Hf. lia.
Qed.

(** ** Projection engine *)

(** In exact arithmetic the expression of [get_attendance_stats] is the
    formula of the specification: with a non-negative seed, when something
    is possible, [classes_needed] is
    [ceil(minPct * totalPossible / 100) - present] clamped between 0 and
    yet-to-go plus the forecast, and 0 otherwise. *)
Lemma exact_classes_needed_formula (st : tracker) (today : Z) (S : string) :
  seed_nonneg (seed_of st S) ->
  exists s,
    outcome (get_attendance_stats today S) st = inr s /\
    total_possible s = total_possible_of st S /\
    classes_needed s = classes_needed_spec (minimum_attendance st) st today S.
Proof.
  intros (Hp & Ha & Hy).
  destruct (get_attendance_stats_run st today S)
    as (s & Hrun & _ & _ & _ & HT & Hrem & _ & _ & Hneed).
  pose proof (remaining_loop_nonneg st today S) as Hr.
  exists s. unfold outcome at 1. rewrite Hrun. split; [reflexivity|].
  split; [exact HT|].
  rewrite Hneed. unfold classes_needed_spec.
  destruct (0 <? total_possible_of st S) eqn:E; [|reflexivity].
  unfold Py.ceil. rewrite Qceiling_sub_Z, clamp_min_max by lia.
  f_equal. lia.
Qed.



(** In exact arithmetic [calculate_bunkable_classes] returns the value of
    the specification: [max(0, floor(maxBunkable - absent))] with
    [maxBunkable = totalPossible - (minPct / 100) * totalPossible] when
    some class was held, and 0 when none was. *)
Lemma exact_bunkable_formula (st : tracker) (today : Z) (S : string) :
  0 <= present_of st S + absent_of st S ->
  outcome (calculate_bunkable_classes today S) st
  = inr (bunkable_spec (minimum_attendance st) st S).
Proof.
  intros Hheld.
  destruct (get_attendance_stats_run st today S)
    as (s & Hrun & _ & Habs & Htot & HT & _).
  unfold outcome, calculate_bunkable_classes, bind, bunkable_spec. rewrite Hrun.
  rewrite Htot.
  destruct (present_of st S + absent_of st S =? 0) eqn:E.
  - apply Z.eqb_eq in E. rewrite E. reflexivity.
  - apply Z.eqb_neq in E.
    destruct (0 <? present_of st S + absent_of st S) eqn:E'; [|lia].
    unfold get, truediv. change (Qeq_bool 100 0) with false. unfold ret. simpl.
    rewrite touch_minimum, HT, Habs, max_trunc_floor. reflexivity.
Qed.



(** ** Projection engine in binary floating point *)

(** The worked example of the specification, as CPython computes it, with
    the threshold an [int] and a [float]. *)
Example binary64_scenario :
  (exists s,
     outcome (Binary64.get_attendance_stats (Binary64.Int 75) 739500 "CS101")
             (seeded (Binary64.Int 75) 30 5 10) = inr s /\
     Binary64.total_possible s = 45 /\ Binary64.classes_needed s = 4 /\
     Binary64.percentage s
     = Binary64.Float (Binary64.of_decimal 8571 2)) /\
  (exists s,
     outcome (Binary64.get_attendance_stats
                (Binary64.Float (Binary64.of_decimal 75 0)) 739500 "CS101")
             (seeded (Binary64.Int 75) 30 5 10) = inr s /\
     Binary64.total_possible s = 45 /\ Binary64.classes_needed s = 4) /\
  outcome (Binary64.calculate_bunkable_classes (Binary64.Int 75) 739500 "CS101")
          (seeded (Binary64.Int 75) 30 5 10) = inr 6.
Proof.
  split; [|split].
  - eexists. split; [vm_compute; reflexivity|]. repeat split.
  - eexists. split; [vm_compute; reflexivity|]. repeat split.
  - vm_compute. reflexivity.
Qed.

Lemma binary64_of_int_100 :
  Binary64.of_int 100 = inr (S754_finite false 7036874417766400 (-46)).
Proof. vm_compute. reflexivity. Qed.

(** [get_attendance_stats] in binary floating point, as one step. *)
Lemma binary64_stats_run (m : Binary64.number) (st : tracker) (today : Z)
  (S : string) :
  let p := present_of st S in
  let a := absent_of st S in
  let y := yet_to_go (seed_of st S) in
  let r := remaining_loop st today S in
  Binary64.get_attendance_stats m today S st
  = (and_then (percentage_expr p (p + a))
       (fun current_percentage =>
        and_then (classes_needed_expr m (p + a + y) p (r + y))
          (fun classes_needed =>
             inr {| Binary64.current_present := p;
                    Binary64.current_absent := a;
                    Binary64.current_total := p + a;
                    Binary64.percentage := Binary64.round2 current_percentage;
                    Binary64.remaining_classes := r;
                    Binary64.stats_yet_to_go := y;
                    Binary64.classes_needed := classes_needed;
                    Binary64.total_possible := p + a + y |})),
     after (defaultdict_get S) st).
Proof.
  intros p a y r.
  unfold Binary64.get_attendance_stats.
  unfold bind at 1. rewrite defaultdict_get_run.
  unfold bind at 1. unfold get at 1.
  unfold bind at 1. unfold get_remaining_classes, bind at 1, get at 1, ret at 1.
  rewrite touch_remaining, touch_initial.
  fold (seed_of st S). fold (present_of st S). fold (absent_of st S).
  fold p a y r.
  unfold percentage_expr, classes_needed_expr, and_then, bind, Binary64.lift.
  destruct (0 <? p + a).
  - destruct (Binary64.truediv _ _) as [e|ratio]; [reflexivity|].
    unfold ret at 1.
    destruct (Binary64.mul ratio _) as [e|pct]; [reflexivity|].
    unfold ret at 1.
    destruct (0 <? p + a + y); [|reflexivity].
    destruct (Binary64.mul m _) as [e|prod]; [reflexivity|]. unfold ret at 1.
    destruct (Binary64.truediv prod _) as [e|mrp]; [reflexivity|]. unfold ret at 1.
    destruct (Binary64.sub mrp _) as [e|d]; [reflexivity|]. unfold ret at 1.
    destruct (Binary64.ceil d) as [e|c]; reflexivity.
  - unfold ret at 1.
    destruct (0 <? p + a + y); [|reflexivity].
    destruct (Binary64.mul m _) as [e|prod]; [reflexivity|]. unfold ret at 1.
    destruct (Binary64.truediv prod _) as [e|mrp]; [reflexivity|]. unfold ret at 1.
    destruct (Binary64.sub mrp _) as [e|d]; [reflexivity|]. unfold ret at 1.
    destruct (Binary64.ceil d) as [e|c]; reflexivity.
Qed.

(** The only exceptions of the float operations of the statistics are
    [OverflowError] and the [ValueError] of a NaN turned into an integer. *)
Lemma finite_or_overflow_error (x : spec_float) (e : exn) :
  Binary64.finite_or_overflow x = inl e -> e = OverflowError.
Proof. destruct x; simpl; congruence. Qed.

Lemma as_float_error (v : Binary64.number) (e : exn) :
  Binary64.as_float v = inl e -> e = OverflowError.
Proof.
  destruct v as [n|x]; simpl; [|discriminate].
  apply finite_or_overflow_error.
Qed.

Lemma float_op_error (op : spec_float -> spec_float -> exn + spec_float)
  (a b : Binary64.number) (e : exn) :
  Binary64.float_op op a b = inl e ->
  e = OverflowError \/ exists x y, Binary64.as_float b = inr y /\ op x y = inl e.
Proof.
  unfold Binary64.float_op.
  destruct (Binary64.as_float a) as [e1|x] eqn:Ea.
  { intros [= <-]. left. exact (as_float_error _ _ Ea). }
  destruct (Binary64.as_float b) as [e2|y] eqn:Eb.
  { intros [= <-]. left. exact (as_float_error _ _ Eb). }
  destruct (op x y) as [e3|z] eqn:Eop; [|discriminate].
  intros [= <-]. right. exists x, y. split; [reflexivity|exact Eop].
Qed.

Lemma mul_error (a b : Binary64.number) (e : exn) :
  Binary64.mul a b = inl e -> e = OverflowError.
Proof.
  destruct a as [m|x], b as [n|y]; simpl; try discriminate;
    intros [H|(x' & y' & _ & H)]%float_op_error; first [exact H|discriminate].
Qed.

Lemma sub_error (a b : Binary64.number) (e : exn) :
  Binary64.sub a b = inl e -> e = OverflowError.
Proof.
  destruct a as [m|x], b as [n|y]; simpl; try discriminate;
    intros [H|(x' & y' & _ & H)]%float_op_error; first [exact H|discriminate].
Qed.

Lemma truediv_int_error (p t : Z) (e : exn) :
  t <> 0 -> Binary64.truediv (Binary64.Int p) (Binary64.Int t) = inl e ->
  e = OverflowError.
Proof.
  intros Ht. simpl. unfold Binary64.int_truediv.
  rewrite (proj2 (Z.eqb_neq t 0) Ht).
  destruct (p =? 0); [discriminate|].
  destruct (Binary64.finite_or_overflow _) as [e'|z] eqn:E; [|discriminate].
  intros [= <-]. exact (finite_or_overflow_error _ _ E).
Qed.

Lemma truediv_100_error (a : Binary64.number) (e : exn) :
  Binary64.truediv a (Binary64.Int 100) = inl e -> e = OverflowError.
Proof.
  destruct a as [m|x].
  - apply truediv_int_error. discriminate.
  - unfold Binary64.truediv.
    intros [H|(x' & y' & Hy & H)]%float_op_error; [exact H|].
    change (Binary64.as_float (Binary64.Int 100)) with (Binary64.of_int 100) in Hy.
    rewrite binary64_of_int_100 in Hy. injection Hy as <-.
    simpl in H. discriminate.
Qed.

Lemma to_integer_error (finite : bool -> positive -> Z -> Z) (v : Binary64.number)
  (e : exn) :
  Binary64.to_integer finite v = inl e -> float_error e.
Proof.
  destruct v as [n|[s|s| |s m x]]; simpl; try discriminate; intros [= <-];
    [left|right]; reflexivity.
Qed.

Lemma percentage_expr_sound (p t : Z) :
  match percentage_expr p t with
  | inl e => e = OverflowError
  | inr v => t <= 0 -> v = Binary64.Int 0
  end.
Proof.
  unfold percentage_expr. destruct (0 <? t) eqn:Ht; [|reflexivity].
  apply Z.ltb_lt in Ht. unfold and_then.
  destruct (Binary64.truediv _ _) as [e|ratio] eqn:E1.
  { apply (truediv_int_error p t); [lia|exact E1]. }
  destruct (Binary64.mul ratio _) as [e|v] eqn:E2.
  { exact (mul_error _ _ _ E2). }
  lia.
Qed.

Lemma classes_needed_expr_sound (m : Binary64.number) (T p avail : Z) :
  match classes_needed_expr m T p avail with
  | inl e => float_error e
  | inr n => (T <= 0 -> n = 0) /\ (0 <= avail -> 0 <= n <= avail)
  end.
Proof.
  unfold classes_needed_expr. destruct (0 <? T) eqn:HT.
  - apply Z.ltb_lt in HT. unfold and_then.
    destruct (Binary64.mul m _) as [e|prod] eqn:E1.
    { left. exact (mul_error _ _ _ E1). }
    destruct (Binary64.truediv prod _) as [e|mrp] eqn:E2.
    { left. exact (truediv_100_error _ _ E2). }
    destruct (Binary64.sub mrp _) as [e|d] eqn:E3.
    { left. exact (sub_error _ _ _ E3). }
    destruct (Binary64.ceil d) as [e|c] eqn:E4.
    { exact (to_integer_error _ _ _ E4). }
    split; lia.
  - apply Z.ltb_ge in HT. split; [reflexivity|lia].
Qed.

Lemma bunkable_expr_sound (m : Binary64.number) (T a : Z) :
  match bunkable_expr m T a with
  | inl e => float_error e
  | inr n => 0 <= n
  end.
Proof.
  unfold bunkable_expr, and_then.
  destruct (Binary64.truediv m _) as [e|fraction] eqn:E1.
  { left. exact (truediv_100_error _ _ E1). }
  destruct (Binary64.mul fraction _) as [e|mrp] eqn:E2.
  { left. exact (mul_error _ _ _ E2). }
  destruct (Binary64.sub _ mrp) as [e|mb] eqn:E3.
  { left. exact (sub_error _ _ _ E3). }
  destruct (Binary64.sub mb _) as [e|d] eqn:E4.
  { left. exact (sub_error _ _ _ E4). }
  destruct (Binary64.trunc d) as [e|c] eqn:E5.
  { exact (to_integer_error _ _ _ E5). }
  lia.
Qed.

(** What the rounding cannot change.  Whatever number the threshold is,
    [get_attendance_stats] in binary floating point touches the tracker as
    the exact embedding does; when it returns, its counts are those of the
    exact embedding, its percentage is 0 when no class was held, and its
    [classes_needed] is 0 when nothing is possible and lies between 0 and
    yet-to-go plus the forecast; when it raises, the exception is one of
    float arithmetic, never [ZeroDivisionError]. *)
Lemma binary64_stats_sound (m : Binary64.number) (st : tracker) (today : Z)
  (S : string) :
  after (Binary64.get_attendance_stats m today S) st
  = after (get_attendance_stats today S) st /\
  match outcome (Binary64.get_attendance_stats m today S) st with
  | inr s =>
      Binary64.current_present s = present_of st S /\
      Binary64.current_absent s = absent_of st S /\
      Binary64.current_total s = present_of st S + absent_of st S /\
      Binary64.total_possible s = total_possible_of st S /\
      Binary64.remaining_classes s = remaining_loop st today S /\
      Binary64.stats_yet_to_go s = yet_to_go (seed_of st S) /\
      (present_of st S + absent_of st S <= 0 ->
       Binary64.percentage s = Binary64.Int 0) /\
      (total_possible_of st S <= 0 -> Binary64.classes_needed s = 0) /\
      (0 <= yet_to_go (seed_of st S) ->
       0 <= Binary64.classes_needed s
         <= remaining_loop st today S + yet_to_go (seed_of st S))
  | inl e => float_error e
  end.
Proof.
  destruct (get_attendance_stats_run st today S) as (s0 & Hrun0 & _).
  unfold outcome, after. rewrite binary64_stats_run, Hrun0. cbv zeta.
  split; [reflexivity|]. cbn [fst]. unfold and_then.
  pose proof (percentage_expr_sound (present_of st S)
                (present_of st S + absent_of st S)) as Hpct.
  destruct (percentage_expr _ _) as [e|pct]; [left; exact Hpct|].
  pose proof (classes_needed_expr_sound m
                (present_of st S + absent_of st S + yet_to_go (seed_of st S))
                (present_of st S)
                (remaining_loop st today S + yet_to_go (seed_of st S))) as Hneed.
  destruct (classes_needed_expr _ _ _ _) as [e|n]; [exact Hneed|].
  destruct Hneed as [Hzero Hbounds].
  pose proof (remaining_loop_nonneg st today S) as Hr.
  cbn. repeat split; try reflexivity.
  - intros Hheld. rewrite (Hpct Hheld). reflexivity.
  - exact Hzero.
  - apply Hbounds. lia.
  - apply Hbounds. lia.
Qed.

(** [calculate_bunkable_classes] in binary floating point, as one step. *)
Lemma binary64_bunkable_run (m : Binary64.number) (st : tracker) (today : Z)
  (S : string) :
  outcome (Binary64.calculate_bunkable_classes m today S) st
  = and_then (outcome (Binary64.get_attendance_stats m today S) st)
      (fun s =>
         if Binary64.current_total s =? 0 then inr 0
         else bunkable_expr m (Binary64.total_possible s)
                (Binary64.current_absent s)).
Proof.
  unfold outcome, Binary64.calculate_bunkable_classes. unfold bind at 1.
  destruct (Binary64.get_attendance_stats m today S st) as [[e|s] st'];
    [reflexivity|].
  cbn [fst and_then]. destruct (Binary64.current_total s =? 0); [reflexivity|].
  unfold bunkable_expr, and_then, bind, Binary64.lift.
  destruct (Binary64.truediv m _) as [e|fraction]; [reflexivity|]. unfold ret at 1.
  destruct (Binary64.mul fraction _) as [e|mrp]; [reflexivity|]. unfold ret at 1.
  destruct (Binary64.sub _ mrp) as [e|mb]; [reflexivity|]. unfold ret at 1.
  destruct (Binary64.sub mb _) as [e|d]; [reflexivity|]. unfold ret at 1.
  destruct (Binary64.trunc d) as [e|c]; reflexivity.
Qed.

(** In binary floating point too, [calculate_bunkable_classes] returns 0
    when it returns and no class was held, never a negative number, and
    raises nothing but an exception of float arithmetic. *)
Lemma binary64_bunkable_sound (m : Binary64.number) (st : tracker) (today : Z)
  (S : string) :
  match outcome (Binary64.calculate_bunkable_classes m today S) st with
  | inr n => 0 <= n /\ (present_of st S + absent_of st S = 0 -> n = 0)
  | inl e => float_error e
  end.
Proof.
  rewrite binary64_bunkable_run.
  destruct (binary64_stats_sound m st today S) as [_ Hs].
  destruct (outcome (Binary64.get_attendance_stats m today S) st) as [e|s];
    [exact Hs|].
  destruct Hs as (_ & _ & Htot & _). cbn [and_then]. rewrite Htot.
  destruct (present_of st S + absent_of st S =? 0) eqn:E.
  - split; [lia|reflexivity].
  - apply Z.eqb_neq in E.
    pose proof (bunkable_expr_sound m (Binary64.total_possible s)
                  (Binary64.current_absent s)) as Hb.
    destruct (bunkable_expr _ _ _) as [e|n]; [exact Hb|].
    split; [exact Hb|]. intros H. contradiction.
Qed.

(** C1.  The rounding of binary floating point moves [classes_needed]
    off the formula of the specification, in either direction.  With a
    non-negative seed, an empty ledger and no class left in the calendar:
    - the threshold 75 of [__init__], seed 0 / 0 / 100000000000000010: the
      formula gives 75000000000000008, [get_attendance_stats] returns
      75000000000000000;
    - threshold 51.2 as typed in the analytics tab, seed 41 / 0 / 84: the
      formula, at the value the attribute then holds, gives 24,
      [get_attendance_stats] returns 23;
    - threshold 64.4 as typed, seed 83 / 0 / 167: the formula at 64.4 gives
      161 - 83 = 78, [get_attendance_stats] returns 79. *)
Theorem classes_needed_rounding :
  let S := "CS101" in
  let today := 739500 in
  (let st := seeded (Binary64.Int 75) 0 0 100000000000000010 in
   seed_nonneg (seed_of st S) /\ threshold_ok st /\ records_of st S = [] /\
   has_value (Binary64.Int 75) (minimum_attendance st) /\
   total_possible_of st S = 100000000000000010 /\
   remaining_loop st today S = 0 /\
   classes_needed_spec (minimum_attendance st) st today S = 75000000000000008 /\
   exists s,
     outcome (Binary64.get_attendance_stats (Binary64.Int 75) today S) st = inr s /\
     Binary64.classes_needed s = 75000000000000000) /\
  (let typed := Binary64.Float (Binary64.of_decimal 512 1) in
   let st := seeded typed 41 0 84 in
   seed_nonneg (seed_of st S) /\ threshold_ok st /\ records_of st S = [] /\
   has_value typed (minimum_attendance st) /\
   total_possible_of st S = 125 /\ remaining_loop st today S = 0 /\
   classes_needed_spec (minimum_attendance st) st today S = 24 /\
   exists s,
     outcome (Binary64.get_attendance_stats typed today S) st = inr s /\
     Binary64.classes_needed s = 23) /\
  (let typed := Binary64.Float (Binary64.of_decimal 644 1) in
   let st := seeded typed 83 0 167 in
   seed_nonneg (seed_of st S) /\ threshold_ok st /\ records_of st S = [] /\
   has_value typed (minimum_attendance st) /\
   total_possible_of st S = 250 /\ remaining_loop st today S = 0 /\
   classes_needed_spec (644 # 10) st today S = 78 /\
   exists s,
     outcome (Binary64.get_attendance_stats typed today S) st = inr s /\
     Binary64.classes_needed s = 79).
Proof.
  cbv zeta. split; [|split].
  - split; [vm_compute; repeat split; discriminate|].
    split; [vm_compute; split; discriminate|].
    do 5 (split; [vm_compute; reflexivity|]).
    eexists. split; [vm_compute; reflexivity|]. reflexivity.
  - split; [vm_compute; repeat split; discriminate|].
    split; [vm_compute; split; discriminate|].
    do 5 (split; [vm_compute; reflexivity|]).
    eexists. split; [vm_compute; reflexivity|]. reflexivity.
  - split; [vm_compute; repeat split; discriminate|].
    split; [vm_compute; split; discriminate|].
    do 5 (split; [vm_compute; reflexivity|]).
    eexists. split; [vm_compute; reflexivity|]. reflexivity.
Qed.

(** C3.  Threshold 56, seed 10 / 5 / 10 and an empty ledger, so that 15
    classes were held and 25 are possible: the specification gives
    [max(0, floor(25 - 0.56 * 25 - 5)) = 6], and missing 6 of the 10 classes
    to come leaves 14 of 25 attended, which is 56 percent;
    [calculate_bunkable_classes] returns 5, whether the threshold is the
    [int] 56 or the [float] 56.0, since [(56 / 100) * 25] is rounded to
    14.000000000000002. *)
Theorem bunkable_rounding :
  let S := "CS101" in
  let today := 739500 in
  let st := seeded (Binary64.Int 56) 10 5 10 in
  seed_nonneg (seed_of st S) /\ threshold_ok st /\ records_of st S = [] /\
  has_value (Binary64.Int 56) (minimum_attendance st) /\
  has_value (Binary64.Float (Binary64.of_decimal 56 0)) (minimum_attendance st) /\
  present_of st S + absent_of st S = 15 /\ total_possible_of st S = 25 /\
  bunkable_spec (minimum_attendance st) st S = 6 /\
  outcome (Binary64.calculate_bunkable_classes (Binary64.Int 56) today S) st
  = inr 5 /\
  outcome (Binary64.calculate_bunkable_classes
             (Binary64.Float (Binary64.of_decimal 56 0)) today S) st
  = inr 5 /\
  Binary64.mul (Binary64.Float (Binary64.of_decimal 56 2)) (Binary64.Int 25)
  = inr (Binary64.Float (S754_finite false 7881299347898369 (-49))) /\
  Binary64.value (Binary64.Float (S754_finite false 7881299347898369 (-49)))
  = Some (7881299347898369 # 562949953421312).
Proof.
  cbv zeta.
  split; [vm_compute; repeat split; discriminate|].
  split; [vm_compute; split; discriminate|].
  repeat split; vm_compute; reflexivity.
Qed.

(** ** Attendance ledger *)

Lemma mark_attendance_run (st : tracker) (S D s : string) :
  mark_attendance S D s st =
    (inr tt,
     with_attendance_records
       (<[S := marked D s (records_of st S)]> (attendance_records st)) st).
Proof.
  unfold mark_attendance, bind. rewrite defaultdict_get_run.
  assert (E : forall l,
    set_records S l (after (defaultdict_get S) st) =
      (inr tt, with_attendance_records (<[S := l]> (attendance_records st)) st)).
  { intros l. unfold set_records, modify, after, defaultdict_get, bind, get.
    destruct (attendance_records st !! S); [reflexivity|].
    simpl. unfold with_attendance_records. simpl.
    rewrite insert_insert_eq. reflexivity. }
  unfold marked, set_status.
  destruct (List.filter _ (records_of st S)); rewrite E; reflexivity.
Qed.

Lemma filter_date_nil (D : string) (l : list att_record) :
  List.filter (fun r => String.eqb (date r) D) l = [] <->
  (forall r, r ∈ l -> date r <> D).
Proof.
  induction l as [|x l IH]; simpl.
  - split; [|reflexivity]. intros _ r Hr. inversion Hr.
  - destruct (String.eqb_spec (date x) D) as [E|E].
    + split; [discriminate|]. intros H. exfalso. apply (H x); [left|exact E].
    + rewrite IH. split.
      * intros H r Hr. apply elem_of_cons in Hr as [->|Hr]; [exact E|auto].
      * intros H r Hr. apply H. right. exact Hr.
Qed.

Lemma map_set_status_absent (D s : string) (l : list att_record) :
  (forall r, r ∈ l -> date r <> D) -> List.map (set_status D s) l = l.
Proof.
  induction l as [|x l IH]; intros H; simpl; [reflexivity|].
  rewrite IH by (intros r Hr; apply H; right; exact Hr).
  unfold set_status. destruct (String.eqb_spec (date x) D) as [E|E]; [|reflexivity].
  exfalso. apply (H x); [left|exact E].
Qed.

Lemma set_status_date (D s : string) (r : att_record) :
  date (set_status D s r) = date r.
Proof. unfold set_status. destruct (String.eqb (date r) D); reflexivity. Qed.

Lemma map_set_status_dates (D s : string) (l : list att_record) :
  date <$> List.map (set_status D s) l = date <$> l.
Proof.
  induction l as [|x l IH]; simpl; [reflexivity|].
  rewrite set_status_date. f_equal. exact IH.
Qed.

Lemma set_status_idem (D s : string) (r : att_record) :
  set_status D s (set_status D s r) = set_status D s r.
Proof.
  unfold set_status. destruct (String.eqb (date r) D) eqn:E; simpl; rewrite E; reflexivity.
Qed.

(** With one record per date, rewriting the records of a date is an update
    at the index of its record. *)
Lemma map_set_status_insert (D s : string) (l : list att_record) (i : nat)
  (r : att_record) :
  NoDup (date <$> l) -> l !! i = Some r -> date r = D ->
  List.map (set_status D s) l = <[i := {| date := D; status := s |}]> l.
Proof.
  revert i. induction l as [|x l IH]; intros i Hnd Hi HD; [discriminate|].
  apply NoDup_cons in Hnd as [Hx Hnd]. destruct i as [|i]; simpl in *.
  - injection Hi as ->. unfold set_status at 1.
    rewrite (proj2 (String.eqb_eq _ _) HD). rewrite HD. f_equal.
    apply map_set_status_absent. intros r' Hr' E. apply Hx.
    rewrite HD, <- E. apply list_elem_of_fmap. exists r'. split; [reflexivity|exact Hr'].
  - rewrite (IH i Hnd Hi HD). f_equal.
    unfold set_status. destruct (String.eqb_spec (date x) D) as [E|E]; [|reflexivity].
    exfalso. apply Hx. rewrite E, <- HD. apply list_elem_of_fmap.
    exists r. split; [reflexivity|]. apply list_elem_of_lookup. exists i. exact Hi.
Qed.

Lemma marked_dates_NoDup (D s : string) (l : list att_record) :
  NoDup (date <$> l) -> NoDup (date <$> marked D s l).
Proof.
  intros Hnd. unfold marked.
  destruct (List.filter _ l) eqn:E.
  - rewrite fmap_app. simpl. apply NoDup_app. split; [exact Hnd|]. split.
    + intros d Hd Hd'. apply list_elem_of_singleton in Hd'. subst d.
      apply list_elem_of_fmap in Hd as (r & Hr & Hin).
      apply (proj1 (filter_date_nil D l) E r Hin). symmetry. exact Hr.
    + apply NoDup_singleton.
  - rewrite map_set_status_dates. exact Hnd.
Qed.

Lemma marked_has_record (D s : string) (l : list att_record) :
  {| date := D; status := s |} ∈ marked D s l.
Proof.
  unfold marked. destruct (List.filter _ l) as [|x f] eqn:E.
  - apply elem_of_app. right. left.
  - assert (Hx : In x (List.filter (fun r => String.eqb (date r) D) l))
      by (rewrite E; left; reflexivity).
    apply filter_In in Hx as [Hin Hd]. apply String.eqb_eq in Hd.
    apply list_elem_of_In, in_map_iff. exists x. split; [|exact Hin].
    unfold set_status. rewrite (proj2 (String.eqb_eq _ _) Hd), Hd. reflexivity.
Qed.

Lemma marked_filter_cons (D s : string) (l : list att_record) :
  exists x f, List.filter (fun r => String.eqb (date r) D) (marked D s l) = x :: f.
Proof.
  pose proof (marked_has_record D s l) as H.
  destruct (List.filter _ (marked D s l)) as [|x f] eqn:E; [|eauto].
  exfalso. apply (proj1 (filter_date_nil D _) E _ H). reflexivity.
Qed.

Lemma marked_idem (D s : string) (l : list att_record) :
  marked D s (marked D s l) = marked D s l.
Proof.
  destruct (marked_filter_cons D s l) as (x & f & E).
  unfold marked at 1. rewrite E. unfold marked.
  destruct (List.filter _ l) eqn:El.
  - rewrite map_app. simpl. rewrite map_set_status_absent
      by (apply filter_date_nil; exact El).
    unfold set_status. simpl. rewrite String.eqb_refl. reflexivity.
  - rewrite map_map. apply map_ext. intros r. apply set_status_idem.
Qed.

Lemma filter_map_set_status (D s : string) (m : list att_record) :
  NoDup (date <$> m) -> (exists r, r ∈ m /\ date r = D) ->
  List.filter (fun r => String.eqb (date r) D) (List.map (set_status D s) m)
  = [{| date := D; status := s |}].
Proof.
  induction m as [|x m IH]; intros Hnd (r & Hr & HD).
  - inversion Hr.
  - apply NoDup_cons in Hnd as [Hx Hnd]. simpl.
    rewrite set_status_date.
    destruct (String.eqb_spec (date x) D) as [E|E].
    + assert (Hm : forall r', r' ∈ m -> date r' <> D).
      { intros r' Hr' E'. apply Hx. rewrite E, <- E'.
        apply list_elem_of_fmap. exists r'. split; [reflexivity|exact Hr']. }
      rewrite (map_set_status_absent D s m Hm).
      rewrite (proj2 (filter_date_nil D m) Hm).
      unfold set_status. rewrite (proj2 (String.eqb_eq _ _) E), E. reflexivity.
    + apply IH; [exact Hnd|]. exists r. split; [|exact HD].
      apply elem_of_cons in Hr as [->|Hr]; [contradiction|exact Hr].
Qed.

(** After two marks of the same date, the records of that date are one
    record with the second status. *)
Lemma marked_twice_filter (D s1 s2 : string) (l : list att_record) :
  NoDup (date <$> l) ->
  List.filter (fun r => String.eqb (date r) D) (marked D s2 (marked D s1 l))
  = [{| date := D; status := s2 |}].
Proof.
  intros Hnd. apply (marked_dates_NoDup D s1) in Hnd.
  destruct (marked_filter_cons D s1 l) as (x & f & E).
  unfold marked at 1. rewrite E.
  apply filter_map_set_status; [exact Hnd|].
  exists {| date := D; status := s1 |}. split; [apply marked_has_record|reflexivity].
Qed.

Lemma records_of_marked (st : tracker) (S : string) (l : list att_record)
  (m : gmap string (list att_record)) :
  records_of (with_attendance_records (<[S := l]> m) st) S = l.
Proof. unfold records_of. simpl. rewrite lookup_insert_eq. reflexivity. Qed.

Lemma after_mark_attendance (st : tracker) (S D s : string) :
  after (mark_attendance S D s) st =
    with_attendance_records
      (<[S := marked D s (records_of st S)]> (attendance_records st)) st.
Proof. unfold after. rewrite mark_attendance_run. reflexivity. Qed.

(** C5. [mark_attendance] is an upsert.  In a ledger with at most one
    record per (subject, date): a record of that date is replaced in place,
    otherwise a record is appended; nothing else in the tracker changes and
    the ledger keeps one record per date; marking twice with the same
    arguments gives the state of marking once; and ['present'] followed by
    ['absent'] leaves exactly one record of that date, with status
    ['absent']. *)
Theorem mark_attendance_upsert (st : tracker) (S D s : string) :
  ledger_unique st ->
  let st1 := after (mark_attendance S D s) st in
  let record := {| date := D; status := s |} in
  (forall i r, records_of st S !! i = Some r -> date r = D ->
     records_of st1 S = <[i := record]> (records_of st S)) /\
  ((forall r, r ∈ records_of st S -> date r <> D) ->
     records_of st1 S = records_of st S ++ [record]) /\
  st1 = with_attendance_records
          (<[S := records_of st1 S]> (attendance_records st)) st /\
  ledger_unique st1 /\
  after (mark_attendance S D s) st1 = st1 /\
  List.filter (fun r => String.eqb (date r) D)
    (records_of (after (mark_attendance S D "absent")
                   (after (mark_attendance S D "present") st)) S)
  = [{| date := D; status := "absent" |}].
Proof.
  intros Huniq st1 record.
  assert (Hnd : NoDup (date <$> records_of st S)).
  { unfold records_of. destruct (attendance_records st !! S) eqn:E; simpl.
    - apply (Huniq S). exact E.
    - apply NoDup_nil_2. }
  assert (Hst1 : st1 = with_attendance_records
             (<[S := marked D s (records_of st S)]> (attendance_records st)) st).
  { apply after_mark_attendance. }
  assert (Hrec : records_of st1 S = marked D s (records_of st S)).
  { rewrite Hst1. apply records_of_marked. }
  repeat split.
  - intros i r Hi HD. rewrite Hrec. unfold marked.
    destruct (List.filter _ (records_of st S)) eqn:E.
    + exfalso. apply (proj1 (filter_date_nil D _) E r); [|exact HD].
      apply list_elem_of_lookup. exists i. exact Hi.
    + apply (map_set_status_insert D s _ i r); assumption.
  - intros Hno. rewrite Hrec. unfold marked.
    rewrite (proj2 (filter_date_nil D _) Hno). reflexivity.
  - rewrite Hrec. exact Hst1.
  - intros S' l. rewrite Hst1. simpl. intros Hl.
    apply lookup_insert_Some in Hl as [[_ <-]|[_ Hl]].
    + apply marked_dates_NoDup. exact Hnd.
    + apply (Huniq S'). exact Hl.
  - rewrite after_mark_attendance, Hrec, marked_idem. rewrite Hst1.
    unfold with_attendance_records. simpl. rewrite insert_insert_eq. reflexivity.
  - rewrite (after_mark_attendance _ S D "absent"), records_of_marked.
    rewrite (after_mark_attendance st S D "present"), records_of_marked.
    apply marked_twice_filter. exact Hnd.
Qed.

Lemma mark_attendance_upsert_witness :
  ledger_unique cs101 /\
  List.filter (fun r => String.eqb (date r) "2025-09-08")
    (records_of (after (mark_attendance "CS101" "2025-09-08" "absent")
                   (after (mark_attendance "CS101" "2025-09-08" "present") cs101))
                "CS101")
  = [{| date := "2025-09-08"; status := "absent" |}].
Proof.
  assert (Hu : ledger_unique cs101).
  { intros S l Hl. vm_compute in Hl. discriminate. }
  split; [exact Hu|].
  apply (mark_attendance_upsert cs101 "CS101" "2025-09-08" "present" Hu).
Defined.

(** C10. For any subject code, known to [subjects] or not, and any date
    and status, [mark_attendance] returns without raising; afterwards the
    subject has a ledger list holding the record (date, status), and that
    list is just this record when the subject had no ledger list before. *)
Theorem mark_attendance_unknown_subject (st : tracker) (S D s : string) :
  outcome (mark_attendance S D s) st = inr tt /\
  exists l,
    attendance_records (after (mark_attendance S D s) st) !! S = Some l /\
    {| date := D; status := s |} ∈ l /\
    (attendance_records st !! S = None -> l = [{| date := D; status := s |}]).
Proof.
  unfold outcome, after. rewrite mark_attendance_run. simpl.
  split; [reflexivity|].
  exists (marked D s (records_of st S)). rewrite lookup_insert_eq.
  split; [reflexivity|]. split; [apply marked_has_record|].
  intros Hnone. unfold records_of. rewrite Hnone. reflexivity.
Qed.

Lemma mark_attendance_unknown_subject_witness :
  subjects empty_tracker !! "GHOST" = None /\
  outcome (mark_attendance "GHOST" "2025-09-08" "present") empty_tracker = inr tt /\
  attendance_records
    (after (mark_attendance "GHOST" "2025-09-08" "present") empty_tracker) !! "GHOST"
  = Some [{| date := "2025-09-08"; status := "present" |}].
Proof.
  destruct (mark_attendance_unknown_subject empty_tracker "GHOST" "2025-09-08"
              "present") as (Hok & l & Hl & _ & Hnew).
  split; [reflexivity|]. split; [exact Hok|].
  rewrite Hl, Hnew; reflexivity.
Defined.

(** ** Subjects *)

Lemma without_subject_spec (S : string) (classes : list entry) (e : entry) :
  e ∈ without_subject S classes <-> e ∈ classes /\ e.2 <> S.
Proof.
  unfold without_subject. rewrite !list_elem_of_In, filter_In.
  destruct (String.eqb_spec e.2 S); simpl; intuition congruence.
Qed.

(** C9. Deleting a subject that is in [subjects] returns normally and
    leaves no trace of it: it is no key of [subjects], of the ledger or of
    the seeds, and no timetable entry of any day names it. *)
Theorem delete_subject_cascade (st : tracker) (S : string) :
  is_Some (subjects st !! S) ->
  let st' := after (delete_subject S) st in
  outcome (delete_subject S) st = inr tt /\
  subjects st' !! S = None /\
  attendance_records st' !! S = None /\
  initial_attendance st' !! S = None /\
  (forall day classes, timetable st' !! day = Some classes ->
     forall e, e ∈ classes -> e.2 <> S).
Proof.
  intros Hin. unfold outcome, after, delete_subject, bind, get.
  destruct (decide (is_Some (subjects st !! S))) as [_|Hn]; [|contradiction].
  unfold modify, save_data, ret. simpl. split; [reflexivity|].
  assert (Hentries : forall day classes,
            without_subject S <$> timetable st !! day = Some classes ->
            forall e, e ∈ classes -> e.2 <> S).
  { intros day classes Htt e He.
    destruct (timetable st !! day) as [old|]; [|discriminate].
    injection Htt as <-. apply without_subject_spec in He. apply He. }
  destruct (decide (is_Some (attendance_records st !! S))) as [Ha|Ha]; simpl;
    destruct (decide (is_Some (initial_attendance st !! S))) as [Hi|Hi]; simpl;
    (split; [apply lookup_delete_eq|]);
    (split; [first [apply lookup_delete_eq|apply eq_None_not_Some; exact Ha]|]);
    (split; [first [apply lookup_delete_eq|apply eq_None_not_Some; exact Hi]|]);
    intros day classes Hday; apply (Hentries day); rewrite <- lookup_fmap;
    exact Hday.
Qed.

Lemma delete_subject_cascade_witness :
  let st' := after (delete_subject "CS101") cs101 in
  outcome (delete_subject "CS101") cs101 = inr tt /\
  subjects st' !! "CS101" = None /\
  attendance_records st' !! "CS101" = None /\
  initial_attendance st' !! "CS101" = None /\
  (forall day classes, timetable st' !! day = Some classes ->
     forall e, e ∈ classes -> e.2 <> "CS101").
Proof.
  apply (delete_subject_cascade cs101 "CS101").
  exists {| name := "Programming"; credits := 4; is_lab := false |}.
  reflexivity.
Defined.

(** ** Timetable: what the two operations compute *)

Lemma set_day_run (day : string) (l : list entry) (st : tracker) :
  set_day day l st = (inr tt, with_timetable (<[day := l]> (timetable st)) st).
Proof. reflexivity. Qed.

Lemma day_classes_insert (day : string) (l : list entry)
  (m : gmap string (list entry)) (st : tracker) :
  day_classes day (with_timetable (<[day := l]> m) st)
  = (inr l, with_timetable (<[day := l]> m) st).
Proof.
  unfold day_classes, bind, get, ret. simpl. rewrite lookup_insert_eq. reflexivity.
Qed.

Lemma with_timetable_twice (m m' : gmap string (list entry)) (st : tracker) :
  with_timetable m (with_timetable m' st) = with_timetable m st.
Proof. reflexivity. Qed.

Lemma day_created_classes (day : string) (st : tracker) :
  day_classes day (day_created day st)
  = (inr (default [] (timetable st !! day)), day_created day st).
Proof.
  unfold day_classes, day_created, bind, get, ret.
  destruct (decide (is_Some (timetable st !! day))) as [H|H]; [reflexivity|].
  simpl. rewrite lookup_insert_eq.
  apply eq_None_not_Some in H. rewrite H. reflexivity.
Qed.

Lemma day_created_insert (day : string) (l : list entry) (st : tracker) :
  with_timetable (<[day := l]> (timetable (day_created day st))) (day_created day st)
  = with_timetable (<[day := l]> (timetable st)) st.
Proof.
  unfold day_created.
  destruct (decide (is_Some (timetable st !! day))); [reflexivity|].
  simpl. unfold with_timetable. simpl. rewrite insert_insert_eq. reflexivity.
Qed.

(** [add_timetable_entry], as one step. *)
Lemma add_timetable_entry_run (st : tracker) (day period_slot S : string) :
  add_timetable_entry day period_slot S st =
    match period_num_of period_slot with
    | inl e => (inl e, day_created day st)
    | inr n =>
        let classes := default [] (timetable st !! day) in
        if lab_flag st S
           && ((7 <=? n) || existsb (fun e => in_period (n + 1) e.1) classes)
        then (inl (ValueError
                "Cannot add lab subject here - requires two consecutive periods"),
              day_created day st)
        else (inr tt,
              with_timetable
                (<[day := added (lab_flag st S) n period_slot S classes]>
                   (timetable st)) st)
    end.
Proof.
  unfold add_timetable_entry. unfold bind at 1, get at 1.
  unfold bind at 1.
  assert (E0 : (if decide (is_Some (timetable st !! day)) then ret tt
                else set_day day []) st = (inr tt, day_created day st)).
  { unfold day_created. destruct (decide _); reflexivity. }
  rewrite E0. fold (lab_flag st S).
  unfold bind at 1, parse_period_num.
  destruct (period_num_of period_slot) as [e|n]; [reflexivity|].
  unfold ret at 1. unfold bind at 1. rewrite day_created_classes.
  set (classes := default [] (timetable st !! day)). cbv zeta.
  unfold added, period_label.
  destruct (lab_flag st S); simpl andb.
  - unfold bind at 1.
    destruct ((7 <=? n) || existsb _ classes); [reflexivity|].
    unfold ret at 1. unfold bind at 1. rewrite set_day_run, day_created_insert.
    unfold bind at 1. unfold bind at 1. rewrite day_classes_insert, set_day_run.
    rewrite with_timetable_twice. simpl timetable. rewrite insert_insert_eq.
    unfold bind at 1. rewrite day_classes_insert.
    unfold bind at 1. rewrite set_day_run, with_timetable_twice.
    simpl timetable. rewrite insert_insert_eq.
    unfold bind at 1. unfold bind at 1. rewrite day_classes_insert, set_day_run.
    rewrite with_timetable_twice. simpl timetable. rewrite insert_insert_eq.
    unfold bind at 1. rewrite day_classes_insert.
    unfold bind at 1. rewrite set_day_run, with_timetable_twice.
    simpl timetable. rewrite insert_insert_eq. reflexivity.
  - unfold bind at 1. unfold ret at 1.
    unfold bind at 1. rewrite set_day_run, day_created_insert.
    unfold bind at 1. unfold ret at 1.
    unfold bind at 1. rewrite day_classes_insert.
    unfold bind at 1. rewrite set_day_run, with_timetable_twice.
    simpl timetable. rewrite insert_insert_eq.
    unfold bind at 1. unfold ret at 1.
    unfold bind at 1. rewrite day_classes_insert.
    unfold bind at 1. rewrite set_day_run, with_timetable_twice.
    simpl timetable. rewrite insert_insert_eq. reflexivity.
Qed.

(** [delete_timetable_entry], as one step. *)
Lemma delete_timetable_entry_run (st : tracker) (day period_slot S : string) :
  delete_timetable_entry day period_slot S st =
    match timetable st !! day with
    | None => (inr tt, st)
    | Some classes =>
        let time_to_find :=
          if Py.contains " (" period_slot then
            match period_num_of period_slot with
            | inl e => inl e
            | inr n => inr (time_map n)
            end
          else inr (Some period_slot) in
        match time_to_find with
        | inl e => (inl e, st)
        | inr t =>
            (inr tt,
             with_timetable
               (match delete_loop t period_slot S false classes with
                | [] => delete day (timetable st)
                | l => <[day := l]> (timetable st)
                end) st)
        end
    end.
Proof.
  unfold delete_timetable_entry, bind, get.
  destruct (timetable st !! day) as [classes|]; [|reflexivity].
  unfold parse_period_num.
  destruct (Py.contains " (" period_slot).
  - destruct (period_num_of period_slot) as [e|n]; [reflexivity|].
    unfold ret. destruct (delete_loop _ _ _ _ _); reflexivity.
  - unfold ret. destruct (delete_loop _ _ _ _ _); reflexivity.
Qed.

(** ** The seven period labels *)

Ltac period_cases n :=
  let C := fresh "C" in
  assert (C : n = 1 \/ n = 2 \/ n = 3 \/ n = 4 \/ n = 5 \/ n = 6 \/ n = 7 \/ n = 8)
    by lia;
  destruct C as [->|[->|[->|[->|[->|[->|[->| ->]]]]]]].

Lemma period_num_of_label (n : Z) :
  1 <= n <= 7 -> period_num_of (period_label n) = inr n.
Proof. intros Hn. period_cases n; first [reflexivity|lia]. Qed.

Lemma in_period_label (n m : Z) :
  1 <= n <= 8 -> 1 <= m <= 8 -> in_period n (period_label m) = (n =? m).
Proof.
  intros Hn Hm. period_cases n; period_cases m; reflexivity.
Qed.

Lemma period_label_inj (n m : Z) :
  1 <= n <= 8 -> 1 <= m <= 8 -> period_label n = period_label m -> n = m.
Proof.
  intros Hn Hm E. pose proof (in_period_label n m Hn Hm) as H.
  rewrite <- E, (in_period_label n n Hn Hn), Z.eqb_refl in H.
  symmetry in H. apply Z.eqb_eq in H. exact H.
Qed.

(** ** Lists: sorting, filtering, the deletion loop *)

Lemma insert_sorted_perm (x : entry) (l : list entry) :
  Py.insert_sorted x l ≡ₚ x :: l.
Proof.
  induction l as [|y l IH]; simpl; [reflexivity|].
  destruct (Py.tuple_leb x y); [reflexivity|].
  rewrite IH. apply Permutation_swap.
Qed.

Lemma sort_perm (l : list entry) : Py.sort l ≡ₚ l.
Proof.
  unfold Py.sort. induction l as [|x l IH]; simpl; [reflexivity|].
  rewrite insert_sorted_perm, IH. reflexivity.
Qed.

Lemma tuple_leb_total (x y : entry) :
  Py.tuple_leb x y = false -> Py.tuple_leb y x = true.
Proof.
  unfold Py.tuple_leb. rewrite (String.compare_antisym y.1 x.1).
  destruct (String.compare x.1 y.1) eqn:E; simpl; try congruence.
  intros H. destruct (String.leb_total x.2 y.2) as [H'|H']; congruence.
Qed.

Lemma insert_sorted_sorted (x : entry) (l : list entry) :
  Sorted (fun a b => Py.tuple_leb a b = true) l ->
  Sorted (fun a b => Py.tuple_leb a b = true) (Py.insert_sorted x l).
Proof.
  induction l as [|y l IH]; intros Hs; simpl.
  - repeat constructor.
  - destruct (Py.tuple_leb x y) eqn:E.
    + constructor; [exact Hs|]. constructor. exact E.
    + inversion Hs as [|? ? Hs' Hhd]; subst. constructor; [apply IH, Hs'|].
      destruct l as [|z l]; simpl.
      * constructor. apply tuple_leb_total, E.
      * destruct (Py.tuple_leb x z); constructor.
        -- apply tuple_leb_total, E.
        -- inversion Hhd; assumption.
Qed.

(** [sort()] leaves the list in tuple order. *)
Lemma sort_sorted (l : list entry) :
  Sorted (fun a b => Py.tuple_leb a b = true) (Py.sort l).
Proof.
  unfold Py.sort. induction l as [|x l IH]; simpl; [constructor|].
  apply insert_sorted_sorted, IH.
Qed.

(** On the seven labels the tuple order is the order of the periods. *)
Lemma tuple_leb_label (n m : Z) (S S' : string) :
  1 <= n <= 8 -> 1 <= m <= 8 -> n < m ->
  Py.tuple_leb (period_label n, S) (period_label m, S') = true /\
  Py.tuple_leb (period_label m, S') (period_label n, S) = false.
Proof.
  intros Hn Hm Hlt. unfold Py.tuple_leb. simpl.
  period_cases n; period_cases m; first [lia | split; reflexivity].
Qed.

Lemma filter_sublist {A} (f : A -> bool) (l : list A) : List.filter f l `sublist_of` l.
Proof.
  induction l as [|x l IH]; simpl; [constructor|].
  destruct (f x); [apply sublist_skip|apply sublist_cons]; exact IH.
Qed.

Lemma elem_of_filter_bool {A} (f : A -> bool) (l : list A) (x : A) :
  x ∈ List.filter f l <-> x ∈ l /\ f x = true.
Proof. rewrite !list_elem_of_In. apply filter_In. Qed.

Lemma delete_loop_sublist (t : option string) (slot S : string) (skip : bool)
  (classes : list entry) :
  delete_loop t slot S skip classes `sublist_of` classes.
Proof.
  revert skip. induction classes as [|[time subj] rest IH]; intros skip; simpl.
  - constructor.
  - destruct skip; [apply sublist_cons, IH|].
    destruct ((bool_decide (Some time = t) || String.eqb time slot)
              && String.eqb subj S).
    + apply sublist_cons, IH.
    + apply sublist_skip, IH.
Qed.

Lemma existsb_false_elem {A} (f : A -> bool) (l : list A) (x : A) :
  existsb f l = false -> x ∈ l -> f x = false.
Proof.
  intros He Hx. destruct (f x) eqn:E; [|reflexivity].
  rewrite <- He. symmetry. apply existsb_exists. exists x.
  split; [apply list_elem_of_In, Hx|exact E].
Qed.

(** ** Slots of a day *)

Lemma slots_distinct_nil : slots_distinct [].
Proof. split; [constructor|apply NoDup_nil_2]. Qed.

Lemma slots_distinct_perm (l l' : list entry) :
  l ≡ₚ l' -> slots_distinct l' -> slots_distinct l.
Proof.
  intros HP [HF HN].
  assert (E : l.*1 ≡ₚ l'.*1) by (rewrite HP; reflexivity).
  split.
  - apply Forall_forall. intros t Ht. rewrite E in Ht.
    exact (proj1 (Forall_forall _ _) HF t Ht).
  - rewrite E. exact HN.
Qed.

Lemma slots_distinct_sublist (l l' : list entry) :
  l `sublist_of` l' -> slots_distinct l' -> slots_distinct l.
Proof.
  intros Hs [HF HN].
  assert (E : l.*1 `sublist_of` l'.*1) by (apply fmap_sublist, Hs).
  split.
  - apply Forall_forall. intros t Ht.
    exact (proj1 (Forall_forall _ _) HF t (elem_of_sublist _ _ _ Ht E)).
  - exact (sublist_NoDup _ _ HN E).
Qed.

Lemma slots_distinct_snoc (l : list entry) (t S : string) :
  slots_distinct l -> is_period_label t -> t ∉ l.*1 -> slots_distinct (l ++ [(t, S)]).
Proof.
  intros [HF HN] Ht Hnew. unfold slots_distinct. rewrite fmap_app. simpl. split.
  - apply Forall_app. split; [exact HF|]. apply Forall_singleton. exact Ht.
  - apply NoDup_app. split; [exact HN|]. split; [|apply NoDup_singleton].
    intros x Hx Hx'. apply list_elem_of_singleton in Hx'. subst x. contradiction.
Qed.

Lemma not_in_period_fst (n : Z) (t : string) (l : list entry) :
  (forall e, e ∈ l -> in_period n e.1 = false) -> in_period n t = true -> t ∉ l.*1.
Proof.
  intros Hall Ht Hin. apply list_elem_of_fmap in Hin as (e & -> & He).
  rewrite (Hall e He) in Ht. discriminate.
Qed.

(** The list written by a returning [add_timetable_entry] keeps one entry
    per slot. *)
Lemma added_slots_distinct (lab : bool) (n : Z) (S : string) (classes : list entry) :
  1 <= n <= 7 ->
  (lab = true -> n < 7 /\ existsb (fun e => in_period (n + 1) e.1) classes = false) ->
  slots_distinct classes ->
  slots_distinct (added lab n (period_label n) S classes).
Proof.
  intros Hn Hlab Hd. unfold added.
  set (kept := List.filter (fun e => negb (in_period n e.1)) classes).
  assert (Hkept : slots_distinct kept)
    by (apply (slots_distinct_sublist _ classes); [apply filter_sublist|exact Hd]).
  assert (Hk1 : forall e, e ∈ kept -> in_period n e.1 = false).
  { intros e He. apply elem_of_filter_bool in He as [_ He].
    apply negb_true_iff in He. exact He. }
  assert (Hnew : slots_distinct (kept ++ [(period_label n, S)])).
  { apply slots_distinct_snoc; [exact Hkept|exists n; split; [lia|reflexivity]|].
    apply (not_in_period_fst n); [exact Hk1|].
    rewrite in_period_label by lia. apply Z.eqb_refl. }
  destruct lab.
  - destruct (Hlab eq_refl) as [Hn7 Hfree].
    eapply slots_distinct_perm; [apply sort_perm|].
    set (kept' := List.filter (fun e => negb (in_period (n + 1) e.1)) kept).
    apply slots_distinct_snoc.
    + apply slots_distinct_snoc.
      * apply (slots_distinct_sublist _ kept); [apply filter_sublist|exact Hkept].
      * exists n. split; [lia|reflexivity].
      * apply (not_in_period_fst n).
        -- intros e He. apply elem_of_filter_bool in He as [He _]. auto.
        -- rewrite in_period_label by lia. apply Z.eqb_refl.
    + exists (n + 1). split; [lia|reflexivity].
    + apply (not_in_period_fst (n + 1)).
      * intros e He. apply elem_of_app in He as [He|He].
        -- apply elem_of_filter_bool in He as [_ He].
           apply negb_true_iff in He. exact He.
        -- apply list_elem_of_singleton in He. subst e. simpl.
           rewrite in_period_label by lia. apply Z.eqb_neq. lia.
      * rewrite in_period_label by lia. apply Z.eqb_refl.
  - eapply slots_distinct_perm; [apply sort_perm|]. exact Hnew.
Qed.


Lemma slots_ok_classes (st : tracker) (day : string) :
  slots_ok st -> slots_distinct (default [] (timetable st !! day)).
Proof.
  intros Hok. destruct (timetable st !! day) as [l|] eqn:E; simpl.
  - exact (Hok day l E).
  - apply slots_distinct_nil.
Qed.


(** ** Timetable: adding *)

(** On the labels of the form, a slot is occupied exactly when some entry
    starts with its period. *)
Lemma occupied_iff (n : Z) (classes : list entry) :
  1 <= n <= 8 -> Forall is_period_label classes.*1 ->
  existsb (fun e => in_period n e.1) classes = true <->
  exists S, (period_label n, S) ∈ classes.
Proof.
  intros Hn Hwf. rewrite existsb_exists. split.
  - intros ([t S] & Hin & Hp). exists S. simpl in Hp.
    apply list_elem_of_In in Hin.
    assert (Ht : is_period_label t).
    { apply (proj1 (Forall_forall _ _) Hwf).
      apply list_elem_of_fmap. exists (t, S). split; [reflexivity|exact Hin]. }
    destruct Ht as (m & Hm & ->). rewrite in_period_label in Hp by lia.
    apply Z.eqb_eq in Hp. subst m. exact Hin.
  - intros (S & Hin). exists (period_label n, S).
    split; [apply list_elem_of_In, Hin|]. simpl.
    rewrite in_period_label by lia. apply Z.eqb_refl.
Qed.

(** [add_timetable_entry] on a label of the form raises exactly for a lab
    subject at the last period or before a taken period, and otherwise
    returns, leaving for the day the filtered, extended and sorted list. *)
Lemma add_timetable_entry_conflict (st : tracker) (day S : string) (n : Z) :
  1 <= n <= 7 ->
  let classes := default [] (timetable st !! day) in
  let conflict :=
    lab_flag st S = true /\
    (n = 7 \/ existsb (fun e => in_period (n + 1) e.1) classes = true) in
  (conflict ->
   outcome (add_timetable_entry day (period_label n) S) st
   = inl (ValueError
            "Cannot add lab subject here - requires two consecutive periods") /\
   after (add_timetable_entry day (period_label n) S) st = day_created day st) /\
  (~ conflict ->
   outcome (add_timetable_entry day (period_label n) S) st = inr tt /\
   after (add_timetable_entry day (period_label n) S) st
   = with_timetable
       (<[day := added (lab_flag st S) n (period_label n) S classes]>
          (timetable st)) st).
Proof.
  intros Hn classes conflict. unfold outcome, after.
  rewrite add_timetable_entry_run, period_num_of_label by exact Hn.
  cbv zeta. fold classes.
  destruct (lab_flag st S) eqn:Hl; simpl andb.
  - destruct (7 <=? n) eqn:H7; simpl orb.
    + split; [intros _; split; reflexivity|].
      intros Hc. exfalso. apply Hc. split; [reflexivity|]. left. lia.
    + destruct (existsb _ classes) eqn:He.
      * split; [intros _; split; reflexivity|].
        intros Hc. exfalso. apply Hc. split; [reflexivity|]. right. reflexivity.
      * split; [|intros _; split; reflexivity].
        intros [_ [Hc|Hc]]; [lia|discriminate].
  - split; [|intros _; split; reflexivity].
    intros [Hc _]. discriminate.
Qed.

(** A raising [add_timetable_entry] changes nothing when the day already
    has a list. *)
Lemma add_timetable_entry_raise_known_day (st : tracker) (day slot S : string)
  (e : exn) :
  is_Some (timetable st !! day) ->
  outcome (add_timetable_entry day slot S) st = inl e ->
  after (add_timetable_entry day slot S) st = st.
Proof.
  intros Hday. unfold outcome, after. rewrite add_timetable_entry_run.
  assert (Hst : day_created day st = st).
  { unfold day_created. destruct (decide _); [reflexivity|contradiction]. }
  destruct (period_num_of slot) as [e'|n]; [intros _; exact Hst|].
  cbv zeta. destruct (lab_flag st S && _); [intros _; exact Hst|discriminate].
Qed.

(** C6. A lab subject added at the last period of a day that has no
    timetable list yet: the call raises the conflict error, and the
    timetable it leaves differs from the one it found, the day now being a
    key with an empty list. *)
Theorem add_lab_last_period_creates_day :
  lab_flag lab_only "PHYLAB" = true /\
  timetable lab_only !! "Monday" = None /\
  outcome (add_timetable_entry "Monday" "Period 7 (3:15-4:10)" "PHYLAB") lab_only
  = inl (ValueError
           "Cannot add lab subject here - requires two consecutive periods") /\
  timetable (after (add_timetable_entry "Monday" "Period 7 (3:15-4:10)" "PHYLAB")
               lab_only) !! "Monday" = Some [] /\
  after (add_timetable_entry "Monday" "Period 7 (3:15-4:10)" "PHYLAB") lab_only
  <> lab_only.
Proof.
  assert (H : timetable (after (add_timetable_entry "Monday" "Period 7 (3:15-4:10)"
                                  "PHYLAB") lab_only) !! "Monday" = Some [])
    by reflexivity.
  repeat split; try reflexivity.
  intros E. rewrite E in H. discriminate.
Qed.

(** ** Timetable: the invariant *)

Lemma timetable_lab_monday :
  timetable lab_monday
  = {[ "Monday" := [(period_label 1, "PHYLAB"); (period_label 2, "PHYLAB")] ]}.
Proof. reflexivity. Qed.

Lemma lab_monday_invariant : timetable_invariant lab_monday.
Proof.
  intros day classes. rewrite timetable_lab_monday.
  intros [<- <-]%lookup_singleton_Some. split.
  - split.
    + repeat constructor; [exists 1|exists 2]; (split; [lia|reflexivity]).
    + apply NoDup_cons. split; [|apply NoDup_singleton].
      intros H%list_elem_of_singleton. discriminate.
  - intros S info HS Hlab Hin. exists 1. split; [lia|].
    assert (HSeq : S = "PHYLAB").
    { apply elem_of_cons in Hin as [->|Hin]; [reflexivity|].
      apply list_elem_of_singleton in Hin. exact Hin. }
    subst S. intros t. split.
    + intros Ht. apply elem_of_cons in Ht as [Ht|Ht].
      * left. injection Ht as Ht. exact Ht.
      * right. apply list_elem_of_singleton in Ht. injection Ht as Ht. exact Ht.
    + intros [->| ->]; [left|right; left].
Qed.



(** ** Timetable: deleting *)

(** Days other than the one named are left as they were. *)
Lemma delete_timetable_entry_other_days (st : tracker) (day slot S d : string) :
  d <> day ->
  timetable (after (delete_timetable_entry day slot S) st) !! d = timetable st !! d.
Proof.
  intros Hd. unfold after. rewrite delete_timetable_entry_run.
  destruct (timetable st !! day) as [classes|]; [|reflexivity].
  cbv zeta. destruct (if Py.contains " (" slot then _ else _) as [e|t]; [reflexivity|].
  simpl. destruct (delete_loop t slot S false classes).
  - apply lookup_delete_ne. congruence.
  - apply lookup_insert_ne. congruence.
Qed.

(** The loop only ever drops entries of the subject named. *)
Lemma delete_loop_other_subjects (t : option string) (slot S : string)
  (skip : bool) (classes : list entry) :
  (skip = true -> match classes with (_, subj) :: _ => subj = S | [] => True end) ->
  without_subject S (delete_loop t slot S skip classes) = without_subject S classes.
Proof.
  revert skip. induction classes as [|[time subj] rest IH]; intros skip Hskip;
    [reflexivity|].
  simpl delete_loop. destruct skip.
  - rewrite (Hskip eq_refl). rewrite IH by discriminate.
    unfold without_subject. simpl. rewrite String.eqb_refl. reflexivity.
  - destruct ((bool_decide (Some time = t) || String.eqb time slot)
              && String.eqb subj S) eqn:Hm.
    + apply andb_true_iff in Hm as [_ Hs]. apply String.eqb_eq in Hs. subst subj.
      rewrite IH.
      * unfold without_subject. simpl. rewrite String.eqb_refl. reflexivity.
      * destruct rest as [|[t' s'] rest']; [trivial|].
        intros Hs. apply String.eqb_eq in Hs. exact Hs.
    + unfold without_subject in *. simpl. rewrite IH by discriminate. reflexivity.
Qed.

Lemma time_map_not_label (n : Z) (time : string) :
  is_period_label time -> Some time <> time_map n.
Proof.
  intros (m & Hm & ->) E.
  assert (Hcases : n <= 0 \/ 8 <= n \/ 1 <= n <= 7) by lia.
  destruct Hcases as [Hn|[Hn|Hn]].
  - destruct n; try lia; discriminate.
  - assert (E' : time_map n = None).
    { destruct n as [|p|p]; try lia.
      do 3 (destruct p as [p|p|]; try lia; try reflexivity). }
    congruence.
  - period_cases n; period_cases m; first [lia|discriminate].
Qed.

(** Without a match the loop copies the list. *)
Lemma delete_loop_no_match (t : option string) (slot S : string)
  (classes : list entry) :
  (forall e, e ∈ classes -> Some e.1 <> t /\ e.1 <> slot) ->
  delete_loop t slot S false classes = classes.
Proof.
  induction classes as [|[time subj] rest IH]; intros Hno; [reflexivity|].
  simpl. destruct (Hno (time, subj)) as [H1 H2]; [left|]. simpl in *.
  rewrite bool_decide_eq_false_2 by exact H1.
  rewrite (proj2 (String.eqb_neq _ _) H2). simpl.
  rewrite IH; [reflexivity|]. intros e He. apply Hno. right. exact He.
Qed.

(** On a day of labelled, pairwise distinct slots, deleting the entry
    (slot, S) drops it, and with it the next entry of the list when that
    one carries the same subject. *)
Lemma delete_loop_at (n : Z) (S : string) (before rest : list entry) :
  1 <= n <= 7 ->
  slots_distinct (before ++ (period_label n, S) :: rest) ->
  delete_loop (time_map n) (period_label n) S false
    (before ++ (period_label n, S) :: rest)
  = before ++ match rest with
              | (_, subj') :: rest' => if String.eqb subj' S then rest' else rest
              | [] => []
              end.
Proof.
  intros Hn [Hwf Hnd]. rewrite fmap_app in Hwf, Hnd. simpl in Hwf, Hnd.
  apply Forall_app in Hwf as [Hwf1 Hwf2].
  apply Forall_cons in Hwf2 as [_ Hwf2].
  apply NoDup_app in Hnd as (_ & Hdisj & Hnd2).
  apply NoDup_cons in Hnd2 as [Hnotin _].
  assert (Hno : forall l : list entry, Forall is_period_label l.*1 ->
            period_label n ∉ l.*1 ->
            forall e, e ∈ l -> Some e.1 <> time_map n /\ e.1 <> period_label n).
  { intros l Hl Hout e He.
    assert (He1 : e.1 ∈ l.*1) by (apply list_elem_of_fmap_2, He).
    split.
    - apply time_map_not_label. exact (proj1 (Forall_forall _ _) Hl _ He1).
    - intros E. apply Hout. rewrite <- E. exact He1. }
  assert (Hb : period_label n ∉ before.*1).
  { intros Hin. apply (Hdisj _ Hin). left. }
  clear Hdisj. induction before as [|[time subj] before IH].
  - simpl. rewrite !String.eqb_refl, orb_true_r. simpl.
    destruct rest as [|[t' s'] rest']; [reflexivity|].
    simpl in Hwf2, Hnotin.
    apply Forall_cons in Hwf2 as [Hlab' Hwf2'].
    apply not_elem_of_cons in Hnotin as [Hne' Hnotin'].
    destruct (String.eqb s' S).
    + apply delete_loop_no_match, Hno; assumption.
    + apply (delete_loop_no_match _ _ _ ((t', s') :: rest')).
      apply Hno; [constructor; assumption|].
      simpl. apply not_elem_of_cons. split; assumption.
  - simpl in Hwf1, Hb. apply Forall_cons in Hwf1 as [Hlab Hwf1'].
    apply not_elem_of_cons in Hb as [Hne Hb'].
    simpl.
    rewrite bool_decide_eq_false_2 by (apply time_map_not_label, Hlab).
    rewrite (proj2 (String.eqb_neq _ _)) by congruence. simpl.
    rewrite (IH Hwf1' Hb'). reflexivity.
Qed.

(** C8. A lecture subject (no lab) taught at periods 1 and 3 of Monday:
    deleting its period-1 entry also removes the period-3 entry, so the day
    loses two entries and disappears from the timetable. *)
Theorem delete_lecture_removes_two :
  lab_flag math_twice "MATH" = false /\
  timetable math_twice !! "Monday"
  = Some [(period_label 1, "MATH"); (period_label 3, "MATH")] /\
  slots_distinct [(period_label 1, "MATH"); (period_label 3, "MATH")] /\
  outcome (delete_timetable_entry "Monday" (period_label 1) "MATH") math_twice
  = inr tt /\
  timetable (after (delete_timetable_entry "Monday" (period_label 1) "MATH")
               math_twice) !! "Monday" = None.
Proof.
  repeat split; try reflexivity.
  - repeat constructor; [exists 1|exists 3]; (split; [lia|reflexivity]).
  - apply NoDup_cons. split; [|apply NoDup_singleton].
    intros H%list_elem_of_singleton. discriminate.
Qed.


(** * Further properties of the tracker *)

(** ** Statistics: what they depend on *)

(** [get_attendance_stats], as one step, with every field spelled out. *)
Lemma get_attendance_stats_full (st : tracker) (today : Z) (S : string) :
  let p := present_of st S in
  let a := absent_of st S in
  let y := yet_to_go (seed_of st S) in
  let r := remaining_loop st today S in
  get_attendance_stats today S st =
    (inr {| current_present := p;
            current_absent := a;
            current_total := p + a;
            percentage :=
              Py.round2 (if 0 <? p + a
                         then (inject_Z p / inject_Z (p + a) * 100)%Q else 0%Q);
            remaining_classes := r;
            stats_yet_to_go := y;
            classes_needed :=
              (if 0 <? p + a + y then
                 Z.min (Z.max 0 (Py.ceil (minimum_attendance st * inject_Z (p + a + y)
                                          / 100 - inject_Z p)%Q))
                       (r + y)
               else 0);
            total_possible := p + a + y |},
     after (defaultdict_get S) st).
Proof.
  intros p a y r. unfold get_attendance_stats.
  unfold bind at 1. rewrite defaultdict_get_run.
  unfold bind at 1. unfold get at 1.
  unfold bind at 1. unfold get_remaining_classes, bind at 1, get at 1, ret at 1.
  rewrite touch_remaining, touch_initial, touch_minimum.
  fold (seed_of st S). fold (present_of st S). fold (absent_of st S).
  fold p a y r. unfold bind.
  destruct (0 <? p + a) eqn:Hheld.
  - unfold truediv at 1.
    rewrite Qeq_bool_inject_Z_pos by lia. unfold ret at 1 2.
    destruct (0 <? p + a + y); [|reflexivity].
    unfold truediv. change (Qeq_bool 100 0) with false. reflexivity.
  - unfold ret at 1.
    destruct (0 <? p + a + y); [|reflexivity].
    unfold truediv. change (Qeq_bool 100 0) with false. reflexivity.
Qed.

(** [calculate_bunkable_classes], as one step. *)
Lemma calculate_bunkable_classes_run (st : tracker) (today : Z) (S : string) :
  let p := present_of st S in
  let a := absent_of st S in
  let T := inject_Z (p + a + yet_to_go (seed_of st S)) in
  outcome (calculate_bunkable_classes today S) st =
    inr (if p + a =? 0 then 0
         else Z.max 0 (Py.trunc (T - minimum_attendance st / 100 * T - inject_Z a)%Q)).
Proof.
  intros p a T. unfold outcome, calculate_bunkable_classes, bind.
  rewrite get_attendance_stats_full.
  cbn [current_total current_absent total_possible].
  fold p a. destruct (p + a =? 0); [reflexivity|].
  unfold get, truediv. change (Qeq_bool 100 0) with false. unfold ret.
  cbn [fst snd]. rewrite touch_minimum. reflexivity.
Qed.

(** The statistics of a subject are a function of its ledger, its seed,
    its forecast and the threshold. *)
Lemma get_attendance_stats_congr (st st' : tracker) (today today' : Z)
  (S S' : string) :
  records_of st S = records_of st' S' ->
  seed_of st S = seed_of st' S' ->
  remaining_loop st today S = remaining_loop st' today' S' ->
  minimum_attendance st = minimum_attendance st' ->
  outcome (get_attendance_stats today S) st
  = outcome (get_attendance_stats today' S') st' /\
  outcome (calculate_bunkable_classes today S) st
  = outcome (calculate_bunkable_classes today' S') st'.
Proof.
  intros Hr Hs Hrem Hm. split.
  - unfold outcome. rewrite !get_attendance_stats_full. cbv zeta.
    unfold present_of, absent_of. rewrite Hr, Hs, Hrem, Hm. reflexivity.
  - rewrite !calculate_bunkable_classes_run. cbv zeta.
    unfold present_of, absent_of. rewrite Hr, Hs, Hm. reflexivity.
Qed.

(** ** Statistics: ranges *)










(** ** Statistics and the threshold *)









(** ** Statistics and the ledger *)




Lemma remaining_loop_after_mark (st : tracker) (S D s S' : string) (today : Z) :
  remaining_loop (after (mark_attendance S D s) st) today S'
  = remaining_loop st today S'.
Proof. rewrite after_mark_attendance. reflexivity. Qed.

Lemma seed_of_after_mark (st : tracker) (S D s S' : string) :
  seed_of (after (mark_attendance S D s) st) S' = seed_of st S'.
Proof. rewrite after_mark_attendance. reflexivity. Qed.







Lemma minimum_after_mark (st : tracker) (S D s : string) :
  minimum_attendance (after (mark_attendance S D s) st) = minimum_attendance st.
Proof. rewrite after_mark_attendance. reflexivity. Qed.

(** ** Statistics: what leaves them alone *)

(** X7. The statistics and the bunkable count of a subject are not
    changed by marking attendance for another subject, by seeding
    another subject, or by adding or re-adding any subject. *)
Theorem statistics_frame (st : tracker) (today : Z) (S S' D s : string)
  (p a y : Z) (code name : string) (credits : Z) (lab : bool) :
  S' <> S ->
  let same st' :=
    outcome (get_attendance_stats today S) st'
    = outcome (get_attendance_stats today S) st /\
    outcome (calculate_bunkable_classes today S) st'
    = outcome (calculate_bunkable_classes today S) st in
  same (after (mark_attendance S' D s) st) /\
  same (after (set_initial_attendance S' p a y) st) /\
  same (after (add_subject code name credits lab) st).
Proof.
  intros Hne same. unfold same.
  assert (Hmark : forall st', st' = after (mark_attendance S' D s) st ->
            records_of st' S = records_of st S /\ seed_of st' S = seed_of st S /\
            remaining_loop st' today S = remaining_loop st today S /\
            minimum_attendance st' = minimum_attendance st).
  { intros st' ->. split; [|split; [|split]].
    - rewrite after_mark_attendance. unfold records_of. simpl.
      rewrite lookup_insert_ne by exact Hne. reflexivity.
    - apply seed_of_after_mark.
    - apply remaining_loop_after_mark.
    - apply minimum_after_mark. }
  assert (Hseed : forall st',
            st' = with_initial_attendance
                    (<[S' := {| present := p; absent := a; yet_to_go := y |}]>
                       (initial_attendance st)) st ->
            records_of st' S = records_of st S /\ seed_of st' S = seed_of st S /\
            remaining_loop st' today S = remaining_loop st today S /\
            minimum_attendance st' = minimum_attendance st).
  { intros st' ->. split; [reflexivity|]. split; [|split; reflexivity].
    unfold seed_of. simpl. rewrite lookup_insert_ne by exact Hne. reflexivity. }
  assert (Hadd : forall st',
            st' = with_subjects
                    (<[code := {| name := name; credits := credits; is_lab := lab |}]>
                       (subjects st)) st ->
            records_of st' S = records_of st S /\ seed_of st' S = seed_of st S /\
            remaining_loop st' today S = remaining_loop st today S /\
            minimum_attendance st' = minimum_attendance st).
  { intros st' ->. repeat split; reflexivity. }
  split; [|split].
  - destruct (Hmark _ eq_refl) as (H1 & H2 & H3 & H4).
    apply get_attendance_stats_congr; assumption.
  - destruct (Hseed _ eq_refl) as (H1 & H2 & H3 & H4).
    apply get_attendance_stats_congr; assumption.
  - destruct (Hadd _ eq_refl) as (H1 & H2 & H3 & H4).
    apply get_attendance_stats_congr; assumption.
Qed.

Lemma statistics_frame_witness :
  outcome (get_attendance_stats 739500 "CS101")
    (after (mark_attendance "MA101" "2025-09-08" "absent") cs101)
  = outcome (get_attendance_stats 739500 "CS101") cs101.
Proof.
  assert (Hne : "MA101" <> "CS101") by discriminate.
  destruct (statistics_frame cs101 739500 "CS101" "MA101" "2025-09-08" "absent"
              0 0 0 "MA101" "Calculus" 4 false Hne) as [[H _] _].
  exact H.
Defined.

Lemma delete_subject_fields (st : tracker) (S : string) :
  is_Some (subjects st !! S) ->
  let st' := after (delete_subject S) st in
  subjects st' = delete S (subjects st) /\
  attendance_records st' = delete S (attendance_records st) /\
  initial_attendance st' = delete S (initial_attendance st) /\
  timetable st' = without_subject S <$> timetable st /\
  holidays st' = holidays st /\
  minimum_attendance st' = minimum_attendance st /\
  semester_end_date st' = semester_end_date st /\
  absence_reasons st' = absence_reasons st.
Proof.
  intros Hin. unfold after, delete_subject, bind, get.
  destruct (decide (is_Some (subjects st !! S))) as [_|Hn]; [|contradiction].
  unfold modify, save_data, ret. simpl.
  destruct (decide (is_Some (attendance_records st !! S))) as [Ha|Ha]; simpl;
    destruct (decide (is_Some (initial_attendance st !! S))) as [Hi|Hi]; simpl;
    repeat split;
    first [ reflexivity
          | symmetry; apply delete_id, eq_None_not_Some; assumption ].
Qed.

Lemma delete_subject_unknown (st : tracker) (S : string) :
  subjects st !! S = None -> delete_subject S st = (inr tt, st).
Proof.
  intros Hn. unfold delete_subject, bind, get.
  destruct (decide (is_Some (subjects st !! S))) as [[x Hx]|_]; [congruence|].
  reflexivity.
Qed.

Lemma filter_filter_other (S S' : string) (classes : list entry) :
  S' <> S ->
  List.filter (fun e => String.eqb e.2 S) (without_subject S' classes)
  = List.filter (fun e => String.eqb e.2 S) classes.
Proof.
  intros Hne. unfold without_subject.
  induction classes as [|e l IH]; simpl; [reflexivity|].
  destruct (String.eqb_spec e.2 S') as [E|E]; simpl.
  - destruct (String.eqb_spec e.2 S) as [E'|E']; [congruence|exact IH].
  - destruct (String.eqb e.2 S); [f_equal|]; exact IH.
Qed.

Lemma foldl_ext_all {A B} (f g : A -> B -> A) (l : list B) (a : A) :
  (forall x y, f x y = g x y) -> foldl f a l = foldl g a l.
Proof.
  intros H. revert a. induction l as [|y l IH]; intros a; simpl; [reflexivity|].
  rewrite H. apply IH.
Qed.

Lemma remaining_loop_ext (st st' : tracker) (today : Z) (S : string) :
  semester_end_date st' = semester_end_date st ->
  (forall acc d, remaining_step st' S acc d = remaining_step st S acc d) ->
  remaining_loop st' today S = remaining_loop st today S.
Proof.
  intros He Hs. unfold remaining_loop. rewrite He. apply foldl_ext_all, Hs.
Qed.

(** X8. Deleting a subject does not change the statistics or the
    bunkable count of any other subject. *)
Theorem delete_subject_frame (st : tracker) (today : Z) (S S' : string) :
  S' <> S ->
  outcome (get_attendance_stats today S) (after (delete_subject S') st)
  = outcome (get_attendance_stats today S) st /\
  outcome (calculate_bunkable_classes today S) (after (delete_subject S') st)
  = outcome (calculate_bunkable_classes today S) st.
Proof.
  intros Hne. destruct (subjects st !! S') as [info|] eqn:Hin.
  - destruct (delete_subject_fields st S' (mk_is_Some _ _ Hin))
      as (_ & Hrec & Hini & Htt & Hhol & Hmin & Hend & _).
    apply get_attendance_stats_congr.
    + unfold records_of. rewrite Hrec, lookup_delete_ne by exact Hne. reflexivity.
    + unfold seed_of. rewrite Hini, lookup_delete_ne by exact Hne. reflexivity.
    + apply remaining_loop_ext; [exact Hend|].
      intros acc d. unfold remaining_step. rewrite Htt, Hhol, lookup_fmap.
      destruct (timetable st !! Calendar.day_name d) as [classes|]; simpl;
        [|reflexivity].
      rewrite filter_filter_other by exact Hne. reflexivity.
    + exact Hmin.
  - unfold after. rewrite delete_subject_unknown by exact Hin.
    split; reflexivity.
Qed.

Lemma delete_subject_frame_witness :
  outcome (get_attendance_stats 739500 "PHYLAB")
    (after (delete_subject "MATH") lab_monday)
  = outcome (get_attendance_stats 739500 "PHYLAB") lab_monday.
Proof.
  assert (Hne : "MATH" <> "PHYLAB") by discriminate.
  destruct (delete_subject_frame lab_monday 739500 "PHYLAB" "MATH" Hne) as [H _].
  exact H.
Defined.

(** ** The forecast of remaining classes *)

Lemma remaining_step_split (st : tracker) (S : string) (acc d : Z) :
  remaining_step st S acc d = acc + remaining_step st S 0 d.
Proof.
  unfold remaining_step.
  destruct (timetable st !! Calendar.day_name d); [|lia].
  destruct (decide _); lia.
Qed.

Lemma foldl_remaining_le (st st' : tracker) (S : string) (ds : list Z) (acc acc' : Z) :
  (forall d, d ∈ ds -> remaining_step st' S 0 d <= remaining_step st S 0 d) ->
  acc' <= acc ->
  foldl (remaining_step st' S) acc' ds <= foldl (remaining_step st S) acc ds.
Proof.
  revert acc acc'. induction ds as [|d ds IH]; intros acc acc' Hstep Hacc; simpl;
    [exact Hacc|].
  apply IH.
  - intros x Hx. apply Hstep. right. exact Hx.
  - rewrite (remaining_step_split st' S acc' d), (remaining_step_split st S acc d).
    pose proof (Hstep d ltac:(left)). lia.
Qed.

Lemma foldl_remaining_zero (st : tracker) (S : string) (ds : list Z) :
  (forall d, d ∈ ds -> remaining_step st S 0 d = 0) ->
  foldl (remaining_step st S) 0 ds = 0.
Proof.
  induction ds as [|d ds IH]; intros Hz; simpl; [reflexivity|].
  rewrite (Hz d) by left. apply IH. intros x Hx. apply Hz. right. exact Hx.
Qed.

Lemma foldl_ext_in {A B} (f g : A -> B -> A) (l : list B) (a : A) :
  (forall x y, y ∈ l -> f x y = g x y) -> foldl f a l = foldl g a l.
Proof.
  revert a. induction l as [|y l IH]; intros a H; simpl; [reflexivity|].
  rewrite H by left. apply IH. intros x z Hz. apply H. right. exact Hz.
Qed.

Lemma filter_none {A} (f : A -> bool) (l : list A) :
  (forall x, x ∈ l -> f x = false) -> List.filter f l = [].
Proof.
  induction l as [|x l IH]; intros H; simpl; [reflexivity|].
  rewrite (H x) by left. apply IH. intros y Hy. apply H. right. exact Hy.
Qed.

(** X9. The forecast is 0 when today is past the semester end, and 0
    for a subject that no day of the timetable lists. *)
Theorem remaining_classes_zero (st : tracker) (today : Z) (S : string) :
  (semester_end_date st < today ->
   outcome (get_remaining_classes today S) st = inr 0) /\
  ((forall day classes e,
      timetable st !! day = Some classes -> e ∈ classes -> e.2 <> S) ->
   outcome (get_remaining_classes today S) st = inr 0).
Proof.
  split.
  - intros Hlate. rewrite get_remaining_classes_run. f_equal.
    unfold remaining_loop. rewrite seqZ_nil by lia. reflexivity.
  - intros Hnone. rewrite get_remaining_classes_run. f_equal.
    apply foldl_remaining_zero. intros d _. unfold remaining_step.
    destruct (timetable st !! Calendar.day_name d) as [classes|] eqn:E;
      [|reflexivity].
    destruct (decide _); [reflexivity|].
    rewrite filter_none; [reflexivity|].
    intros e He. apply String.eqb_neq. exact (Hnone _ _ e E He).
Qed.

Lemma remaining_classes_zero_witness :
  outcome (get_remaining_classes 739600 "CS101") cs101 = inr 0 /\
  outcome (get_remaining_classes 739500 "CS101") cs101 = inr 0.
Proof.
  split.
  - destruct (remaining_classes_zero cs101 739600 "CS101") as [H _].
    apply H. reflexivity.
  - destruct (remaining_classes_zero cs101 739500 "CS101") as [_ H].
    apply H. intros day classes e Hd. vm_compute in Hd. discriminate.
Defined.

(** More holidays, fewer classes. *)
Lemma remaining_loop_holidays_mono (st : tracker) (h : gset string) (today : Z)
  (S : string) :
  holidays st ⊆ h ->
  remaining_loop (with_holidays h st) today S <= remaining_loop st today S.
Proof.
  intros Hsub. unfold remaining_loop. apply foldl_remaining_le; [|lia].
  intros d _. unfold remaining_step. simpl.
  destruct (timetable st !! Calendar.day_name d) as [classes|]; [|lia].
  destruct (decide (Calendar.date_str d ∈ h)) as [Hin|Hout];
    destruct (decide (Calendar.date_str d ∈ holidays st)) as [Hin'|Hout'];
    try lia.
  exfalso. apply Hout, Hsub, Hin'.
Qed.

(** X10. Adding a holiday never raises the forecast of any subject, and
    on a date that already is a holiday it changes nothing. *)
Theorem add_holiday_forecast (st : tracker) (today : Z) (S date_str : string) :
  exists r r',
    outcome (get_remaining_classes today S) st = inr r /\
    outcome (get_remaining_classes today S) (after (add_holiday date_str) st)
    = inr r' /\
    r' <= r /\
    (date_str ∈ holidays st -> after (add_holiday date_str) st = st).
Proof.
  do 2 eexists. rewrite !get_remaining_classes_run.
  do 2 (split; [reflexivity|]). split.
  - apply (remaining_loop_holidays_mono st _ today S). set_solver.
  - intros Hin. unfold after, add_holiday, bind, modify, save_data, ret. simpl.
    assert (E : {[date_str]} ∪ holidays st = holidays st).
    { apply subseteq_union_1_L, singleton_subseteq_l, Hin. }
    rewrite E. destruct st; reflexivity.
Qed.

Lemma add_holiday_forecast_witness :
  after (add_holiday "2025-10-02")
    (after (add_holiday "2025-10-02") lab_monday)
  = after (add_holiday "2025-10-02") lab_monday.
Proof.
  destruct (add_holiday_forecast (after (add_holiday "2025-10-02") lab_monday)
              739500 "PHYLAB" "2025-10-02") as (r & r' & _ & _ & _ & H).
  apply H. vm_compute. set_solver.
Defined.


(** ** Weekends at startup *)

Lemma weekday_range (d : Z) : 0 <= Calendar.weekday d < 7.
Proof. unfold Calendar.weekday. apply Z.mod_pos_bound. lia. Qed.

(** Weekday 5 or 6 is what [strftime('%A')] calls Saturday or Sunday. *)
Lemma weekend_day_name (d : Z) :
  5 <= Calendar.weekday d <->
  Calendar.day_name d = "Saturday" \/ Calendar.day_name d = "Sunday".
Proof.
  pose proof (weekday_range d) as Hr. unfold Calendar.day_name.
  assert (C : Calendar.weekday d = 0 \/ Calendar.weekday d = 1 \/
              Calendar.weekday d = 2 \/ Calendar.weekday d = 3 \/
              Calendar.weekday d = 4 \/ Calendar.weekday d = 5 \/
              Calendar.weekday d = 6) by lia.
  destruct C as [E|[E|[E|[E|[E|[E|E]]]]]]; rewrite E; split;
    first [ lia | intros [H|H]; discriminate | intros _; left; reflexivity
          | intros _; right; reflexivity ].
Qed.

Lemma foldl_weekends_spec (ds : list Z) (h : gset string) (x : string) :
  x ∈ foldl weekends_step h ds <->
  x ∈ h \/ exists d, d ∈ ds /\ 5 <= Calendar.weekday d /\ x = Calendar.date_str d.
Proof.
  revert h. induction ds as [|d ds IH]; intros h; simpl.
  - split; [auto|]. intros [H|(d & Hd & _)]; [exact H|inversion Hd].
  - rewrite IH. unfold weekends_step. destruct (5 <=? Calendar.weekday d) eqn:E.
    + apply Z.leb_le in E. rewrite elem_of_union, elem_of_singleton. split.
      * intros [[->|H]|(d' & Hd' & Hw & ->)].
        -- right. exists d. split; [left|]. split; [exact E|reflexivity].
        -- left. exact H.
        -- right. exists d'. split; [right; exact Hd'|]. split; [exact Hw|reflexivity].
      * intros [H|(d' & Hd' & Hw & ->)]; [left; right; exact H|].
        apply elem_of_cons in Hd' as [->|Hd'].
        -- left. left. reflexivity.
        -- right. exists d'. split; [exact Hd'|]. split; [exact Hw|reflexivity].
    + apply Z.leb_gt in E. split.
      * intros [H|(d' & Hd' & Hw & ->)]; [left; exact H|].
        right. exists d'. split; [right; exact Hd'|]. split; [exact Hw|reflexivity].
      * intros [H|(d' & Hd' & Hw & ->)]; [left; exact H|].
        apply elem_of_cons in Hd' as [->|Hd']; [lia|].
        right. exists d'. split; [exact Hd'|]. split; [exact Hw|reflexivity].
Qed.

Lemma after_mark_weekends (st : tracker) (today : Z) :
  after (mark_weekends_as_holidays today) st
  = with_holidays
      (foldl weekends_step (holidays st)
         (seqZ today (semester_end_date st - today + 1))) st.
Proof. reflexivity. Qed.

Lemma holidays_after_mark_weekends (st : tracker) (today : Z) (x : string) :
  x ∈ holidays (after (mark_weekends_as_holidays today) st) <->
  x ∈ holidays st \/
  exists d, today <= d <= semester_end_date st /\
            (Calendar.day_name d = "Saturday" \/ Calendar.day_name d = "Sunday") /\
            x = Calendar.date_str d.
Proof.
  rewrite after_mark_weekends. simpl. rewrite foldl_weekends_spec. split.
  - intros [H|(d & Hd & Hw & ->)]; [left; exact H|]. right. exists d.
    apply elem_of_seqZ in Hd. split; [lia|]. split; [|reflexivity].
    apply weekend_day_name. exact Hw.
  - intros [H|(d & Hd & Hw & ->)]; [left; exact H|]. right. exists d.
    split; [apply elem_of_seqZ; lia|]. split; [|reflexivity].
    apply weekend_day_name. exact Hw.
Qed.

(** X11. [mark_weekends_as_holidays] returns, changes nothing but the
    holidays, and leaves as holidays exactly the earlier ones and the dates
    of the Saturdays and Sundays from today to the semester end. *)
Theorem mark_weekends_holidays (st : tracker) (today : Z) :
  let st' := after (mark_weekends_as_holidays today) st in
  outcome (mark_weekends_as_holidays today) st = inr tt /\
  st' = with_holidays (holidays st') st /\
  forall x,
    x ∈ holidays st' <->
    x ∈ holidays st \/
    exists d, today <= d <= semester_end_date st /\
              (Calendar.day_name d = "Saturday" \/ Calendar.day_name d = "Sunday") /\
              x = Calendar.date_str d.
Proof.
  intros st'. split; [reflexivity|]. split; [reflexivity|].
  intros x. apply holidays_after_mark_weekends.
Qed.

Lemma mark_weekends_holidays_witness :
  "2025-09-06" ∈ holidays (after (mark_weekends_as_holidays 739500) empty_tracker).
Proof.
  destruct (mark_weekends_holidays empty_tracker 739500) as (_ & _ & H).
  apply H. right. exists 739500. split; [split; [lia|]|split].
  - apply Z.leb_le. reflexivity.
  - left. reflexivity.
  - reflexivity.
Defined.

(** X12. Once the weekends from [today0] on are holidays, the Saturday
    and Sunday lists of the timetable never count: from any later day, the
    forecast of every subject is the same as with those two lists removed. *)
Theorem weekend_classes_never_count (st : tracker) (today0 today : Z) (S : string) :
  today0 <= today ->
  let st' := after (mark_weekends_as_holidays today0) st in
  outcome (get_remaining_classes today S) st'
  = outcome (get_remaining_classes today S)
      (with_timetable (delete "Saturday" (delete "Sunday" (timetable st'))) st').
Proof.
  intros Hle st'. rewrite !get_remaining_classes_run. f_equal.
  unfold remaining_loop. cbn [semester_end_date with_timetable].
  apply foldl_ext_in. intros acc d Hd. apply elem_of_seqZ in Hd.
  unfold remaining_step. cbn [timetable holidays with_timetable].
  destruct (Z.le_gt_cases 5 (Calendar.weekday d)) as [Hw|Hw].
  - assert (Hhol : Calendar.date_str d ∈ holidays st').
    { apply (holidays_after_mark_weekends st today0). right. exists d.
      split; [|split; [apply weekend_day_name, Hw|reflexivity]].
      change (semester_end_date st') with (semester_end_date st) in Hd. lia. }
    destruct (timetable st' !! Calendar.day_name d);
      destruct (delete "Saturday" (delete "Sunday" (timetable st'))
                !! Calendar.day_name d);
      try reflexivity; destruct (decide _); try reflexivity; contradiction.
  - assert (Hname : Calendar.day_name d <> "Saturday" /\ Calendar.day_name d <> "Sunday").
    { assert (Hnot : ~ 5 <= Calendar.weekday d) by lia.
      rewrite weekend_day_name in Hnot. split; intros E; apply Hnot; auto. }
    destruct Hname as [Hsat Hsun].
    rewrite !lookup_delete_ne by congruence. reflexivity.
Qed.

Lemma weekend_classes_never_count_witness :
  outcome (get_remaining_classes 739500 "ART")
    (after (mark_weekends_as_holidays 739500) saturday_class) = inr 0.
Proof.
  rewrite (weekend_classes_never_count saturday_class 739500 739500 "ART");
    [|lia].
  vm_compute. reflexivity.
Defined.

(** ** The weekly schedule *)

Lemma schedule_fold_sound (st : tracker) (s0 : Z) (l : list Z)
  (acc : gmap string (string * list entry)) (k : string) (v : string * list entry) :
  (foldl (schedule_step st s0) acc l) !! k = Some v ->
  acc !! k = Some v \/
  exists i, i ∈ l /\ k = Calendar.date_str (s0 + i) /\ (k ∉ holidays st) /\
            v.1 = Calendar.day_name (s0 + i) /\ timetable st !! v.1 = Some v.2.
Proof.
  revert acc. induction l as [|i l IH]; intros acc H; simpl in H; [left; exact H|].
  destruct (IH _ H) as [Hacc|(j & Hj & Hrest)].
  - unfold schedule_step in Hacc.
    destruct (timetable st !! Calendar.day_name (s0 + i)) as [classes|] eqn:E;
      [|left; exact Hacc].
    destruct (decide (Calendar.date_str (s0 + i) ∈ holidays st)) as [Hh|Hh];
      [left; exact Hacc|].
    apply lookup_insert_Some in Hacc as [[<- <-]|[_ Hacc]]; [|left; exact Hacc].
    right. exists i. split; [left|]. split; [reflexivity|]. split; [exact Hh|].
    split; [reflexivity|exact E].
  - right. exists j. split; [right; exact Hj|exact Hrest].
Qed.

Lemma schedule_fold_keeps (st : tracker) (s0 : Z) (l : list Z)
  (acc : gmap string (string * list entry)) (k : string) :
  is_Some (acc !! k) -> is_Some ((foldl (schedule_step st s0) acc l) !! k).
Proof.
  revert acc. induction l as [|i l IH]; intros acc H; simpl; [exact H|].
  apply IH. unfold schedule_step.
  destruct (timetable st !! Calendar.day_name (s0 + i)); [|exact H].
  destruct (decide _); [exact H|].
  apply lookup_insert_is_Some. destruct (decide (Calendar.date_str (s0 + i) = k));
    [left; assumption|right; split; assumption].
Qed.

Lemma schedule_fold_complete (st : tracker) (s0 : Z) (l : list Z)
  (acc : gmap string (string * list entry)) (i : Z) (classes : list entry) :
  i ∈ l ->
  timetable st !! Calendar.day_name (s0 + i) = Some classes ->
  Calendar.date_str (s0 + i) ∉ holidays st ->
  is_Some ((foldl (schedule_step st s0) acc l) !! Calendar.date_str (s0 + i)).
Proof.
  revert acc. induction l as [|j l IH]; intros acc Hi Hday Hhol; [inversion Hi|].
  simpl. apply elem_of_cons in Hi as [->|Hi]; [|apply IH; assumption].
  apply schedule_fold_keeps. unfold schedule_step. rewrite Hday.
  destruct (decide _); [contradiction|].
  rewrite lookup_insert_eq. eexists. reflexivity.
Qed.

Lemma schedule_fold_size (st : tracker) (s0 : Z) (l : list Z)
  (acc : gmap string (string * list entry)) :
  (size (foldl (schedule_step st s0) acc l) <= size acc + length l)%nat.
Proof.
  revert acc. induction l as [|i l IH]; intros acc; simpl; [lia|].
  etransitivity; [apply IH|].
  assert (size (schedule_step st s0 acc i) <= S (size acc))%nat; [|lia].
  unfold schedule_step.
  destruct (timetable st !! Calendar.day_name (s0 + i)); [|lia].
  destruct (decide _); [lia|].
  rewrite map_size_insert.
  destruct (acc !! Calendar.date_str (s0 + i)); unfold id; lia.
Qed.

(** X13. [get_weekly_schedule] returns a schedule of at most seven
    dates, none of them a holiday; each is one of the seven days from the
    start (today when no start is given) and carries that day's weekday
    name and timetable list; and every such day with a timetable list and
    no holiday is in it. *)
Theorem weekly_schedule_spec (st : tracker) (today : Z) (start_date : option Z) :
  let s0 := default today start_date in
  exists schedule,
    outcome (get_weekly_schedule today start_date) st = inr schedule /\
    (size schedule <= 7)%nat /\
    (forall k v,
       schedule !! k = Some v ->
       (k ∉ holidays st) /\
       exists i, 0 <= i < 7 /\ k = Calendar.date_str (s0 + i) /\
                 v.1 = Calendar.day_name (s0 + i) /\
                 timetable st !! v.1 = Some v.2) /\
    (forall i classes,
       0 <= i < 7 ->
       timetable st !! Calendar.day_name (s0 + i) = Some classes ->
       Calendar.date_str (s0 + i) ∉ holidays st ->
       is_Some (schedule !! Calendar.date_str (s0 + i))).
Proof.
  intros s0. eexists. split; [reflexivity|]. split; [|split].
  - etransitivity; [apply schedule_fold_size|]. rewrite map_size_empty. reflexivity.
  - intros k v H. apply schedule_fold_sound in H as [H|(i & Hi & -> & Hh & Hv & Ht)].
    + rewrite lookup_empty in H. discriminate.
    + split; [exact Hh|]. exists i. apply elem_of_seqZ in Hi.
      split; [lia|]. split; [reflexivity|]. split; assumption.
  - intros i classes Hi Hday Hhol.
    apply (schedule_fold_complete st s0 _ _ i classes); [|assumption|assumption].
    apply elem_of_seqZ. lia.
Qed.

Lemma weekly_schedule_spec_witness :
  exists schedule,
    outcome (get_weekly_schedule 739500 None) lab_monday = inr schedule /\
    is_Some (schedule !! "2025-09-08").
Proof.
  destruct (weekly_schedule_spec lab_monday 739500 None)
    as (schedule & Hs & _ & _ & Hin).
  exists schedule. split; [exact Hs|].
  apply (Hin 2 [(period_label 1, "PHYLAB"); (period_label 2, "PHYLAB")]).
  - lia.
  - reflexivity.
  - assert (E : holidays lab_monday = ∅) by reflexivity.
    rewrite E. apply not_elem_of_empty.
Defined.

(** ** Timetable: conflicts and the order of a day *)

(** X14. For a label of the form and a day of labelled slots,
    [add_timetable_entry] raises the conflict error exactly when the
    subject is a lab and the period is the last one or the next period is
    taken; it never raises anything else; and a raising call on a day that
    already has a list leaves the tracker as it was. *)
Theorem add_conflict_exactly (st : tracker) (day S : string) (n : Z) :
  1 <= n <= 7 ->
  Forall is_period_label (default [] (timetable st !! day)).*1 ->
  let conflict_error :=
    ValueError "Cannot add lab subject here - requires two consecutive periods" in
  (outcome (add_timetable_entry day (period_label n) S) st = inl conflict_error <->
   lab_flag st S = true /\
   (n = 7 \/ exists S', (period_label (n + 1), S') ∈ default [] (timetable st !! day))) /\
  (outcome (add_timetable_entry day (period_label n) S) st = inr tt \/
   outcome (add_timetable_entry day (period_label n) S) st = inl conflict_error) /\
  (is_Some (timetable st !! day) ->
   outcome (add_timetable_entry day (period_label n) S) st = inl conflict_error ->
   after (add_timetable_entry day (period_label n) S) st = st).
Proof.
  intros Hn Hwf conflict_error.
  pose proof (occupied_iff (n + 1) _ ltac:(lia) Hwf) as Hocc.
  destruct (add_timetable_entry_conflict st day S n Hn) as [Hyes Hno].
  cbv zeta in Hyes, Hno.
  set (taken := existsb (fun e => in_period (n + 1) e.1)
                  (default [] (timetable st !! day))) in *.
  destruct (lab_flag st S) eqn:Hlab.
  - destruct (Z.eq_dec n 7) as [E7|E7].
    + destruct Hyes as [Ho Ha]; [split; [reflexivity|left; exact E7]|].
      split; [|split].
      * split; [intros _; split; [reflexivity|left; exact E7]|intros _; exact Ho].
      * right. exact Ho.
      * intros Hday _. rewrite Ha. unfold day_created.
        destruct (decide _); [reflexivity|contradiction].
    + destruct taken eqn:Et.
      * destruct Hyes as [Ho Ha]; [split; [reflexivity|right; reflexivity]|].
        split; [|split].
        -- split; [|intros _; exact Ho]. intros _. split; [reflexivity|].
           right. apply Hocc. reflexivity.
        -- right. exact Ho.
        -- intros Hday _. rewrite Ha. unfold day_created.
           destruct (decide _); [reflexivity|contradiction].
      * destruct Hno as [Ho Ha].
        { intros [_ [H|H]]; [contradiction|discriminate]. }
        split; [|split].
        -- rewrite Ho. split; [discriminate|].
           intros [_ [H|H]]; [contradiction|].
           apply Hocc in H. congruence.
        -- left. exact Ho.
        -- intros _ H. rewrite Ho in H. discriminate.
  - destruct Hno as [Ho Ha]; [intros [H _]; discriminate|].
    split; [|split].
    + rewrite Ho. split; [discriminate|]. intros [H _]. discriminate.
    + left. exact Ho.
    + intros _ H. rewrite Ho in H. discriminate.
Qed.

Lemma add_conflict_exactly_witness :
  outcome (add_timetable_entry "Monday" (period_label 1) "PHYLAB") lab_monday
  = inl (ValueError "Cannot add lab subject here - requires two consecutive periods").
Proof.
  destruct (add_conflict_exactly lab_monday "Monday" "PHYLAB" 1) as [[_ H] _].
  - lia.
  - repeat constructor; [exists 1|exists 2]; (split; [lia|reflexivity]).
  - apply H. split; [reflexivity|]. right. exists "PHYLAB". right. left.
Defined.

Lemma period_lt_trans (x y z : entry) : period_lt x y -> period_lt y z -> period_lt x z.
Proof.
  intros (a & b & Ha & Hb & Ex & Ey & Hab) (b' & c & Hb' & Hc & Ey' & Ez & Hbc).
  assert (b = b') by (apply period_label_inj; [lia|lia|congruence]). subst b'.
  exists a, c. repeat split; try assumption; lia.
Qed.

Lemma period_lt_asym (x y : entry) : period_lt x y -> period_lt y x -> False.
Proof.
  intros (a & b & Ha & Hb & Ex & Ey & Hab) (b' & a' & Hb' & Ha' & Ey' & Ex' & Hba).
  assert (b = b') by (apply period_label_inj; [lia|lia|congruence]).
  assert (a = a') by (apply period_label_inj; [lia|lia|congruence]). lia.
Qed.

(** On a day of labelled, distinct slots, tuple order is period order. *)
Lemma sorted_by_period (l : list entry) :
  slots_distinct l -> Sorted (fun a b => Py.tuple_leb a b = true) l -> day_sorted l.
Proof.
  intros Hd Hs. apply Sorted_StronglySorted.
  { intros x y z. apply period_lt_trans. }
  induction l as [|x l IH]; [constructor|].
  destruct Hd as [Hwf Hnd]. simpl in Hwf, Hnd.
  apply Forall_cons in Hwf as [Hx Hwf]. apply NoDup_cons in Hnd as [Hnotin Hnd].
  inversion Hs as [|? ? Hs' Hhd]; subst. constructor.
  - apply IH; [split; assumption|exact Hs'].
  - destruct l as [|y l]; constructor.
    inversion Hhd as [|? ? Hleb]; subst.
    simpl in Hwf. apply Forall_cons in Hwf as [Hy _].
    destruct Hx as (a & Ha & Ex). destruct Hy as (b & Hb & Ey).
    exists a, b. repeat split; try assumption; try lia.
    destruct (Z.lt_trichotomy a b) as [Hlt|[Heq|Hgt]]; [exact Hlt| |].
    + exfalso. apply Hnotin. simpl. rewrite Ex, Ey, Heq. left.
    + exfalso. destruct x as [tx sx], y as [ty sy]. simpl in Ex, Ey. subst tx ty.
      destruct (tuple_leb_label b a sy sx) as [_ Hf]; [lia|lia|exact Hgt|].
      congruence.
Qed.

Lemma added_elem (lab : bool) (n : Z) (slot S : string) (classes : list entry)
  (e : entry) :
  e ∈ added lab n slot S classes <->
  (e ∈ classes /\ in_period n e.1 = false /\
   (lab = true -> in_period (n + 1) e.1 = false)) \/
  e = (slot, S) \/ (lab = true /\ e = (period_label (n + 1), S)).
Proof.
  unfold added. destruct lab; rewrite sort_perm.
  - rewrite !elem_of_app, !list_elem_of_singleton, !elem_of_filter_bool,
      !negb_true_iff. intuition congruence.
  - rewrite !elem_of_app, !list_elem_of_singleton, !elem_of_filter_bool,
      !negb_true_iff. intuition congruence.
Qed.

(** What a returning [add_timetable_entry] on a label of the form did. *)
Lemma add_returned (st : tracker) (day S : string) (n : Z) :
  1 <= n <= 7 ->
  outcome (add_timetable_entry day (period_label n) S) st = inr tt ->
  after (add_timetable_entry day (period_label n) S) st
  = with_timetable
      (<[day := added (lab_flag st S) n (period_label n) S
                  (default [] (timetable st !! day))]> (timetable st)) st /\
  (lab_flag st S = true ->
   n < 7 /\
   existsb (fun e => in_period (n + 1) e.1) (default [] (timetable st !! day)) = false).
Proof.
  intros Hn. unfold outcome, after.
  rewrite add_timetable_entry_run, period_num_of_label by exact Hn. cbv zeta.
  destruct (lab_flag st S); simpl andb.
  - destruct (7 <=? n) eqn:H7; simpl orb; [discriminate|].
    destruct (existsb _ _); [discriminate|]. intros _.
    split; [reflexivity|]. intros _. split; [lia|reflexivity].
  - intros _. split; [reflexivity|discriminate].
Qed.

Lemma in_period_false_label (n : Z) (e : entry) :
  1 <= n <= 8 -> is_period_label e.1 ->
  in_period n e.1 = false <-> e.1 <> period_label n.
Proof.
  intros Hn (m & Hm & ->). rewrite in_period_label by lia. rewrite Z.eqb_neq.
  split.
  - intros Hne E. apply Hne. apply period_label_inj in E; lia.
  - intros Hne E. apply Hne. congruence.
Qed.

(** X15. A returning [add_timetable_entry] on a label of the form, on a
    timetable with one entry per slot, leaves the day with: the entries it
    had outside the target period, the new entry, and for a lab the entry
    of the next period; one entry per slot, in increasing order of period;
    and leaves every other day as it was. *)
Theorem add_result (st : tracker) (day S : string) (n : Z) :
  slots_ok st -> 1 <= n <= 7 ->
  outcome (add_timetable_entry day (period_label n) S) st = inr tt ->
  let st' := after (add_timetable_entry day (period_label n) S) st in
  exists classes',
    timetable st' !! day = Some classes' /\
    slots_distinct classes' /\ day_sorted classes' /\
    (forall e,
       e ∈ classes' <->
       (e ∈ default [] (timetable st !! day) /\ e.1 <> period_label n) \/
       e = (period_label n, S) \/
       (lab_flag st S = true /\ e = (period_label (n + 1), S))) /\
    (forall d, d <> day -> timetable st' !! d = timetable st !! d).
Proof.
  intros Hok Hn Hout st'.
  destruct (add_returned st day S n Hn Hout) as [Hafter Hlab].
  pose proof (slots_ok_classes st day Hok) as Hd.
  set (classes := default [] (timetable st !! day)) in *.
  exists (added (lab_flag st S) n (period_label n) S classes).
  assert (Hdist : slots_distinct (added (lab_flag st S) n (period_label n) S classes))
    by (apply added_slots_distinct; assumption).
  unfold st'. rewrite Hafter. cbn [timetable with_timetable].
  split; [apply lookup_insert_eq|]. split; [exact Hdist|]. split; [|split].
  - apply sorted_by_period; [exact Hdist|].
    unfold added. destruct (lab_flag st S); apply sort_sorted.
  - intros e. rewrite added_elem. split.
    + intros [(He & Hp & _)|[->|[Hl ->]]]; [left|right; left|right; right].
      * split; [exact He|]. apply (in_period_false_label n); [lia| |exact Hp].
        apply (proj1 (Forall_forall _ _) (proj1 Hd)), list_elem_of_fmap_2, He.
      * reflexivity.
      * split; [exact Hl|reflexivity].
    + intros [[He Hne]|[->|[Hl ->]]]; [left|right; left|right; right].
      * assert (Hlabel : is_period_label e.1)
          by (apply (proj1 (Forall_forall _ _) (proj1 Hd)), list_elem_of_fmap_2, He).
        split; [exact He|]. split.
        -- apply in_period_false_label; [lia|exact Hlabel|exact Hne].
        -- intros Hl. destruct (Hlab Hl) as [_ Hfree].
           exact (existsb_false_elem _ _ e Hfree He).
      * reflexivity.
      * split; [exact Hl|reflexivity].
  - intros d Hne. apply lookup_insert_ne. congruence.
Qed.

Lemma add_result_witness :
  exists classes',
    timetable (after (add_timetable_entry "Monday" (period_label 4) "MATH")
                 lab_monday) !! "Monday" = Some classes' /\
    day_sorted classes'.
Proof.
  destruct (add_result lab_monday "Monday" "MATH" 4)
    as (classes' & Hl & _ & Hs & _).
  - intros day classes H. apply (lab_monday_invariant day classes H).
  - lia.
  - reflexivity.
  - exists classes'. split; [exact Hl|exact Hs].
Defined.

(** ** Timetable: what a deletion removes *)

Lemma contains_paren_label (n : Z) :
  1 <= n <= 7 -> Py.contains " (" (period_label n) = true.
Proof. intros Hn. period_cases n; first [reflexivity|lia]. Qed.

(** [delete_timetable_entry] at an entry of a day of labelled, distinct
    slots. *)
Lemma delete_at (st : tracker) (day S : string) (n : Z) (before rest : list entry) :
  1 <= n <= 7 ->
  timetable st !! day = Some (before ++ (period_label n, S) :: rest) ->
  slots_distinct (before ++ (period_label n, S) :: rest) ->
  delete_timetable_entry day (period_label n) S st
  = (inr tt,
     with_timetable
       (match deleted_at S before rest with
        | [] => delete day (timetable st)
        | l => <[day := l]> (timetable st)
        end) st).
Proof.
  intros Hn Hday Hd. rewrite delete_timetable_entry_run, Hday. cbv zeta.
  rewrite contains_paren_label, period_num_of_label by exact Hn.
  rewrite delete_loop_at by assumption. reflexivity.
Qed.

Lemma timetable_after_delete (st : tracker) (day : string) (l : list entry)
  (d : string) :
  timetable
    (with_timetable
       (match l with
        | [] => delete day (timetable st)
        | x :: xs => <[day := x :: xs]> (timetable st)
        end) st) !! d
  = if decide (d = day)
    then match l with [] => None | _ => Some l end
    else timetable st !! d.
Proof.
  cbn [timetable with_timetable]. destruct (decide (d = day)) as [->|Hne].
  - destruct l; [apply lookup_delete_eq|apply lookup_insert_eq].
  - destruct l; [apply lookup_delete_ne|apply lookup_insert_ne]; congruence.
Qed.

(** X16. On a day of labelled, distinct slots, [delete_timetable_entry]
    at an entry of the day returns, removes that entry, removes with it the
    next entry of the list exactly when that one carries the same subject,
    removes the day if nothing is left, and leaves the other days alone. *)
Theorem delete_entry_effect (st : tracker) (day S : string) (n : Z)
  (before rest : list entry) :
  1 <= n <= 7 ->
  timetable st !! day = Some (before ++ (period_label n, S) :: rest) ->
  slots_distinct (before ++ (period_label n, S) :: rest) ->
  let st' := after (delete_timetable_entry day (period_label n) S) st in
  let left_over := deleted_at S before rest in
  outcome (delete_timetable_entry day (period_label n) S) st = inr tt /\
  timetable st' !! day = match left_over with [] => None | _ => Some left_over end /\
  (forall d, d <> day -> timetable st' !! d = timetable st !! d) /\
  (match rest with (_, S') :: _ => S' <> S | [] => True end ->
   left_over = before ++ rest) /\
  (forall t rest', rest = (t, S) :: rest' -> left_over = before ++ rest').
Proof.
  intros Hn Hday Hd st' left_over. unfold st', outcome, after.
  rewrite (delete_at st day S n before rest Hn Hday Hd). cbn [fst snd].
  split; [reflexivity|]. split; [|split; [|split]].
  - rewrite timetable_after_delete. destruct (decide _); [reflexivity|congruence].
  - intros d Hne. rewrite timetable_after_delete.
    destruct (decide _); [contradiction|reflexivity].
  - unfold left_over, deleted_at. destruct rest as [|[t' S'] rest']; [reflexivity|].
    intros Hne. rewrite (proj2 (String.eqb_neq _ _) Hne). reflexivity.
  - intros t rest' ->. unfold left_over, deleted_at.
    rewrite String.eqb_refl. reflexivity.
Qed.

Lemma delete_entry_effect_witness :
  timetable (after (delete_timetable_entry "Monday" (period_label 1) "PHYLAB")
               lab_monday) !! "Monday" = None.
Proof.
  destruct (delete_entry_effect lab_monday "Monday" "PHYLAB" 1 []
              [(period_label 2, "PHYLAB")]) as (_ & H & _).
  - lia.
  - reflexivity.
  - apply (lab_monday_invariant "Monday"). reflexivity.
  - exact H.
Defined.

(** X17. Edge cases of [delete_timetable_entry] with a label of the
    form: on a day that is no key of the timetable it changes nothing; on a
    day of labelled slots without the entry, and not empty, it changes
    nothing; on a day whose list is empty it removes the day. *)
Theorem delete_nothing_to_delete (st : tracker) (day S : string) (n : Z) :
  1 <= n <= 7 ->
  (timetable st !! day = None ->
   delete_timetable_entry day (period_label n) S st = (inr tt, st)) /\
  (forall classes,
     timetable st !! day = Some classes -> classes <> [] ->
     Forall is_period_label classes.*1 -> (period_label n, S) ∉ classes ->
     delete_timetable_entry day (period_label n) S st = (inr tt, st)) /\
  (timetable st !! day = Some [] ->
   outcome (delete_timetable_entry day (period_label n) S) st = inr tt /\
   timetable (after (delete_timetable_entry day (period_label n) S) st)
   = delete day (timetable st)).
Proof.
  intros Hn. split; [|split].
  - intros Hday. rewrite delete_timetable_entry_run, Hday. reflexivity.
  - intros classes Hday Hne Hwf Hnotin.
    rewrite delete_timetable_entry_run, Hday. cbv zeta.
    rewrite contains_paren_label, period_num_of_label by exact Hn.
    assert (Hloop : delete_loop (time_map n) (period_label n) S false classes
                    = classes).
    { clear Hday Hne. induction classes as [|[time subj] rest IH]; [reflexivity|].
      simpl in Hwf. apply Forall_cons in Hwf as [Hl Hwf].
      apply not_elem_of_cons in Hnotin as [Hx Hnotin]. simpl.
      rewrite bool_decide_eq_false_2 by (apply time_map_not_label, Hl).
      destruct (String.eqb_spec time (period_label n)) as [Et|Et];
        destruct (String.eqb_spec subj S) as [Es|Es]; simpl;
        try (rewrite (IH Hwf Hnotin); reflexivity).
      exfalso. apply Hx. congruence. }
    rewrite Hloop. destruct classes as [|c cs]; [contradiction|].
    f_equal. rewrite insert_id by exact Hday. destruct st; reflexivity.
  - intros Hday. unfold outcome, after.
    rewrite delete_timetable_entry_run, Hday. cbv zeta.
    rewrite contains_paren_label, period_num_of_label by exact Hn.
    split; reflexivity.
Qed.

Lemma delete_nothing_to_delete_witness :
  delete_timetable_entry "Tuesday" (period_label 1) "PHYLAB" lab_monday
  = (inr tt, lab_monday) /\
  delete_timetable_entry "Monday" (period_label 3) "PHYLAB" lab_monday
  = (inr tt, lab_monday).
Proof.
  destruct (delete_nothing_to_delete lab_monday "Tuesday" "PHYLAB" 1) as (H1 & _);
    [lia|].
  destruct (delete_nothing_to_delete lab_monday "Monday" "PHYLAB" 3) as (_ & H2 & _);
    [lia|].
  split; [apply H1; reflexivity|].
  apply (H2 [(period_label 1, "PHYLAB"); (period_label 2, "PHYLAB")]).
  - reflexivity.
  - discriminate.
  - repeat constructor; [exists 1|exists 2]; (split; [lia|reflexivity]).
  - intros H. apply elem_of_cons in H as [H|H]; [discriminate|].
    apply list_elem_of_singleton in H. discriminate.
Defined.

(** ** Timetable: adding and then deleting *)

Lemma slots_distinct_NoDup (l : list entry) : slots_distinct l -> NoDup l.
Proof. intros [_ H]. exact (NoDup_fmap_1 fst l H). Qed.

Lemma period_lt_fst (x : entry) (a : Z) (S : string) :
  1 <= a <= 7 ->
  period_lt x (period_label a, S) -> forall b, 1 <= b <= 8 -> a <= b -> x.1 <> period_label b.
Proof.
  intros Ha (c & a' & Hc & Ha' & Ex & Ea & Hlt) b Hb Hab E. simpl in Ea.
  apply period_label_inj in Ea; [|lia|lia]. subst a'.
  rewrite Ex in E. apply period_label_inj in E; lia.
Qed.

(** The list left by deleting the entry just added is the list found
    before the addition, when that list was sorted, had the target slot
    free and did not name the subject. *)
Lemma restored_list (lab : bool) (n : Z) (S : string)
  (classes before rest : list entry) :
  1 <= n <= 7 -> (lab = true -> n < 7) ->
  slots_distinct classes -> day_sorted classes ->
  (forall e, e ∈ classes -> e.1 <> period_label n /\ e.2 <> S) ->
  slots_distinct (before ++ (period_label n, S) :: rest) ->
  day_sorted (before ++ (period_label n, S) :: rest) ->
  (forall e,
     e ∈ before ++ (period_label n, S) :: rest <->
     e ∈ classes \/ e = (period_label n, S) \/
     (lab = true /\ e = (period_label (n + 1), S))) ->
  deleted_at S before rest = classes.
Proof.
  intros Hn Hlab7 Hd Hs Hfree Hd' Hs' Hmem.
  pose proof (slots_distinct_NoDup _ Hd') as Hnd'.
  apply NoDup_app in Hnd' as (Hndb & Hdisj & Hndr).
  apply NoDup_cons in Hndr as [Hxrest Hndr].
  apply StronglySorted_app in Hs' as (Hcross & Hsb & Hsr).
  apply StronglySorted_cons in Hsr as [Hafter Hsr].
  assert (Hxbefore : (period_label n, S) ∉ before).
  { intros Hin. apply (Hdisj _ Hin). left. }
  (* every entry other than the new ones comes from [classes] *)
  assert (Hother : forall e, e ∈ before ++ rest -> e.2 <> S -> e ∈ classes).
  { intros e He HS.
    assert (Hin : e ∈ before ++ (period_label n, S) :: rest).
    { apply elem_of_app in He as [He|He]; apply elem_of_app; [left|right; right];
        exact He. }
    apply Hmem in Hin as [Hin|[->|[_ ->]]]; [exact Hin| |]; contradiction. }
  assert (Hfinish : forall l, l ≡ₚ classes -> StronglySorted period_lt l -> l = classes).
  { intros l HP Hl. apply (StronglySorted_unique_strong period_lt); try assumption.
    intros x1 x2 _ _ H12 H21. exfalso. exact (period_lt_asym _ _ H12 H21). }
  assert (Hsorted : forall r', (forall x, x ∈ r' -> x ∈ rest) ->
            StronglySorted period_lt r' -> StronglySorted period_lt (before ++ r')).
  { intros r' Hsub Hr'. apply StronglySorted_app_2; [|exact Hsb|exact Hr'].
    intros x1 x2 H1 H2. apply (period_lt_trans _ (period_label n, S)).
    - apply Hcross; [exact H1|left].
    - apply (proj1 (Forall_forall _ _) Hafter). apply Hsub, H2. }
  unfold deleted_at. destruct lab.
  - (* a lab: the entry of the next period follows *)
    assert (Hnext : (period_label (n + 1), S) ∈ rest).
    { assert (Hin : (period_label (n + 1), S) ∈ before ++ (period_label n, S) :: rest)
        by (apply Hmem; right; right; split; reflexivity).
      apply elem_of_app in Hin as [Hin|Hin].
      - exfalso. pose proof (Hcross _ (period_label n, S) Hin ltac:(left)) as Hlt.
        apply (period_lt_fst _ n S Hn Hlt (n + 1)); [lia|lia|reflexivity].
      - apply elem_of_cons in Hin as [Hin|Hin]; [|exact Hin].
        exfalso. apply (f_equal fst) in Hin.
        change (period_label (n + 1) = period_label n) in Hin.
        apply period_label_inj in Hin; lia. }
    destruct rest as [|[t' S'] rest']; [inversion Hnext|].
    assert (Hhead : (t', S') = (period_label (n + 1), S)).
    { apply elem_of_cons in Hnext as [Hnext|Hnext]; [symmetry; exact Hnext|].
      exfalso. apply StronglySorted_cons in Hsr as [Hhd _].
      pose proof (proj1 (Forall_forall _ _) Hhd _ Hnext) as Hlt.
      apply Forall_cons in Hafter as [(a & b & Ha & Hb & Ea & Eb & Hab) _].
      simpl in Ea, Eb. apply period_label_inj in Ea; [|lia|lia]. subst a.
      apply (period_lt_fst _ (n + 1) S ltac:(lia) Hlt b); [lia|lia|exact Eb]. }
    injection Hhead as -> ->. rewrite String.eqb_refl.
    apply NoDup_cons in Hndr as [Hnextrest Hndr'].
    apply Hfinish.
    + apply NoDup_Permutation.
      * apply NoDup_app. split; [exact Hndb|]. split; [|exact Hndr'].
        intros x Hx Hx'. apply (Hdisj x Hx). right. right. exact Hx'.
      * apply slots_distinct_NoDup, Hd.
      * intros e. split.
        -- intros He.
           assert (Hin : e ∈ before ++ (period_label n, S)
                                :: (period_label (n + 1), S) :: rest').
           { apply elem_of_app in He as [He|He]; apply elem_of_app;
               [left|right; right; right]; exact He. }
           apply Hmem in Hin as [Hin|[->|[_ ->]]]; [exact Hin| |].
           ++ exfalso. apply elem_of_app in He as [He|He]; [contradiction|].
              apply Hxrest. right. exact He.
           ++ exfalso. apply elem_of_app in He as [He|He]; [|contradiction].
              apply (Hdisj _ He). right. left.
        -- intros He. destruct (Hfree e He) as [Ht HS].
           assert (Hin : e ∈ before ++ (period_label n, S)
                                :: (period_label (n + 1), S) :: rest')
             by (apply Hmem; left; exact He).
           apply elem_of_app in Hin as [Hin|Hin]; [apply elem_of_app; left; exact Hin|].
           apply elem_of_cons in Hin as [->|Hin]; [contradiction|].
           apply elem_of_cons in Hin as [->|Hin]; [contradiction|].
           apply elem_of_app. right. exact Hin.
    + apply Hsorted; [intros x Hx; right; exact Hx|].
      apply StronglySorted_cons in Hsr as [_ Hsr']. exact Hsr'.
  - (* no lab: what follows belongs to another subject *)
    assert (Hrest : match rest with
                    | (_, subj') :: rest' =>
                        if String.eqb subj' S then rest' else rest
                    | [] => []
                    end = rest).
    { destruct rest as [|[t' S'] rest']; [reflexivity|].
      destruct (String.eqb_spec S' S) as [E|E]; [|reflexivity]. subst S'. exfalso.
      assert (Hin : (t', S) ∈ before ++ (period_label n, S) :: (t', S) :: rest')
        by (apply elem_of_app; right; right; left).
      apply Hmem in Hin as [Hin|[Hin|[Hin _]]]; [| |discriminate].
      - destruct (Hfree _ Hin) as [_ HS]. apply HS. reflexivity.
      - apply Hxrest. rewrite <- Hin. left. }
    rewrite Hrest. apply Hfinish.
    + apply NoDup_Permutation.
      * apply NoDup_app. split; [exact Hndb|]. split; [|exact Hndr].
        intros x Hx Hx'. apply (Hdisj x Hx). right. exact Hx'.
      * apply slots_distinct_NoDup, Hd.
      * intros e. split.
        -- intros He.
           assert (Hin : e ∈ before ++ (period_label n, S) :: rest).
           { apply elem_of_app in He as [He|He]; apply elem_of_app;
               [left|right; right]; exact He. }
           apply Hmem in Hin as [Hin|[->|[Hl _]]]; [exact Hin| |discriminate].
           exfalso. apply elem_of_app in He as [He|He]; contradiction.
        -- intros He. destruct (Hfree e He) as [Ht HS].
           assert (Hin : e ∈ before ++ (period_label n, S) :: rest)
             by (apply Hmem; left; exact He).
           apply elem_of_app in Hin as [Hin|Hin]; [apply elem_of_app; left; exact Hin|].
           apply elem_of_cons in Hin as [->|Hin]; [contradiction|].
           apply elem_of_app. right. exact Hin.
    + apply Hsorted; [auto|exact Hsr].
Qed.

(** X18. Adding a class and deleting it again restores the timetable:
    on a sorted day with one entry per slot, where the target slot is free
    and the subject is not yet taught, a returning [add_timetable_entry]
    followed by [delete_timetable_entry] of the same entry leaves every day
    with the list it had; for a lab the deletion takes both of its slots.
    A day that had no entry ends up without a key. *)
Theorem add_then_delete_restores (st : tracker) (day S : string) (n : Z) :
  slots_ok st -> day_sorted (default [] (timetable st !! day)) -> 1 <= n <= 7 ->
  (forall e, e ∈ default [] (timetable st !! day) ->
             e.1 <> period_label n /\ e.2 <> S) ->
  outcome (add_timetable_entry day (period_label n) S) st = inr tt ->
  let st1 := after (add_timetable_entry day (period_label n) S) st in
  let st2 := after (delete_timetable_entry day (period_label n) S) st1 in
  outcome (delete_timetable_entry day (period_label n) S) st1 = inr tt /\
  (forall d, d <> day -> timetable st2 !! d = timetable st !! d) /\
  timetable st2 !! day
  = match default [] (timetable st !! day) with
    | [] => None
    | classes => Some classes
    end.
Proof.
  intros Hok Hs Hn Hfree Hout st1 st2.
  destruct (add_returned st day S n Hn Hout) as [Hafter Hlab].
  pose proof (slots_ok_classes st day Hok) as Hd.
  set (classes := default [] (timetable st !! day)) in *.
  set (classes' := added (lab_flag st S) n (period_label n) S classes) in *.
  assert (Hd' : slots_distinct classes')
    by (apply added_slots_distinct; assumption).
  assert (Hs' : day_sorted classes').
  { apply sorted_by_period; [exact Hd'|].
    unfold classes', added. destruct (lab_flag st S); apply sort_sorted. }
  assert (Hmem : forall e, e ∈ classes' <->
            e ∈ classes \/ e = (period_label n, S) \/
            (lab_flag st S = true /\ e = (period_label (n + 1), S))).
  { intros e. unfold classes'. rewrite added_elem. split.
    - intros [(He & _)|[->|[Hl ->]]]; auto.
    - intros [He|[->|[Hl ->]]]; auto. left.
      assert (Hlabel : is_period_label e.1)
        by (apply (proj1 (Forall_forall _ _) (proj1 Hd)), list_elem_of_fmap_2, He).
      split; [exact He|]. split.
      + apply in_period_false_label; [lia|exact Hlabel|apply Hfree, He].
      + intros Hl. destruct (Hlab Hl) as [_ Hfree'].
        exact (existsb_false_elem _ _ e Hfree' He). }
  assert (Hin : (period_label n, S) ∈ classes') by (apply Hmem; auto).
  apply list_elem_of_split in Hin as (before & rest & Hsplit).
  assert (Hday1 : timetable st1 !! day = Some (before ++ (period_label n, S) :: rest)).
  { unfold st1. rewrite Hafter. cbn [timetable with_timetable].
    rewrite lookup_insert_eq, <- Hsplit. reflexivity. }
  rewrite Hsplit in Hd', Hs', Hmem.
  assert (Hleft : deleted_at S before rest = classes).
  { apply (restored_list (lab_flag st S) n); try assumption.
    intros Hl. apply (Hlab Hl). }
  unfold st2, outcome, after.
  rewrite (delete_at st1 day S n before rest Hn Hday1 Hd'). cbn [fst snd].
  rewrite Hleft. split; [reflexivity|]. split.
  - intros d Hne. rewrite timetable_after_delete.
    destruct (decide _); [contradiction|].
    unfold st1. rewrite Hafter. cbn [timetable with_timetable].
    apply lookup_insert_ne. congruence.
  - rewrite timetable_after_delete. destruct (decide _); [|congruence].
    destruct classes; reflexivity.
Qed.

Lemma add_then_delete_restores_witness :
  timetable
    (after (delete_timetable_entry "Tuesday" (period_label 3) "PHYLAB")
       (after (add_timetable_entry "Tuesday" (period_label 3) "PHYLAB") lab_monday))
  !! "Tuesday" = None /\
  timetable
    (after (delete_timetable_entry "Tuesday" (period_label 3) "PHYLAB")
       (after (add_timetable_entry "Tuesday" (period_label 3) "PHYLAB") lab_monday))
  !! "Monday" = timetable lab_monday !! "Monday".
Proof.
  destruct (add_then_delete_restores lab_monday "Tuesday" "PHYLAB" 3)
    as (_ & Hother & Hday).
  - intros day classes H. apply (lab_monday_invariant day classes H).
  - constructor.
  - lia.
  - intros e He.
    assert (E : default [] (timetable lab_monday !! "Tuesday") = []) by reflexivity.
    rewrite E in He. inversion He.
  - reflexivity.
  - split; [exact Hday|]. apply Hother. discriminate.
Defined.

(** ** Timetable: how far the invariant is kept *)



























(** ** Deleting a subject: what stays *)

Lemma without_subject_sublist (S : string) (classes : list entry) :
  without_subject S classes `sublist_of` classes.
Proof. apply filter_sublist. Qed.

(** X19. [delete_subject] keeps the shape of the tracker: the timetable
    keeps its days (a day whose classes all belonged to the subject stays,
    with an empty list), every day keeps one entry per slot, the ledger
    keeps one record per date, and a second deletion changes nothing. *)
Theorem delete_subject_keeps_shape (st : tracker) (S : string) :
  let st' := after (delete_subject S) st in
  dom (timetable st') = dom (timetable st) /\
  (slots_ok st -> slots_ok st') /\
  (ledger_unique st -> ledger_unique st') /\
  after (delete_subject S) st' = st' /\
  (is_Some (subjects st !! S) ->
   forall day classes,
     timetable st !! day = Some classes -> (forall e, e ∈ classes -> e.2 = S) ->
     timetable st' !! day = Some []).
Proof.
  intros st'. unfold st'. destruct (subjects st !! S) as [info|] eqn:Hin.
  - destruct (delete_subject_fields st S (mk_is_Some _ _ Hin))
      as (Hsub & Hrec & Hini & Htt & _).
    split; [rewrite Htt; apply dom_fmap_L|]. split; [|split; [|split]].
    + intros Hok day classes. rewrite Htt, lookup_fmap. intros H.
      destruct (timetable st !! day) as [old|] eqn:E; [|discriminate].
      injection H as <-.
      apply (slots_distinct_sublist _ old); [apply without_subject_sublist|].
      exact (Hok day old E).
    + intros Hu S' l. rewrite Hrec. intros H.
      apply lookup_delete_Some in H as [_ H]. exact (Hu S' l H).
    + unfold after at 1. rewrite delete_subject_unknown; [reflexivity|].
      rewrite Hsub. apply lookup_delete_eq.
    + intros _ day classes Hday Hall. rewrite Htt, lookup_fmap, Hday. simpl.
      f_equal. apply filter_none. intros e He.
      rewrite (Hall e He), String.eqb_refl. reflexivity.
  - unfold after. rewrite !delete_subject_unknown by exact Hin. cbn [snd].
    rewrite ?delete_subject_unknown by exact Hin. cbn [snd].
    split; [reflexivity|]. split; [auto|]. split; [auto|]. split; [reflexivity|].
    intros [x Hx]. discriminate.
Qed.

Lemma delete_subject_keeps_shape_witness :
  timetable (after (delete_subject "PHYLAB") lab_monday) !! "Monday" = Some [].
Proof.
  destruct (delete_subject_keeps_shape lab_monday "PHYLAB") as (_ & _ & _ & _ & H).
  apply (H ltac:(eexists; reflexivity) "Monday"
           [(period_label 1, "PHYLAB"); (period_label 2, "PHYLAB")]).
  - reflexivity.
  - intros e He. apply elem_of_cons in He as [->|He]; [reflexivity|].
    apply list_elem_of_singleton in He. subst e. reflexivity.
Defined.

(** ** The validated forms *)

Lemma seeds_nonneg_insert (st : tracker) (S : string) (p a y : Z) :
  seeds_nonneg st -> 0 <= p -> 0 <= a -> 0 <= y ->
  seeds_nonneg (after (set_initial_attendance S p a y) st).
Proof.
  intros Hs Hp Ha Hy S' sd. unfold after, set_initial_attendance. simpl.
  intros H. apply lookup_insert_Some in H as [[_ <-]|[_ H]].
  - repeat split; assumption.
  - exact (Hs S' sd H).
Qed.

Lemma int_or_zero_run (int : string -> option Z) (text : string) (st : tracker) :
  int_or_zero int text st
  = match entry_value int text with
    | Some n => (inr n, st)
    | None => (inl (ValueError "invalid literal for int() with base 10"), st)
    end.
Proof.
  unfold int_or_zero, entry_value. destruct text; [reflexivity|].
  destruct (int _); reflexivity.
Qed.

(** X20. The save handler of the initial-attendance dialog stores a
    seed only when [int] has read all three entry texts (an empty text
    counts as 0) and none of the numbers is negative; the seed is then those
    three numbers, and the handler goes on to redraw the analytics tab,
    reporting success exactly when the redraw returns.  In every other case
    it shows an error and leaves the tracker as it was.  So, the redraw
    leaving the seeds alone, no negative count enters the tracker through
    the dialog. *)
Theorem save_attendance_validates (int : string -> option Z)
  (refresh_analytics : M unit) (st : tracker) (S pt at_ yt : string) :
  (forall st0,
     initial_attendance (after refresh_analytics st0) = initial_attendance st0) ->
  let run := save_attendance int refresh_analytics S pt at_ yt in
  let accepted p a y :=
    entry_value int pt = Some p /\ entry_value int at_ = Some a /\
    entry_value int yt = Some y /\ 0 <= p /\ 0 <= a /\ 0 <= y in
  (seeds_nonneg st -> seeds_nonneg (after run st)) /\
  (forall p a y,
     accepted p a y ->
     let stored := after (set_initial_attendance S p a y) st in
     after run st = after refresh_analytics stored /\
     initial_attendance (after run st) !! S
     = Some {| present := p; absent := a; yet_to_go := y |} /\
     (outcome run st = inr Success <->
      outcome refresh_analytics stored = inr tt)) /\
  ((forall p a y, ~ accepted p a y) ->
   after run st = st /\ exists msg, outcome run st = inr (Error msg)) /\
  (outcome run st = inr Success -> exists p a y, accepted p a y).
Proof.
  intros Hredraw run accepted.
  assert (Hrun : run st =
            match entry_value int pt, entry_value int at_, entry_value int yt with
            | Some p, Some a, Some y =>
                if (p <? 0) || (a <? 0) || (y <? 0)
                then (inr (Error "Values cannot be negative"), st)
                else
                  let stored := after (set_initial_attendance S p a y) st in
                  match refresh_analytics stored with
                  | (inr _, st') => (inr Success, st')
                  | (inl (ValueError _), st') =>
                      (inr (Error "Please enter valid numbers"), st')
                  | (inl e, st') => (inl e, st')
                  end
            | _, _, _ => (inr (Error "Please enter valid numbers"), st)
            end).
  { unfold run, save_attendance, try_except_ValueError.
    unfold bind at 1. rewrite int_or_zero_run.
    destruct (entry_value int pt) as [p|]; [|reflexivity].
    unfold bind at 1. rewrite int_or_zero_run.
    destruct (entry_value int at_) as [a|]; [|reflexivity].
    unfold bind at 1. rewrite int_or_zero_run.
    destruct (entry_value int yt) as [y|]; [|reflexivity].
    destruct ((p <? 0) || (a <? 0) || (y <? 0)); [reflexivity|].
    cbv zeta. unfold bind at 1.
    assert (Eset : set_initial_attendance S p a y st
                   = (inr tt, after (set_initial_attendance S p a y) st))
      by reflexivity.
    rewrite Eset.
    unfold bind at 1.
    destruct (refresh_analytics _) as [[e|u] st']; [destruct e|]; reflexivity. }
  assert (Hcases :
            (exists p a y, accepted p a y) \/ (forall p a y, ~ accepted p a y)).
  { unfold accepted.
    destruct (entry_value int pt) as [p|];
      [|right; intros ? ? ? (? & _); discriminate].
    destruct (entry_value int at_) as [a|];
      [|right; intros ? ? ? (_ & ? & _); discriminate].
    destruct (entry_value int yt) as [y|];
      [|right; intros ? ? ? (_ & _ & ? & _); discriminate].
    destruct (Z_lt_le_dec p 0) as [Hp|Hp];
      [right; intros ? ? ? ([= <-] & _ & _ & ? & _); lia|].
    destruct (Z_lt_le_dec a 0) as [Ha|Ha];
      [right; intros ? ? ? (_ & [= <-] & _ & _ & ? & _); lia|].
    destruct (Z_lt_le_dec y 0) as [Hy|Hy];
      [right; intros ? ? ? (_ & _ & [= <-] & _ & _ & ?); lia|].
    left. exists p, a, y. auto 10. }
  assert (Hyes : forall p a y,
            accepted p a y ->
            after run st
            = after refresh_analytics (after (set_initial_attendance S p a y) st) /\
            (outcome run st = inr Success <->
             outcome refresh_analytics (after (set_initial_attendance S p a y) st)
             = inr tt)).
  { intros p a y (Ep & Ea & Ey & Hp & Ha & Hy).
    assert (E : (p <? 0) || (a <? 0) || (y <? 0) = false).
    { rewrite !orb_false_iff, !Z.ltb_ge. auto. }
    set (stored := after (set_initial_attendance S p a y) st).
    assert (Hrun' : run st =
              match refresh_analytics stored with
              | (inr _, st') => (inr Success, st')
              | (inl (ValueError _), st') =>
                  (inr (Error "Please enter valid numbers"), st')
              | (inl e, st') => (inl e, st')
              end).
    { rewrite Hrun, Ep, Ea, Ey, E. reflexivity. }
    unfold outcome, after. rewrite Hrun'.
    destruct (refresh_analytics stored) as [[e|[]] st']; [destruct e|];
      cbn [fst snd]; (split; [reflexivity|]); split; congruence. }
  assert (Hno : (forall p a y, ~ accepted p a y) ->
                after run st = st /\ exists msg, outcome run st = inr (Error msg)).
  { intros Hnone. unfold outcome, after. rewrite Hrun.
    destruct (entry_value int pt) as [p|] eqn:Ep; [|split; [|eexists]; reflexivity].
    destruct (entry_value int at_) as [a|] eqn:Ea; [|split; [|eexists]; reflexivity].
    destruct (entry_value int yt) as [y|] eqn:Ey; [|split; [|eexists]; reflexivity].
    destruct ((p <? 0) || (a <? 0) || (y <? 0)) eqn:E;
      [split; [|eexists]; reflexivity|].
    exfalso. apply (Hnone p a y).
    rewrite !orb_false_iff, !Z.ltb_ge in E. unfold accepted. intuition. }
  split; [|split; [|split]].
  - intros Hs. destruct Hcases as [(p & a & y & Hacc)|Hnone].
    + destruct (Hyes p a y Hacc) as [-> _].
      intros S' sd. rewrite Hredraw.
      destruct Hacc as (_ & _ & _ & Hp & Ha & Hy).
      apply (seeds_nonneg_insert st S p a y Hs); assumption.
    + destruct (Hno Hnone) as [-> _]. exact Hs.
  - intros p a y Hacc stored. destruct (Hyes p a y Hacc) as [Hafter Hout].
    split; [exact Hafter|]. split; [|exact Hout].
    rewrite Hafter, Hredraw. unfold stored, after, set_initial_attendance.
    simpl. apply lookup_insert_eq.
  - exact Hno.
  - intros Hout. destruct Hcases as [H|Hnone]; [exact H|].
    destruct (Hno Hnone) as [_ [msg Hmsg]]. congruence.
Qed.

Lemma redraw_cs101_seeds (st : tracker) :
  initial_attendance (after redraw_cs101 st) = initial_attendance st.
Proof.
  assert (Hbunk : forall m today S st0,
            after (Binary64.calculate_bunkable_classes m today S) st0
            = after (Binary64.get_attendance_stats m today S) st0).
  { intros m today S st0. unfold after, Binary64.calculate_bunkable_classes.
    unfold bind at 1.
    destruct (Binary64.get_attendance_stats m today S st0) as [[e|s] st1];
      [reflexivity|].
    cbn [snd]. destruct (Binary64.current_total s =? 0); [reflexivity|].
    unfold bind, Binary64.lift.
    destruct (Binary64.truediv _ _) as [e|x1]; [reflexivity|]. unfold ret at 1.
    destruct (Binary64.mul _ _) as [e|x2]; [reflexivity|]. unfold ret at 1.
    destruct (Binary64.sub _ x2) as [e|x3]; [reflexivity|]. unfold ret at 1.
    destruct (Binary64.sub x3 _) as [e|x4]; [reflexivity|]. unfold ret at 1.
    destruct (Binary64.trunc x4) as [e|x5]; reflexivity. }
  assert (Hstats : forall m today S st0,
            initial_attendance (after (Binary64.get_attendance_stats m today S) st0)
            = initial_attendance st0).
  { intros m today S st0. unfold after. rewrite binary64_stats_run. cbv zeta.
    cbn [snd]. apply touch_initial. }
  unfold redraw_cs101, after. unfold bind at 1.
  pose proof (Hstats (Binary64.Int 75) 739500 "CS101" st) as H1.
  unfold after in H1.
  destruct (Binary64.get_attendance_stats _ _ _ st) as [[e|s] st1];
    [exact H1|].
  cbn [snd] in H1. unfold bind at 1.
  pose proof (Hbunk (Binary64.Int 75) 739500 "CS101" st1) as H2.
  pose proof (Hstats (Binary64.Int 75) 739500 "CS101" st1) as H3.
  unfold after in H2, H3.
  destruct (Binary64.calculate_bunkable_classes _ _ _ st1) as [[e|n] st2];
    cbn [snd] in H2; unfold ret; cbn [snd]; rewrite H2, H3; exact H1.
Qed.

Lemma save_attendance_validates_witness :
  seeds_nonneg
    (after (save_attendance Py.int_of_str redraw_cs101 "CS101" "12" "" "8") cs101) /\
  initial_attendance
    (after (save_attendance Py.int_of_str redraw_cs101 "CS101" "12" "" "8") cs101)
    !! "CS101"
  = Some {| present := 12; absent := 0; yet_to_go := 8 |} /\
  outcome (save_attendance Py.int_of_str redraw_cs101 "CS101" "12" "" "8") cs101
  = inr Success /\
  outcome (save_attendance Py.int_of_str redraw_cs101 "CS101" "12" "" "-3") cs101
  = inr (Error "Values cannot be negative").
Proof.
  destruct (save_attendance_validates Py.int_of_str redraw_cs101 cs101
              "CS101" "12" "" "8" redraw_cs101_seeds)
    as (Hinv & Hacc & _).
  destruct (Hacc 12 0 8) as (_ & Hseed & Hout).
  { repeat split; first [reflexivity | lia]. }
  split; [|split; [exact Hseed|split]].
  - apply Hinv. intros S sd H.
    destruct (decide (S = "CS101")) as [->|Hne].
    + change (initial_attendance cs101 !! "CS101" = Some sd) in H.
      vm_compute in H. injection H as <-. repeat split; discriminate.
    + unfold cs101, after, bind, add_subject, set_initial_attendance, modify,
        save_data, ret in H. simpl in H.
      rewrite lookup_insert_ne in H by congruence. rewrite lookup_empty in H.
      discriminate.
  - apply Hout. vm_compute. reflexivity.
  - vm_compute. reflexivity.
Defined.

(** X21. The threshold form keeps the threshold a percentage: it
    answers "Success" exactly for a number between 0 and 100, which then
    is the new threshold; otherwise (no number, or one out of range) the
    tracker is left as it was. *)
Theorem update_min_attendance_validates (st : tracker) (value : option Q) :
  let st' := after (update_min_attendance value) st in
  (threshold_ok st -> threshold_ok st') /\
  (outcome (update_min_attendance value) st = inr Success <->
   exists m, value = Some m /\ (0 <= m <= 100)%Q) /\
  (forall m, value = Some m -> (0 <= m <= 100)%Q ->
             st' = with_minimum_attendance m st) /\
  (outcome (update_min_attendance value) st <> inr Success -> st' = st).
Proof.
  intros st'. unfold st', outcome, after, update_min_attendance.
  destruct value as [m|].
  2:{ unfold ret. simpl. split; [auto|].
      split; [split; [discriminate|intros (? & ? & _); discriminate]|].
      split; [intros; discriminate|reflexivity]. }
  destruct (Qle_bool 0 m && Qle_bool m 100) eqn:E.
  - apply andb_true_iff in E as [E0 E1].
    apply Qle_bool_iff in E0, E1. unfold bind, modify, save_data, ret. simpl.
    split; [intros _; split; assumption|].
    split; [split; [intros _; exists m; auto|reflexivity]|].
    split; [|intros H; contradiction].
    intros m' Hm _. injection Hm as <-. reflexivity.
  - unfold ret. simpl. split; [auto|].
    assert (Hout : ~ (0 <= m <= 100)%Q).
    { intros [H0 H1]. apply Qle_bool_iff in H0, H1. rewrite H0, H1 in E.
      discriminate. }
    split; [split; [discriminate|]|].
    + intros (m' & Hm & Hr). injection Hm as <-. contradiction.
    + split; [|reflexivity]. intros m' Hm Hr. injection Hm as <-. contradiction.
Qed.

Lemma update_min_attendance_validates_witness :
  threshold_ok (after (update_min_attendance (Some 80%Q)) cs101) /\
  after (update_min_attendance (Some 80%Q)) cs101 = with_minimum_attendance 80 cs101 /\
  after (update_min_attendance (Some 120%Q)) cs101 = cs101.
Proof.
  destruct (update_min_attendance_validates cs101 (Some 80%Q)) as (Hinv & _ & Hset & _).
  destruct (update_min_attendance_validates cs101 (Some 120%Q)) as (_ & _ & _ & Hno).
  split; [|split].
  - apply Hinv. vm_compute. split; discriminate.
  - apply (Hset 80%Q); [reflexivity|]. vm_compute. split; discriminate.
  - apply Hno. discriminate.
Defined.

(** ** Stored seeds: the old format *)

Lemma convert_seed_new (total attended : Z) :
  let data' : gmap string Z :=
    <["present" := attended]>
      (<["absent" := total - attended]> (<["yet_to_go" := 0]> ∅)) in
  data' !! "total_classes" = None /\
  read_seed data'
  = Some {| present := attended; absent := total - attended; yet_to_go := 0 |}.
Proof.
  intros data'. unfold data', read_seed. split.
  - rewrite !lookup_insert_ne by discriminate. apply lookup_empty.
  - rewrite lookup_insert_eq.
    rewrite (lookup_insert_ne _ "present" "absent") by discriminate.
    rewrite lookup_insert_eq.
    rewrite (lookup_insert_ne _ "present" "yet_to_go") by discriminate.
    rewrite (lookup_insert_ne _ "absent" "yet_to_go") by discriminate.
    rewrite lookup_insert_eq. reflexivity.
Qed.

Lemma convert_seed_idem (data : gmap string Z) :
  convert_seed (convert_seed data) = convert_seed data.
Proof.
  unfold convert_seed at 2.
  destruct (data !! "total_classes") as [total|] eqn:Et;
    destruct (data !! "attended") as [attended|] eqn:Ea;
    unfold convert_seed; rewrite Et, ?Ea; reflexivity.
Qed.

(** X22. The conversion of stored seeds at load time keeps the subjects,
    leaves every seed that lacks ['total_classes'] or ['attended'] as it
    is, and turns a seed with both into the present format with
    present = attended, absent = total - attended and yet-to-go = 0, so that
    present + absent is the old total; converting twice is converting
    once. *)
Theorem convert_initial_attendance_spec (initial : gmap string (gmap string Z)) :
  dom (convert_initial_attendance initial) = dom initial /\
  convert_initial_attendance (convert_initial_attendance initial)
  = convert_initial_attendance initial /\
  forall S data,
    initial !! S = Some data ->
    exists data',
      convert_initial_attendance initial !! S = Some data' /\
      ((data !! "total_classes" = None \/ data !! "attended" = None) ->
       data' = data) /\
      (forall total attended,
         data !! "total_classes" = Some total -> data !! "attended" = Some attended ->
         read_seed data'
         = Some {| present := attended; absent := total - attended; yet_to_go := 0 |}).
Proof.
  unfold convert_initial_attendance. split; [apply dom_fmap_L|]. split.
  - rewrite <- map_fmap_compose. apply map_fmap_ext. intros S data _. simpl.
    apply convert_seed_idem.
  - intros S data HS. exists (convert_seed data).
    rewrite lookup_fmap, HS. split; [reflexivity|]. split.
    + unfold convert_seed. intros [H|H]; rewrite H; [reflexivity|].
      destruct (data !! "total_classes"); reflexivity.
    + intros total attended Ht Ha. unfold convert_seed. rewrite Ht, Ha.
      apply convert_seed_new.
Qed.

Lemma convert_initial_attendance_spec_witness :
  let initial : gmap string (gmap string Z) :=
    {[ "CS101" := <["total_classes" := 40]> (<["attended" := 30]> ∅) ]} in
  exists data',
    convert_initial_attendance initial !! "CS101" = Some data' /\
    read_seed data' = Some {| present := 30; absent := 10; yet_to_go := 0 |}.
Proof.
  intros initial.
  destruct (convert_initial_attendance_spec initial) as (_ & _ & H).
  destruct (H "CS101" (<["total_classes" := 40]> (<["attended" := 30]> ∅)))
    as (data' & Hl & _ & Hold); [reflexivity|].
  exists data'. split; [exact Hl|]. apply (Hold 40 30); reflexivity.
Defined.

(** ** Slot texts that are no labels *)

Lemma prefix_space_paren (s : string) :
  String.prefix " (" s = true -> String.prefix " " s = true.
Proof.
  destruct s as [|c s]; [discriminate|]. cbn [String.prefix].
  destruct (Ascii.ascii_dec " " c); [|discriminate]. intros _.
  destruct s; reflexivity.
Qed.

Lemma contains_space_paren (s : string) :
  Py.contains " " s = false -> Py.contains " (" s = false.
Proof.
  induction s as [|c s IH]; [reflexivity|].
  cbn [Py.contains]. intros H. apply orb_false_iff in H as [Hp Hrest].
  apply orb_false_iff. split; [|apply IH, Hrest].
  destruct (String.prefix " (" (String c s)) eqn:E; [|reflexivity].
  apply prefix_space_paren in E. congruence.
Qed.

(** A text in which the separator does not occur splits into itself. *)
Lemma split_go_absent (sep cur s : string) :
  Py.contains sep s = false ->
  Py.split_go sep 0 cur s = [String.rev_app cur s].
Proof.
  revert cur. induction s as [|c s IH]; intros cur H; [reflexivity|].
  cbn [Py.contains] in H. apply orb_false_iff in H as [Hp Hrest].
  cbn [Py.split_go]. rewrite Hp. rewrite (IH _ Hrest). reflexivity.
Qed.

Lemma split_absent (sep s : string) :
  Py.contains sep s = false -> Py.split sep s = [s].
Proof. intros H. unfold Py.split. rewrite split_go_absent by exact H. reflexivity. Qed.

(** X23. A slot text without any space, such as a bare time, makes
    [add_timetable_entry] raise [IndexError], the day having been created
    when it was no key; [delete_timetable_entry] accepts the same text and
    looks for it among the stored times. *)
Theorem slot_without_space (st : tracker) (day slot S : string) :
  Py.contains " " slot = false ->
  outcome (add_timetable_entry day slot S) st = inl IndexError /\
  after (add_timetable_entry day slot S) st = day_created day st /\
  outcome (delete_timetable_entry day slot S) st = inr tt /\
  (forall classes,
     timetable st !! day = Some classes ->
     default [] (timetable (after (delete_timetable_entry day slot S) st) !! day)
     = delete_loop (Some slot) slot S false classes).
Proof.
  intros Hsp. pose proof (contains_space_paren slot Hsp) as Hpar.
  assert (Hparse : period_num_of slot = inl IndexError).
  { unfold period_num_of. rewrite (split_absent " (" slot Hpar). simpl List.nth.
    rewrite (split_absent " " slot Hsp). reflexivity. }
  unfold outcome, after. rewrite add_timetable_entry_run, Hparse.
  split; [reflexivity|]. split; [reflexivity|].
  rewrite delete_timetable_entry_run, Hpar.
  destruct (timetable st !! day) as [classes|] eqn:Hday.
  - cbv zeta. split; [reflexivity|]. intros classes' E. injection E as <-.
    cbn [snd timetable with_timetable].
    destruct (delete_loop (Some slot) slot S false classes).
    + rewrite lookup_delete_eq. reflexivity.
    + rewrite lookup_insert_eq. reflexivity.
  - split; [reflexivity|]. intros classes' E. discriminate.
Qed.

Lemma slot_without_space_witness :
  outcome (add_timetable_entry "Monday" "08:30" "MATH") lab_monday = inl IndexError.
Proof.
  destruct (slot_without_space lab_monday "Monday" "08:30" "MATH") as [H _];
    [reflexivity|exact H].
Defined.

(** ** The forecast as days pass and as the timetable changes *)

Lemma foldl_remaining_acc (st : tracker) (S : string) (ds : list Z) (acc : Z) :
  foldl (remaining_step st S) acc ds = acc + foldl (remaining_step st S) 0 ds.
Proof.
  revert acc. induction ds as [|d ds IH]; intros acc; simpl; [lia|].
  rewrite (IH (remaining_step st S acc d)), (IH (remaining_step st S 0 d)).
  rewrite (remaining_step_split st S acc d). lia.
Qed.

(** X24. With the tracker unchanged the forecast never grows as days
    pass: seen from a later day it is at most what it was, the difference
    being the classes of the days in between. *)
Theorem forecast_shrinks_with_time (st : tracker) (today later : Z) (S : string) :
  today <= later ->
  exists r r',
    outcome (get_remaining_classes today S) st = inr r /\
    outcome (get_remaining_classes later S) st = inr r' /\
    0 <= r' <= r /\
    (later <= semester_end_date st + 1 ->
     r = foldl (remaining_step st S) 0 (seqZ today (later - today)) + r').
Proof.
  intros Hle. do 2 eexists. rewrite !get_remaining_classes_run.
  do 2 (split; [reflexivity|]).
  pose proof (remaining_loop_nonneg st later S) as H0.
  assert (Hsplit : later <= semester_end_date st + 1 ->
            remaining_loop st today S
            = foldl (remaining_step st S) 0 (seqZ today (later - today))
              + remaining_loop st later S).
  { intros Hend. unfold remaining_loop.
    replace (semester_end_date st - today + 1)
      with ((later - today) + (semester_end_date st - later + 1)) by lia.
    rewrite seqZ_app by lia. rewrite foldl_app, foldl_remaining_acc.
    replace (today + (later - today)) with later by lia. reflexivity. }
  split; [|exact Hsplit]. split; [exact H0|].
  destruct (Z.le_gt_cases later (semester_end_date st + 1)) as [Hend|Hend].
  - rewrite (Hsplit Hend).
    pose proof (foldl_remaining_nonneg st S (seqZ today (later - today)) 0). lia.
  - unfold remaining_loop at 1. rewrite seqZ_nil by lia. simpl.
    apply remaining_loop_nonneg.
Qed.

Lemma forecast_shrinks_with_time_witness :
  exists r r',
    outcome (get_remaining_classes 739500 "PHYLAB") lab_monday = inr r /\
    outcome (get_remaining_classes 739510 "PHYLAB") lab_monday = inr r' /\
    0 <= r' <= r.
Proof.
  destruct (forecast_shrinks_with_time lab_monday 739500 739510 "PHYLAB")
    as (r & r' & Hr & Hr' & Hle & _); [lia|].
  exists r, r'. auto.
Defined.

Lemma remaining_step_count (st : tracker) (S : string) (d : Z) :
  remaining_step st S 0 d
  = if decide (Calendar.date_str d ∈ holidays st) then 0
    else count_subject S (classes_on st (Calendar.day_name d)).
Proof.
  unfold remaining_step, classes_on, count_subject.
  destruct (timetable st !! Calendar.day_name d); simpl;
    destruct (decide _); reflexivity.
Qed.

(** Fewer classes of a subject on every weekday, fewer in the forecast. *)
Lemma forecast_compare (st st' : tracker) (today : Z) (S : string) :
  holidays st' = holidays st -> semester_end_date st' = semester_end_date st ->
  (forall day, count_subject S (classes_on st' day)
               <= count_subject S (classes_on st day)) ->
  remaining_loop st' today S <= remaining_loop st today S.
Proof.
  intros Hh He Hc. unfold remaining_loop. rewrite He.
  apply foldl_remaining_le; [|lia].
  intros d _. rewrite !remaining_step_count, Hh.
  destruct (decide _); [lia|apply Hc].
Qed.

Lemma count_subject_sublist (S : string) (l l' : list entry) :
  l' `sublist_of` l -> count_subject S l' <= count_subject S l.
Proof.
  unfold count_subject. intros H. apply inj_le.
  induction H as [|x l1 l2 H IH|x l1 l2 H IH]; simpl.
  - lia.
  - destruct (String.eqb x.2 S); simpl; lia.
  - destruct (String.eqb x.2 S); simpl; lia.
Qed.

Lemma count_subject_perm (S : string) (l l' : list entry) :
  l ≡ₚ l' -> count_subject S l = count_subject S l'.
Proof.
  unfold count_subject. intros H. f_equal.
  induction H as [|x l1 l2 H IH|x y l1|l1 l2 l3 H1 IH1 H2 IH2]; simpl.
  - reflexivity.
  - destruct (String.eqb x.2 S); simpl; lia.
  - destruct (String.eqb x.2 S), (String.eqb y.2 S); reflexivity.
  - lia.
Qed.

Lemma count_subject_app (S : string) (l k : list entry) :
  count_subject S (l ++ k) = count_subject S l + count_subject S k.
Proof. unfold count_subject. rewrite List.filter_app, length_app. lia. Qed.

Lemma count_subject_nonneg (S : string) (l : list entry) : 0 <= count_subject S l.
Proof. unfold count_subject. lia. Qed.

Lemma count_subject_length (S : string) (l : list entry) :
  count_subject S l <= Z.of_nat (length l).
Proof.
  unfold count_subject. apply inj_le.
  induction l as [|x l IH]; simpl; [lia|].
  destruct (String.eqb x.2 S); simpl; lia.
Qed.

Lemma count_subject_partition (S : string) (f : entry -> bool) (l : list entry) :
  count_subject S l
  = count_subject S (List.filter (fun e => negb (f e)) l)
    + count_subject S (List.filter f l).
Proof.
  unfold count_subject. induction l as [|x l IH]; simpl; [reflexivity|].
  destruct (f x); simpl; destruct (String.eqb x.2 S); simpl length; lia.
Qed.

(** X26. [delete_timetable_entry], whatever its arguments, never raises
    the forecast of any subject. *)
Theorem delete_entry_forecast (st : tracker) (day slot S S' : string) (today : Z) :
  exists r r',
    outcome (get_remaining_classes today S') st = inr r /\
    outcome (get_remaining_classes today S')
      (after (delete_timetable_entry day slot S) st) = inr r' /\
    r' <= r.
Proof.
  do 2 eexists. rewrite !get_remaining_classes_run.
  do 2 (split; [reflexivity|]).
  unfold after. rewrite delete_timetable_entry_run.
  destruct (timetable st !! day) as [classes|] eqn:Hday; [|reflexivity].
  cbv zeta. destruct (if Py.contains " (" slot then _ else _) as [e|t];
    [reflexivity|].
  cbn [snd]. apply forecast_compare; [reflexivity|reflexivity|].
  intros dn. unfold classes_on. cbn [timetable with_timetable].
  pose proof (delete_loop_sublist t slot S false classes) as Hsub.
  destruct (decide (dn = day)) as [->|Hne].
  - rewrite Hday. simpl.
    destruct (delete_loop t slot S false classes) as [|x l] eqn:E.
    + rewrite lookup_delete_eq. simpl. apply count_subject_nonneg.
    + rewrite lookup_insert_eq. simpl. apply count_subject_sublist, Hsub.
  - destruct (delete_loop t slot S false classes) as [|x l].
    + rewrite lookup_delete_ne by congruence. reflexivity.
    + rewrite lookup_insert_ne by congruence. reflexivity.
Qed.

Lemma filter_all {A} (f : A -> bool) (l : list A) :
  (forall x, x ∈ l -> f x = true) -> List.filter f l = l.
Proof.
  induction l as [|x l IH]; intros H; simpl; [reflexivity|].
  rewrite (H x) by left. f_equal. apply IH. intros y Hy. apply H. right. exact Hy.
Qed.

(** On a day of labelled, distinct slots at most one entry sits in a
    period. *)
Lemma one_entry_in_period (n : Z) (classes : list entry) :
  1 <= n <= 8 -> slots_distinct classes ->
  (length (List.filter (fun e => in_period n e.1) classes) <= 1)%nat.
Proof.
  intros Hn Hd.
  assert (Hsub : slots_distinct (List.filter (fun e => in_period n e.1) classes))
    by (apply (slots_distinct_sublist _ classes); [apply filter_sublist|exact Hd]).
  assert (Hall : forall e, e ∈ List.filter (fun e => in_period n e.1) classes ->
                           e.1 = period_label n).
  { intros e He. apply elem_of_filter_bool in He as [He Hp].
    assert (Hl : is_period_label e.1)
      by (apply (proj1 (Forall_forall _ _) (proj1 Hd)), list_elem_of_fmap_2, He).
    destruct Hl as (m & Hm & Em). rewrite Em in Hp |- *.
    rewrite in_period_label in Hp by lia. apply Z.eqb_eq in Hp. congruence. }
  destruct (List.filter _ classes) as [|x [|y l]]; simpl; try lia.
  exfalso. destruct Hsub as [_ Hnd]. simpl in Hnd.
  apply NoDup_cons in Hnd as [Hx _]. apply Hx.
  rewrite (Hall x) by left. rewrite <- (Hall y) by (right; left). left.
Qed.

Lemma count_subject_added (lab : bool) (n : Z) (S S' : string)
  (classes : list entry) :
  1 <= n <= 7 -> slots_distinct classes ->
  (lab = true -> existsb (fun e => in_period (n + 1) e.1) classes = false) ->
  (S' <> S ->
   count_subject S' (added lab n (period_label n) S classes)
   <= count_subject S' classes) /\
  count_subject S classes <= count_subject S (added lab n (period_label n) S classes).
Proof.
  intros Hn Hd Hfree.
  set (kept := List.filter (fun e => negb (in_period n e.1)) classes).
  assert (Hkept : forall X, count_subject X kept <= count_subject X classes)
    by (intros X; apply count_subject_sublist, filter_sublist).
  assert (Hone : count_subject S classes <= count_subject S kept + 1).
  { rewrite (count_subject_partition S (fun e => in_period n e.1) classes).
    fold kept.
    pose proof (count_subject_length S
                  (List.filter (fun e => in_period n e.1) classes)).
    pose proof (one_entry_in_period n classes ltac:(lia) Hd). lia. }
  assert (Hself : forall t, count_subject S [(t, S)] = 1).
  { intros t. unfold count_subject. simpl. rewrite String.eqb_refl. reflexivity. }
  assert (Hoth : forall t, S' <> S -> count_subject S' [(t, S)] = 0).
  { intros t Hne. unfold count_subject. simpl.
    rewrite (proj2 (String.eqb_neq S S')) by congruence. reflexivity. }
  unfold added. fold kept. destruct lab.
  - assert (Ek : List.filter (fun e => negb (in_period (n + 1) e.1)) kept = kept).
    { apply filter_all. intros e He. apply negb_true_iff.
      apply elem_of_filter_bool in He as [He _].
      exact (existsb_false_elem _ _ e (Hfree eq_refl) He). }
    rewrite Ek. split.
    + intros Hne. rewrite (count_subject_perm _ _ _ (sort_perm _)).
      rewrite !count_subject_app, !(Hoth _ Hne). pose proof (Hkept S'). lia.
    + rewrite (count_subject_perm _ _ _ (sort_perm _)).
      rewrite !count_subject_app, !Hself. lia.
  - split.
    + intros Hne. rewrite (count_subject_perm _ _ _ (sort_perm _)).
      rewrite !count_subject_app, !(Hoth _ Hne). pose proof (Hkept S'). lia.
    + rewrite (count_subject_perm _ _ _ (sort_perm _)).
      rewrite !count_subject_app, !Hself. lia.
Qed.

(** X25. [add_timetable_entry] with a label of the form, on a timetable
    with one entry per slot, never lowers the forecast of the subject added
    and never raises the forecast of any other subject, whether it returns
    or raises. *)
Theorem add_entry_forecast (st : tracker) (day S S' : string) (n today : Z) :
  slots_ok st -> 1 <= n <= 7 ->
  exists r r',
    outcome (get_remaining_classes today S') st = inr r /\
    outcome (get_remaining_classes today S')
      (after (add_timetable_entry day (period_label n) S) st) = inr r' /\
    (S' = S -> r <= r') /\ (S' <> S -> r' <= r).
Proof.
  intros Hok Hn. do 2 eexists. rewrite !get_remaining_classes_run.
  do 2 (split; [reflexivity|]).
  pose proof (slots_ok_classes st day Hok) as Hd.
  unfold after. rewrite add_timetable_entry_run, period_num_of_label by exact Hn.
  cbv zeta.
  destruct (lab_flag st S && _) eqn:Hc; cbn [snd].
  - (* raised: at most an empty day was created *)
    assert (Hsame : forall X dn,
              count_subject X (classes_on (day_created day st) dn)
              = count_subject X (classes_on st dn)).
    { intros X dn. unfold classes_on, day_created.
      destruct (decide (is_Some (timetable st !! day))) as [H|H]; [reflexivity|].
      cbn [timetable with_timetable]. apply eq_None_not_Some in H.
      destruct (decide (dn = day)) as [->|Hne].
      - rewrite lookup_insert_eq, H. reflexivity.
      - rewrite lookup_insert_ne by congruence. reflexivity. }
    assert (Hh : holidays (day_created day st) = holidays st)
      by (unfold day_created; destruct (decide _); reflexivity).
    assert (He : semester_end_date (day_created day st) = semester_end_date st)
      by (unfold day_created; destruct (decide _); reflexivity).
    split; intros _.
    + apply forecast_compare; [symmetry; exact Hh|symmetry; exact He|].
      intros dn. rewrite Hsame. lia.
    + apply forecast_compare; [exact Hh|exact He|].
      intros dn. rewrite Hsame. lia.
  - assert (Hfree : lab_flag st S = true ->
              existsb (fun e => in_period (n + 1) e.1)
                (default [] (timetable st !! day)) = false).
    { intros Hl. rewrite Hl in Hc. simpl in Hc.
      apply orb_false_iff in Hc as [_ Hc]. exact Hc. }
    destruct (count_subject_added (lab_flag st S) n S S' _ Hn Hd Hfree)
      as [Hother _].
    destruct (count_subject_added (lab_flag st S) n S S _ Hn Hd Hfree)
      as [_ Hself].
    split.
    + intros ->. apply forecast_compare; [reflexivity|reflexivity|].
      intros dn. unfold classes_on. cbn [timetable with_timetable].
      destruct (decide (dn = day)) as [->|Hne].
      * rewrite lookup_insert_eq. exact Hself.
      * rewrite lookup_insert_ne by congruence. lia.
    + intros Hne. apply forecast_compare; [reflexivity|reflexivity|].
      intros dn. unfold classes_on. cbn [timetable with_timetable].
      destruct (decide (dn = day)) as [->|Hne'].
      * rewrite lookup_insert_eq. exact (Hother Hne).
      * rewrite lookup_insert_ne by congruence. lia.
Qed.

Lemma add_entry_forecast_witness :
  exists r r',
    outcome (get_remaining_classes 739500 "MATH") lab_monday = inr r /\
    outcome (get_remaining_classes 739500 "MATH")
      (after (add_timetable_entry "Tuesday" (period_label 3) "MATH") lab_monday)
    = inr r' /\
    r <= r'.
Proof.
  destruct (add_entry_forecast lab_monday "Tuesday" "MATH" "MATH" 3 739500)
    as (r & r' & Hr & Hr' & Hself & _).
  - intros day classes H. apply (lab_monday_invariant day classes H).
  - lia.
  - exists r, r'. split; [exact Hr|]. split; [exact Hr'|]. apply Hself. reflexivity.
Defined.

(** X27. A subject that has just been deleted looks like one never
    seen: its statistics are all zero, its forecast is 0 and nothing can be
    bunked. *)
Theorem deleted_subject_statistics (st : tracker) (today : Z) (S : string) :
  is_Some (subjects st !! S) ->
  let st' := after (delete_subject S) st in
  outcome (get_attendance_stats today S) st'
  = inr {| current_present := 0; current_absent := 0; current_total := 0;
           percentage := Py.round2 0; remaining_classes := 0;
           stats_yet_to_go := 0; classes_needed := 0; total_possible := 0 |} /\
  outcome (calculate_bunkable_classes today S) st' = inr 0.
Proof.
  intros Hin st'.
  destruct (delete_subject_fields st S Hin)
    as (_ & Hrec & Hini & Htt & _). fold st' in Hrec, Hini, Htt.
  assert (Hr : records_of st' S = []).
  { unfold records_of. rewrite Hrec, lookup_delete_eq. reflexivity. }
  assert (Hs : seed_of st' S = {| present := 0; absent := 0; yet_to_go := 0 |}).
  { unfold seed_of. rewrite Hini, lookup_delete_eq. reflexivity. }
  assert (Hrem : remaining_loop st' today S = 0).
  { apply foldl_remaining_zero. intros d _. rewrite remaining_step_count.
    destruct (decide _); [reflexivity|].
    unfold classes_on, count_subject. rewrite Htt, lookup_fmap.
    destruct (timetable st !! Calendar.day_name d) as [classes|]; [|reflexivity].
    simpl. rewrite filter_none; [reflexivity|].
    intros e He. apply without_subject_spec in He as [_ He].
    apply String.eqb_neq. exact He. }
  split.
  - unfold outcome. rewrite get_attendance_stats_full. cbv zeta.
    unfold present_of, absent_of. rewrite Hr, Hs, Hrem. reflexivity.
  - rewrite calculate_bunkable_classes_run. cbv zeta.
    unfold present_of, absent_of. rewrite Hr, Hs. reflexivity.
Qed.

Lemma deleted_subject_statistics_witness :
  outcome (calculate_bunkable_classes 739500 "CS101")
    (after (delete_subject "CS101") cs101) = inr 0.
Proof.
  destruct (deleted_subject_statistics cs101 739500 "CS101") as [_ H];
    [eexists; reflexivity|exact H].
Defined.
